(** * OCI Data Science MCP server: the action-dispatch tool envelope

    A shallow embedding of [oracle/oci_data_science_mcp_server/server.py]:
    the validation helpers [_require] and [_at_least_one], the success
    payload builder [_ok], and the nine tools that dispatch on an [action]
    string, call the cloud SDK and reshape its answer.

    Python values are embedded as the type [value]; a [str] is the sequence
    of its code points, each below 256.  An exception is a class name with a
    message.  The cloud SDK (oci, ads) is not part of the repository: it is
    a parameter of the tools, an oracle that answers each request either
    with a value or with an exception.  Each tool runs in a small monad that
    threads the log of SDK requests and logger records and carries the
    raised exception. *)

From stdpp Require Import gmap strings list.

#[local] Set Warnings "-register-all".
#[local] Open Scope string_scope.
#[local] Open Scope Z_scope.

(** ** Python values *)

(** [VFloat] carries the IEEE-754 binary64 bit pattern; the server never
    computes with a float, it only hands it on.  [VObj] is an instance of a
    class with its attributes: an SDK model, a client, a response. *)
Inductive value :=
| VNone
| VBool (b : bool)
| VInt (n : Z)
| VFloat (bits : Z)
| VStr (s : string)
| VList (xs : list value)
| VDict (kv : gmap string value)
| VObj (cls : string) (attrs : gmap string value).

(** [Optional[str]], [Optional[int]] and [Optional[float]] parameters. *)
Definition ostr (o : option string) : value := from_option VStr VNone o.
Definition oint (o : option Z) : value := from_option VInt VNone o.
Definition ofloat (o : option Z) : value := from_option VFloat VNone o.

Definition is_None (v : value) : bool :=
  match v with VNone => true | _ => false end.

(** [bool(v)]. *)
Definition truthy (v : value) : bool :=
  match v with
  | VNone => false
  | VBool b => b
  | VInt n => negb (n =? 0)
  | VFloat bits => negb ((bits =? 0) || (bits =? 2 ^ 63))
  | VStr s => negb (String.eqb s "")
  | VList xs => match xs with [] => false | _ => true end
  | VDict kv => negb (bool_decide (kv = ∅))
  | VObj _ _ => true
  end.

(** ** Strings *)

(** [str.isspace] on the code points below 256. *)
Definition is_space (c : Ascii.ascii) : bool :=
  let n := Ascii.nat_of_ascii c in
  ((9 <=? n) && (n <=? 13) || (28 <=? n) && (n <=? 32)
   || (n =? 133) || (n =? 160))%nat.

Fixpoint lstrip (s : string) : string :=
  match s with
  | EmptyString => EmptyString
  | String c s' => if is_space c then lstrip s' else s
  end.

Definition rstrip (s : string) : string := String.rev (lstrip (String.rev s)).

(** [s.strip()] *)
Definition strip (s : string) : string := rstrip (lstrip s).

(** Every character of [s] is white space ([s] may be empty). *)
Fixpoint whitespace_only (s : string) : bool :=
  match s with
  | EmptyString => true
  | String c s' => is_space c && whitespace_only s'
  end.

(** ** Exceptions and results *)

Record exc := Exc { exc_class : string; exc_msg : string }.

Definition ValueError (msg : string) : exc := Exc "ValueError" msg.
Definition TypeError (msg : string) : exc := Exc "TypeError" msg.
Definition AttributeError (msg : string) : exc := Exc "AttributeError" msg.
Definition KeyError (msg : string) : exc := Exc "KeyError" msg.
Definition IndexError (msg : string) : exc := Exc "IndexError" msg.

Inductive result (A : Type) :=
| Ok (a : A)
| Err (e : exc).
Arguments Ok {A} a.
Arguments Err {A} e.

(** ** Validation helpers *)

(** The test of [_require]:
    [value is None or (isinstance(value, str) and not value.strip())]. *)
Definition missing (v : value) : bool :=
  is_None v
  || match v with VStr s => negb (truthy (VStr (strip s))) | _ => false end.

(** [_require(value, name, *, action)] *)
Definition _require (v : value) (name : string) (action : string) : result unit :=
  if missing v
  then Err (ValueError ("Missing required parameter '" +:+ name
                        +:+ "' for action='" +:+ action +:+ "'."))
  else Ok ().

(** The generator expression of [_at_least_one]:
    [v is not None and (not isinstance(v, str) or v.strip())]. *)
Definition provided (v : value) : bool :=
  negb (is_None v)
  && match v with VStr s => truthy (VStr (strip s)) | _ => true end.

(** [_at_least_one( *pairs, action)] *)
Definition _at_least_one (pairs : list (string * value)) (action : string)
  : result unit :=
  if negb (existsb (λ kv, provided kv.2) pairs)
  then
    let keys := String.concat ", " (map fst pairs) in
    Err (ValueError ("At least one of [" +:+ keys
                     +:+ "] must be provided for action='" +:+ action +:+ "'."))
  else Ok ().

(** ** The success payload *)

(** The names of the positional parameters of [_ok]. *)
Definition _ok_params : list string := ["resource"; "action"; "result"].

(** The body of [_ok]: the dict literal, then [payload.update(extra)]. *)
Definition _ok_body (resource action : string) (res : value)
    (extra : gmap string value) : gmap string value :=
  extra ∪ {[ "resource" := VStr resource; "action" := VStr action;
             "result" := res ]}.

(** [_ok(resource, action, result, **extra)].  A keyword argument that
    names a parameter already bound by position is refused by the call
    itself, before the body runs. *)
Definition _ok (resource action : string) (res : value)
    (extra : gmap string value) : result (gmap string value) :=
  match List.find (λ k, bool_decide (is_Some (extra !! k))) _ok_params with
  | Some k => Err (TypeError ("_ok() got multiple values for argument '"
                              +:+ k +:+ "'"))
  | None => Ok (_ok_body resource action res extra)
  end.

(** ** The monad of a tool invocation *)

#[global] Instance result_ret : MRet result := λ A a, Ok a.
#[global] Instance result_bind : MBind result := λ A B f r,
  match r with Ok a => f a | Err e => Err e end.

(** What an invocation leaves behind: the requests it sent to the SDK, with
    their positional and keyword arguments, and the records it handed to
    the logger. *)
Inductive event :=
| ECall (op : string) (args : list value) (kwargs : gmap string value)
| ELog (level : string) (msg : string) (args : list value).

(** The SDK and the environment behind it: the answer, a value or an
    exception, to each request, given by its name and its positional and
    keyword arguments.  A method call carries its instance as the first
    positional argument.  The answer to a request does not depend on the
    requests sent before it. *)
Definition Provider : Type :=
  string → list value → gmap string value → result value.

Definition M (A : Type) : Type := list event → list event * result A.

#[global] Instance M_ret : MRet M := λ A a t, (t, Ok a).
#[global] Instance M_bind : MBind M := λ A B f m t,
  match m t with
  | (t', Ok a) => f a t'
  | (t', Err e) => (t', Err e)
  end.

Definition raise {A} (e : exc) : M A := λ t, (t, Err e).

(** A computation that touches neither the SDK nor the logger. *)
Definition lift {A} (r : result A) : M A := λ t, (t, r).

Definition call (sdk : Provider) (op : string) (args : list value)
    (kwargs : gmap string value) : M value :=
  λ t, ((t ++ [ECall op args kwargs])%list, sdk op args kwargs).

Definition log (level msg : string) (args : list value) : M unit :=
  λ t, ((t ++ [ELog level msg args])%list, Ok ()).

(** [try: m  except Exception as e: h e] *)
Definition try_except {A} (m : M A) (h : exc → M A) : M A := λ t,
  match m t with
  | (t', Ok a) => (t', Ok a)
  | (t', Err e) => h e t'
  end.

(** The frame of every tool:
    [try: body  except Exception: logger.exception(msg); raise]. *)
Definition logged {A} (msg : string) (body : M A) : M A :=
  try_except body (λ e, log "ERROR" msg [];; raise e).

(** ** Python operations the tools use *)

(** [v.name] *)
Definition attr (v : value) (name : string) : result value :=
  match v with
  | VObj cls attrs =>
      match attrs !! name with
      | Some x => Ok x
      | None => Err (AttributeError ("'" +:+ cls +:+ "' object has no attribute '"
                                     +:+ name +:+ "'"))
      end
  | _ => Err (AttributeError ("object has no attribute '" +:+ name +:+ "'"))
  end.

(** [getattr(v, name, default)] *)
Definition getattr (v : value) (name : string) (default : value) : value :=
  match v with
  | VObj _ attrs => from_option id default (attrs !! name)
  | _ => default
  end.

(** [d[key]] on a dict. *)
Definition getitem (v : value) (key : string) : result value :=
  match v with
  | VDict kv =>
      match kv !! key with
      | Some x => Ok x
      | None => Err (KeyError key)
      end
  | _ => Err (TypeError "object is not subscriptable")
  end.

(** The characters of a str, each a str of length one. *)
Definition chars (s : string) : list value :=
  (λ c, VStr (String c EmptyString)) <$> String.list_ascii_of_string s.

(** [v[0]] *)
Definition first (v : value) : result value :=
  match v with
  | VList (x :: _) => Ok x
  | VList [] => Err (IndexError "list index out of range")
  | VStr s =>
      match chars s with
      | c :: _ => Ok c
      | [] => Err (IndexError "string index out of range")
      end
  | VDict _ => Err (KeyError "0")
  | _ => Err (TypeError "object is not subscriptable")
  end.

(** [for x in v].  The sequences the SDK answers are embedded as [VList];
    a dict yields its keys, here in the order of the keys, as the dicts of
    the embedding do not keep the order of insertion. *)
Definition iter (v : value) : result (list value) :=
  match v with
  | VList xs => Ok xs
  | VStr s => Ok (chars s)
  | VDict kv => Ok (VStr <$> (map_to_list kv).*1)
  | _ => Err (TypeError "object is not iterable")
  end.

(** [xs[:n]] *)
Definition slice_to {A} (xs : list A) (n : Z) : list A :=
  if n <? 0 then take (Z.to_nat (Z.of_nat (length xs) + n)) xs
  else take (Z.to_nat n) xs.

(** [if limit is not None: rows = rows[:limit]] *)
Definition truncate {A} (limit : option Z) (rows : list A) : list A :=
  match limit with
  | Some n => slice_to rows n
  | None => rows
  end.

(** [a or b] *)
Definition py_or (a b : value) : value := if truthy a then a else b.

(** [v == s] for a str [s], and for an [Optional[str]]. *)
Definition eq_str (v : value) (s : string) : bool :=
  match v with VStr s' => String.eqb s' s | _ => false end.

Definition eq_ostr (v : value) (o : option string) : bool :=
  match o with Some s => eq_str v s | None => is_None v end.

(** A method, looked up on its instance and passed on uncalled. *)
Definition bound_method (self : value) (name : string) : value :=
  VObj "method" {[ "__self__" := self; "__name__" := VStr name ]}.

Section Server.

Variable sdk : Provider.

(** [len(v)]; an instance answers through its [__len__]. *)
Definition len (v : value) : M value :=
  match v with
  | VList xs => mret (VInt (Z.of_nat (length xs)))
  | VStr s => mret (VInt (Z.of_nat (String.length s)))
  | VDict kv => mret (VInt (Z.of_nat (size kv)))
  | VObj _ _ =>
      r ← call sdk "__len__" [v] ∅;
      match r with
      | VInt n => if n <? 0 then raise (ValueError "__len__() should return >= 0")
                  else mret (VInt n)
      | _ => raise (TypeError "object cannot be interpreted as an integer")
      end
  | _ => raise (TypeError "object has no len()")
  end.

(** [str(v)]; anything but a str answers through its [__str__], the
    built-in ones included. *)
Definition str (v : value) : M value :=
  match v with
  | VStr s => mret (VStr s)
  | _ =>
      r ← call sdk "__str__" [v] ∅;
      match r with
      | VStr s => mret (VStr s)
      | _ => raise (TypeError "__str__ returned non-string")
      end
  end.

(** [_list_files_recursive(base_dir)] walks the file system below
    [base_dir] and returns a record (path, bytes) for each of at most 200
    files, none when the directory does not exist.  The walk is a request
    to the environment. *)
Definition _list_files_recursive (base_dir : value) : M value :=
  call sdk "_list_files_recursive" [base_dir] ∅.

(** [raise ValueError(f"Unsupported action='{action}'")] *)
Definition unsupported {A} (action : string) : M A :=
  raise (ValueError ("Unsupported action='" +:+ action +:+ "'")).

(** ** The tools *)

(** [if cond: kwargs[key] = v] *)
Definition set_if (cond : bool) (key : string) (v : value)
    (kwargs : gmap string value) : gmap string value :=
  if cond then <[key := v]> kwargs else kwargs.

(** *** 1) Compartments *)

Definition compartment_row (c : value) : result value :=
  name ← attr c "name";
  id ← attr c "id";
  mret (VDict {[ "name" := name; "id" := id;
                 "lifecycle_state" := getattr c "lifecycle_state" VNone ]}).

(** [{c["name"]: c["id"] for c in compartments}].  The dicts of the
    embedding have str keys; a name that is not a str is refused. *)
Fixpoint by_name_of (compartments : list value) (acc : gmap string value)
  : result (gmap string value) :=
  match compartments with
  | [] => Ok acc
  | c :: rest =>
      name ← getitem c "name";
      id ← getitem c "id";
      match name with
      | VStr s => by_name_of rest (<[s := id]> acc)
      | _ => Err (TypeError "dict key is not a str")
      end
  end.

Definition oci_ds_compartments (action : string) : M (gmap string value) :=
  logged "Error listing compartments" (
    config ← call sdk "get_oci_config" [] ∅;
    tenancy_id ← lift (getitem config "tenancy");
    identity_client ← call sdk "get_identity_client" [] ∅;
    response ← call sdk "oci.pagination.list_call_get_all_results"
      [bound_method identity_client "list_compartments"; tenancy_id]
      {[ "compartment_id_in_subtree" := VBool true;
         "access_level" := VStr "ANY" ]};
    data ← lift (attr response "data");
    cs ← lift (iter data);
    compartments ← lift (mapM compartment_row cs);
    by_name ← lift (by_name_of compartments ∅);
    lift (_ok "compartments" action
            (VDict {[ "by_name" := VDict by_name;
                      "compartments" := VList compartments ]}) ∅)).

(** *** 2) Projects *)

Definition projects_actions : list string :=
  ["create"; "list"; "update"; "delete"; "count"].

Definition project_row (p : value) : result value :=
  id ← attr p "id";
  mret (VDict {[ "project_id" := id;
                 "project_name" := getattr p "display_name" VNone;
                 "project_description" := getattr p "description" VNone ]}).

Definition data_science_projects (action : string) (compartment_id : string)
    (project_id project_name project_description new_name new_description
       : option string)
    (limit : option Z) : M (gmap string value) :=
  logged "Error in data_science_projects" (
    pc ← call sdk "ProjectCatalog" [] {[ "compartment_id" := VStr compartment_id ]};
    if String.eqb action "count" then
      call sdk "ProjectCatalog.list_projects" [pc] ∅;;
      n ← len pc;
      lift (_ok "projects" action n {[ "compartment_id" := VStr compartment_id ]})
    else if String.eqb action "list" then
      projects ← call sdk "ProjectCatalog.list_projects" [pc] ∅;
      ps ← lift (iter projects);
      rows ← lift (mapM project_row ps);
      lift (_ok "projects" action (VList (truncate limit rows))
              {[ "compartment_id" := VStr compartment_id ]})
    else if String.eqb action "create" then
      lift (_require (ostr project_name) "project_name" action);;
      created ← call sdk "ProjectCatalog.create_project" [pc]
        {[ "display_name" := ostr project_name;
           "description" := ostr project_description;
           "compartment_id" := VStr compartment_id ]};
      lift (_ok "projects" action
              (VDict {[ "project_id" := getattr created "id" VNone;
                        "project_name" :=
                          getattr created "display_name" (ostr project_name);
                        "project_description" :=
                          getattr created "description" (ostr project_description) ]})
              {[ "next_actions" :=
                   VList [VStr "data_science_notebook_sessions(action='create')";
                          VStr "data_science_jobs(action='create_script'|'create_container')"] ]})
    else if String.eqb action "update" then
      lift (_require (ostr project_id) "project_id" action);;
      lift (_at_least_one [("new_name", ostr new_name);
                           ("new_description", ostr new_description)] action);;
      let kwargs :=
        set_if (truthy (ostr new_description)) "description" (ostr new_description)
          (set_if (truthy (ostr new_name)) "display_name" (ostr new_name) ∅) in
      call sdk "ProjectCatalog.update_project" [pc]
        (<["project_id" := ostr project_id]> kwargs);;
      lift (_ok "projects" action
              (VDict {[ "project_id" := ostr project_id; "updated" := VBool true ]})
              {[ "compartment_id" := VStr compartment_id ]})
    else if String.eqb action "delete" then
      lift (_require (ostr project_id) "project_id" action);;
      call sdk "ProjectCatalog.delete_project" [pc; ostr project_id] ∅;;
      lift (_ok "projects" action
              (VDict {[ "project_id" := ostr project_id; "deleted" := VBool true ]})
              {[ "compartment_id" := VStr compartment_id ]})
    else unsupported action).

(** *** 3) Model catalog *)

Definition model_catalog_actions : list string :=
  ["list_models"; "download"; "count"; "list_version_sets";
   "version_set_attributes"].

Definition model_row (m : value) : M value :=
  time_created ←
    (if negb (is_None (getattr m "time_created" VNone))
     then str (getattr m "time_created" (VStr ""))
     else mret VNone);
  mret (VDict {[ "model_id" := getattr m "id" VNone;
                 "display_name" := getattr m "display_name" VNone;
                 "model_version_set" := getattr m "model_version_set_name" VNone;
                 "model_version_label" := getattr m "version_label" VNone;
                 "model_version_id" := getattr m "version_id" VNone;
                 "project_id" := getattr m "project_id" VNone;
                 "lifecycle_state" := getattr m "lifecycle_state" VNone;
                 "time_created" := time_created ]}).

Definition version_set_row (mvs : value) : result value :=
  id ← attr mvs "id";
  name ← attr mvs "name";
  mret (VDict {[ "id" := id; "name" := name ]}).

(** The [try: ... except Exception: logger.exception(...)] around the
    download: the handler logs and falls through. *)
Definition try_download (model_id target_dir : option string) : M unit :=
  try_except
    (model ← call sdk "GenericModel.from_id" [ostr model_id] ∅;
     call sdk "GenericModel.download_artifact" [model]
       {[ "artifact_dir" := ostr target_dir;
          "force_overwrite" := VBool true;
          "remove_existing_artifact" := VBool true ]};;
     mret ())
    (λ _, log "ERROR" "Download failed but failed" []).

Definition data_science_model_catalog (action : string) (compartment_id : string)
    (project_id model_id target_dir model_version_set_id : option string)
    (limit : option Z) : M (gmap string value) :=
  logged "Error in data_science_model_catalog" (
    if String.eqb action "count" then
      mc ← call sdk "ModelCatalog" [] {[ "compartment_id" := VStr compartment_id ]};
      models ← call sdk "ModelCatalog.list_models" [mc] ∅;
      n ← len models;
      lift (_ok "model_catalog" action n
              {[ "compartment_id" := VStr compartment_id ]})
    else if String.eqb action "list_models" then
      mc ← call sdk "ModelCatalog" [] {[ "compartment_id" := VStr compartment_id ]};
      models ←
        (if truthy (ostr project_id) then
           try_except
             (call sdk "ModelCatalog.list_models" [mc]
                {[ "project_id" := ostr project_id ]})
             (λ e,
                if String.eqb (exc_class e) "TypeError" then
                  all ← call sdk "ModelCatalog.list_models" [mc] ∅;
                  ms ← lift (iter all);
                  mret (VList (List.filter
                    (λ m, eq_ostr (getattr m "project_id" VNone) project_id)
                    ms))
                else raise e)
         else call sdk "ModelCatalog.list_models" [mc] ∅);
      ms ← lift (iter models);
      rows ← mapM model_row ms;
      lift (_ok "model_catalog" action (VList (truncate limit rows))
              {[ "compartment_id" := VStr compartment_id ]})
    else if String.eqb action "download" then
      lift (_require (ostr model_id) "model_id" action);;
      lift (_require (ostr target_dir) "target_dir" action);;
      try_download model_id target_dir;;
      downloaded_files ← _list_files_recursive (ostr target_dir);
      (if negb (truthy downloaded_files)
       then log "WARNING"
              "Model download completed but no files were found in target_dir=%s (model_id=%s). "
              [ostr target_dir; ostr model_id]
       else mret ());;
      n ← len downloaded_files;
      lift (_ok "model_catalog" action
              (VDict {[ "artifact_dir" := ostr target_dir;
                        "downloaded_files" := downloaded_files;
                        "downloaded_files_count" := n ]})
              {[ "compartment_id" := VStr compartment_id ]})
    else if String.eqb action "list_version_sets" then
      ds_client ← call sdk "get_data_science_client" [] ∅;
      resp ← call sdk "DataScienceClient.list_model_version_sets" [ds_client]
        {[ "compartment_id" := VStr compartment_id ]};
      mvss ← lift (attr resp "data");
      xs ← lift (iter mvss);
      rows ← lift (mapM version_set_row xs);
      lift (_ok "model_catalog" action (VList (truncate limit rows))
              {[ "compartment_id" := VStr compartment_id ]})
    else if String.eqb action "version_set_attributes" then
      lift (_require (ostr model_version_set_id) "model_version_set_id" action);;
      mvs ← call sdk "ModelVersionSet.from_id" [ostr model_version_set_id] ∅;
      d ← call sdk "ModelVersionSet.to_dict" [mvs] ∅;
      lift (_ok "model_catalog" action d
              {[ "compartment_id" := VStr compartment_id ]})
    else unsupported action).

(** *** 4) Jobs *)

Definition jobs_actions : list string :=
  ["create_script"; "create_container"; "list"; "details"; "update"; "delete"].

Definition job_row (j : value) : result value :=
  job_id ← attr j "job_id";
  name ← attr j "name";
  mret (VDict {[ "job_id" := job_id; "job_name" := name ]}).

Definition data_science_jobs (action : string)
    (compartment_id project_id job_id display_name script_path : option string)
    (conda_env shape : string) (ocpus : option Z) (memory_in_gbs : option Z)
    (block_storage_size : Z) (image new_display_name : option string)
  : M (gmap string value) :=
  logged "Error in data_science_jobs" (
    if String.eqb action "list" then
      lift (_require (ostr compartment_id) "compartment_id" action);;
      jobs ← call sdk "DataScienceJob.list_jobs" []
        {[ "compartment_id" := ostr compartment_id ]};
      js ← lift (iter jobs);
      rows ← lift (mapM job_row js);
      lift (_ok "jobs" action (VList rows)
              {[ "compartment_id" := ostr compartment_id ]})
    else if String.eqb action "details" then
      lift (_require (ostr job_id) "job_id" action);;
      job ← call sdk "Job.from_datascience_job" [ostr job_id] ∅;
      d ← call sdk "Job.to_dict" [job] ∅;
      lift (_ok "jobs" action d ∅)
    else if String.eqb action "delete" then
      lift (_require (ostr job_id) "job_id" action);;
      job ← call sdk "Job.from_datascience_job" [ostr job_id] ∅;
      call sdk "Job.delete" [job] ∅;;
      lift (_ok "jobs" action
              (VDict {[ "job_id" := ostr job_id; "deleted" := VBool true ]}) ∅)
    else if String.eqb action "create_script" then
      lift (_require (ostr compartment_id) "compartment_id" action);;
      lift (_require (ostr project_id) "project_id" action);;
      lift (_require (ostr script_path) "script_path" action);;
      lift (_require (ostr display_name) "display_name" action);;
      infra ← call sdk "DataScienceJob" [] ∅;
      infra ← call sdk "DataScienceJob.with_shape_name" [infra; VStr shape] ∅;
      infra ← call sdk "DataScienceJob.with_compartment_id"
                [infra; ostr compartment_id] ∅;
      infra ← call sdk "DataScienceJob.with_project_id" [infra; ostr project_id] ∅;
      infra ← call sdk "DataScienceJob.with_block_storage_size"
                [infra; VInt block_storage_size] ∅;
      infra ←
        (if negb (is_None (oint ocpus)) && negb (is_None (ofloat memory_in_gbs))
         then call sdk "DataScienceJob.with_shape_config_details" [infra]
                {[ "memory_in_gbs" := ofloat memory_in_gbs;
                   "ocpus" := oint ocpus ]}
         else mret infra);
      job ← call sdk "Job" [] {[ "name" := ostr display_name ]};
      job ← call sdk "Job.with_infrastructure" [job; infra] ∅;
      runtime ← call sdk "ScriptRuntime" [] ∅;
      runtime ← call sdk "ScriptRuntime.with_service_conda"
                  [runtime; VStr conda_env] ∅;
      runtime ← call sdk "ScriptRuntime.with_source" [runtime; ostr script_path] ∅;
      job ← call sdk "Job.with_runtime" [job; runtime] ∅;
      call sdk "Job.create" [job] ∅;;
      d ← call sdk "Job.to_dict" [job] ∅;
      lift (_ok "jobs" action d
              {[ "next_actions" := VList [VStr "data_science_job_runs(action='start')"] ]})
    else if String.eqb action "create_container" then
      lift (_require (ostr compartment_id) "compartment_id" action);;
      lift (_require (ostr project_id) "project_id" action);;
      lift (_require (ostr image) "image" action);;
      lift (_require (ostr display_name) "display_name" action);;
      job ← call sdk "Job" [] {[ "name" := ostr display_name ]};
      infra ← call sdk "DataScienceJob" [] ∅;
      infra ← call sdk "DataScienceJob.with_compartment_id"
                [infra; ostr compartment_id] ∅;
      infra ← call sdk "DataScienceJob.with_project_id" [infra; ostr project_id] ∅;
      infra ← call sdk "DataScienceJob.with_shape_name"
                [infra; VStr "VM.Standard2.1"] ∅;
      job ← call sdk "Job.with_infrastructure" [job; infra] ∅;
      runtime ← call sdk "ContainerRuntime" [] ∅;
      runtime ← call sdk "ContainerRuntime.with_image" [runtime; ostr image] ∅;
      runtime ← call sdk "ContainerRuntime.with_replica" [runtime; VInt 1] ∅;
      job ← call sdk "Job.with_runtime" [job; runtime] ∅;
      call sdk "Job.create" [job] ∅;;
      d ← call sdk "Job.to_dict" [job] ∅;
      lift (_ok "jobs" action d
              {[ "next_actions" := VList [VStr "data_science_job_runs(action='start')"] ]})
    else if String.eqb action "update" then
      lift (_require (ostr job_id) "job_id" action);;
      lift (_at_least_one [("new_display_name", ostr new_display_name)] action);;
      ds_client ← call sdk "get_data_science_client" [] ∅;
      call sdk "DataScienceClient.update_job" [ds_client]
        {[ "job_id" := ostr job_id;
           "update_job_details" :=
             VObj "UpdateJobDetails" {[ "display_name" := ostr new_display_name ]} ]};;
      lift (_ok "jobs" action
              (VDict {[ "job_id" := ostr job_id; "updated" := VBool true ]}) ∅)
    else unsupported action).

(** *** 5) Job runs *)

Definition job_runs_actions : list string := ["start"; "list"; "status"; "cancel"].

(** [oci.util.to_dict(v)] *)
Definition to_dict (v : value) : M value := call sdk "oci.util.to_dict" [v] ∅.

Definition data_science_job_runs (action : string)
    (compartment_id project_id job_id display_name job_run_id : option string)
    (limit : option Z) : M (gmap string value) :=
  logged "Error in data_science_job_runs" (
    ds_client ← call sdk "get_data_science_client" [] ∅;
    if String.eqb action "start" then
      lift (_require (ostr compartment_id) "compartment_id" action);;
      lift (_require (ostr project_id) "project_id" action);;
      lift (_require (ostr job_id) "job_id" action);;
      lift (_require (ostr display_name) "display_name" action);;
      resp ← call sdk "DataScienceClient.create_job_run" [ds_client]
        {[ "create_job_run_details" :=
             VObj "CreateJobRunDetails"
               {[ "project_id" := ostr project_id;
                  "compartment_id" := ostr compartment_id;
                  "job_id" := ostr job_id;
                  "display_name" := ostr display_name ]} ]};
      data ← lift (attr resp "data");
      raw ← to_dict data;
      lift (_ok "job_runs" action
              (VDict {[ "job_run_id" := getattr data "id" VNone;
                        "lifecycle_state" :=
                          py_or (getattr data "lifecycle_state" VNone)
                                (getattr data "state" VNone);
                        "raw" := raw ]}) ∅)
    else if String.eqb action "list" then
      lift (_require (ostr compartment_id) "compartment_id" action);;
      let kwargs :=
        set_if (negb (is_None (oint limit))) "limit" (oint limit)
          (set_if (truthy (ostr job_id)) "job_id" (ostr job_id)
             {[ "compartment_id" := ostr compartment_id ]}) in
      resp ← call sdk "DataScienceClient.list_job_runs" [ds_client] kwargs;
      data ← lift (attr resp "data");
      runs ← lift (iter data);
      rows ← mapM to_dict runs;
      lift (_ok "job_runs" action (VList rows) ∅)
    else if String.eqb action "status" then
      if truthy (ostr job_run_id) then
        resp ← call sdk "DataScienceClient.get_job_run" [ds_client]
          {[ "job_run_id" := ostr job_run_id ]};
        data ← lift (attr resp "data");
        d ← to_dict data;
        lift (_ok "job_runs" action d ∅)
      else
        lift (_require (ostr compartment_id) "compartment_id" action);;
        lift (_require (ostr job_id) "job_id" action);;
        resp ← call sdk "DataScienceClient.list_job_runs" [ds_client]
          {[ "compartment_id" := ostr compartment_id;
             "job_id" := ostr job_id;
             "sort_by" := VStr "timeCreated";
             "sort_order" := VStr "DESC";
             "limit" := VInt 1 ]};
        data ← lift (attr resp "data");
        if negb (truthy data) then
          lift (_ok "job_runs" action VNone
                  {[ "message" := VStr "No job runs found." ]})
        else
          latest ← lift (first data);
          d ← to_dict latest;
          lift (_ok "job_runs" action d ∅)
    else if String.eqb action "cancel" then
      let cancel (job_run_id : value) : M (gmap string value) :=
        call sdk "DataScienceClient.cancel_job_run" [ds_client]
          {[ "job_run_id" := job_run_id ]};;
        lift (_ok "job_runs" action
                (VDict {[ "job_run_id" := job_run_id;
                          "cancel_requested" := VBool true ]}) ∅) in
      if negb (truthy (ostr job_run_id)) then
        lift (_require (ostr compartment_id) "compartment_id" action);;
        lift (_require (ostr job_id) "job_id" action);;
        resp ← call sdk "DataScienceClient.list_job_runs" [ds_client]
          {[ "compartment_id" := ostr compartment_id;
             "job_id" := ostr job_id;
             "sort_by" := VStr "timeCreated";
             "sort_order" := VStr "DESC";
             "limit" := VInt 1 ]};
        data ← lift (attr resp "data");
        if negb (truthy data) then
          lift (_ok "job_runs" action VNone
                  {[ "message" := VStr "No job runs found to cancel." ]})
        else
          latest ← lift (first data);
          latest_id ← lift (attr latest "id");
          cancel latest_id
      else cancel (ostr job_run_id)
    else unsupported action).

(** *** 6) Notebook sessions *)

Definition notebook_sessions_actions : list string :=
  ["create"; "activate"; "stop"; "delete"; "list"].

Definition flex_shapes : gset string :=
  {[ "VM.Standard.E5.Flex"; "VM.Standard.E4.Flex" ]}.

Definition session_row (s : value) : result value :=
  id ← attr s "id";
  name ← attr s "display_name";
  state ← attr s "lifecycle_state";
  mret (VDict {[ "id" := id; "name" := name; "lifecycle_state" := state ]}).

(** The keyword arguments of [NotebookSessionConfigDetails]. *)
Definition cfg_kwargs (shape : string) (block_storage_size_in_gbs : Z)
    (subnet_id private_endpoint_id : option string)
    (ocpus memory_in_gbs : option Z) : gmap string value :=
  set_if (negb (is_None (oint ocpus)) && negb (is_None (oint memory_in_gbs)))
    "notebook_session_shape_config_details"
    (VObj "NotebookSessionShapeConfigDetails"
       {[ "ocpus" := oint ocpus; "memory_in_gbs" := oint memory_in_gbs ]})
    (set_if (truthy (ostr private_endpoint_id)) "private_endpoint_id"
       (ostr private_endpoint_id)
       (set_if (truthy (ostr subnet_id)) "subnet_id" (ostr subnet_id)
          {[ "shape" := VStr shape;
             "block_storage_size_in_gbs" := VInt block_storage_size_in_gbs ]})).

(** The [CreateNotebookSessionDetails] handed to the create request. *)
Definition notebook_details (compartment_id project_id display_name : option string)
    (shape : string) (block_storage_size_in_gbs : Z)
    (subnet_id private_endpoint_id : option string)
    (ocpus memory_in_gbs : option Z) : value :=
  VObj "CreateNotebookSessionDetails"
    {[ "display_name" := ostr display_name;
       "project_id" := ostr project_id;
       "compartment_id" := ostr compartment_id;
       "notebook_session_config_details" :=
         VObj "NotebookSessionConfigDetails"
           (cfg_kwargs shape block_storage_size_in_gbs subnet_id
              private_endpoint_id ocpus memory_in_gbs) ]}.

Definition data_science_notebook_sessions (action : string)
    (compartment_id project_id notebook_session_id display_name : option string)
    (shape : string) (block_storage_size_in_gbs : Z)
    (subnet_id private_endpoint_id : option string)
    (ocpus memory_in_gbs : option Z) : M (gmap string value) :=
  logged "Error in data_science_notebook_sessions" (
    ds_client ← call sdk "get_data_science_client" [] ∅;
    if String.eqb action "list" then
      lift (_require (ostr compartment_id) "compartment_id" action);;
      resp ← call sdk "DataScienceClient.list_notebook_sessions" [ds_client]
        {[ "compartment_id" := ostr compartment_id ]};
      sessions ← lift (attr resp "data");
      ss ← lift (iter sessions);
      rows ← lift (mapM session_row ss);
      lift (_ok "notebook_sessions" action (VList rows)
              {[ "compartment_id" := ostr compartment_id ]})
    else if String.eqb action "create" then
      lift (_require (ostr compartment_id) "compartment_id" action);;
      lift (_require (ostr project_id) "project_id" action);;
      lift (_require (ostr display_name) "display_name" action);;
      if bool_decide (shape ∈ flex_shapes)
         && (is_None (oint ocpus) || is_None (oint memory_in_gbs))
      then raise (ValueError
             "For flexible shapes you must provide both ocpus and memory_in_gbs.")
      else
        resp ← call sdk "DataScienceClient.create_notebook_session"
          [ds_client;
           notebook_details compartment_id project_id display_name shape
             block_storage_size_in_gbs subnet_id private_endpoint_id
             ocpus memory_in_gbs] ∅;
        data ← lift (attr resp "data");
        time_created ← str (getattr data "time_created" (VStr ""));
        lift (_ok "notebook_sessions" action
                (VDict {[ "id" := getattr data "id" VNone;
                          "display_name" := getattr data "display_name" VNone;
                          "time_created" := time_created;
                          "notebook_session_url" :=
                            getattr data "notebook_session_url" VNone ]})
                {[ "next_actions" :=
                     VList [VStr "data_science_notebook_sessions(action='activate')"] ]})
    else if String.eqb action "activate" then
      lift (_require (ostr compartment_id) "compartment_id" action);;
      lift (_require (ostr notebook_session_id) "notebook_session_id" action);;
      call sdk "DataScienceClient.activate_notebook_session"
        [ds_client; ostr notebook_session_id] ∅;;
      resp ← call sdk "DataScienceClient.get_notebook_session"
        [ds_client; ostr notebook_session_id] ∅;
      nb ← lift (attr resp "data");
      lift (_ok "notebook_sessions" action
              (VDict {[ "notebook_session_id" := ostr notebook_session_id;
                        "message" := VStr "Notebook session activating.";
                        "notebook_session_url" :=
                          getattr nb "notebook_session_url" VNone ]}) ∅)
    else if String.eqb action "stop" then
      lift (_require (ostr notebook_session_id) "notebook_session_id" action);;
      call sdk "DataScienceClient.deactivate_notebook_session"
        [ds_client; ostr notebook_session_id] ∅;;
      lift (_ok "notebook_sessions" action
              (VDict {[ "notebook_session_id" := ostr notebook_session_id;
                        "stopped" := VBool true ]}) ∅)
    else if String.eqb action "delete" then
      lift (_require (ostr notebook_session_id) "notebook_session_id" action);;
      call sdk "DataScienceClient.delete_notebook_session"
        [ds_client; ostr notebook_session_id] ∅;;
      lift (_ok "notebook_sessions" action
              (VDict {[ "notebook_session_id" := ostr notebook_session_id;
                        "deleted" := VBool true ]}) ∅)
    else unsupported action).

(** *** 7) Pipelines *)

Definition pipelines_actions : list string := ["list"; "details"; "delete"].

Definition pipeline_row (p : value) : result value :=
  id ← attr p "id";
  name ← attr p "display_name";
  mret (VDict {[ "id" := id; "name" := name ]}).

Definition data_science_pipelines (action : string)
    (compartment_id pipeline_id : option string) (limit : option Z)
  : M (gmap string value) :=
  logged "Error in data_science_pipelines" (
    ds_client ← call sdk "get_data_science_client" [] ∅;
    if String.eqb action "list" then
      lift (_require (ostr compartment_id) "compartment_id" action);;
      resp ← call sdk "DataScienceClient.list_pipelines" [ds_client]
        {[ "compartment_id" := ostr compartment_id ]};
      pipes ← lift (attr resp "data");
      ps ← lift (iter pipes);
      rows ← lift (mapM pipeline_row ps);
      lift (_ok "pipelines" action (VList (truncate limit rows))
              {[ "compartment_id" := ostr compartment_id ]})
    else if String.eqb action "details" then
      lift (_require (ostr pipeline_id) "pipeline_id" action);;
      resp ← call sdk "DataScienceClient.get_pipeline" [ds_client]
        {[ "pipeline_id" := ostr pipeline_id ]};
      data ← lift (attr resp "data");
      d ← to_dict data;
      lift (_ok "pipelines" action d ∅)
    else if String.eqb action "delete" then
      lift (_require (ostr pipeline_id) "pipeline_id" action);;
      call sdk "DataScienceClient.delete_pipeline" [ds_client]
        {[ "pipeline_id" := ostr pipeline_id ]};;
      lift (_ok "pipelines" action
              (VDict {[ "pipeline_id" := ostr pipeline_id;
                        "delete_requested" := VBool true ]}) ∅)
    else unsupported action).

(** *** 8) Pipeline runs *)

Definition pipeline_runs_actions : list string := ["start"; "status"; "list"].

Definition data_science_pipeline_runs (action : string)
    (compartment_id pipeline_id display_name pipeline_run_id : option string)
    (limit : option Z) : M (gmap string value) :=
  logged "Error in data_science_pipeline_runs" (
    lift (_require (ostr compartment_id) "compartment_id" action);;
    lift (_require (ostr pipeline_id) "pipeline_id" action);;
    ds_client ← call sdk "get_data_science_client" [] ∅;
    if String.eqb action "start" then
      resp ← call sdk "DataScienceClient.create_pipeline_run"
        [ds_client;
         VObj "CreatePipelineRunDetails"
           {[ "compartment_id" := ostr compartment_id;
              "pipeline_id" := ostr pipeline_id;
              "display_name" := ostr display_name ]}] ∅;
      data ← lift (attr resp "data");
      raw ← to_dict data;
      lift (_ok "pipeline_runs" action
              (VDict {[ "pipeline_run_id" := getattr data "id" VNone;
                        "lifecycle_state" := getattr data "lifecycle_state" VNone;
                        "raw" := raw ]}) ∅)
    else if String.eqb action "list" then
      let kwargs :=
        set_if (negb (is_None (oint limit))) "limit" (oint limit)
          {[ "compartment_id" := ostr compartment_id;
             "pipeline_id" := ostr pipeline_id ]} in
      resp ← call sdk "DataScienceClient.list_pipeline_runs" [ds_client] kwargs;
      data ← lift (attr resp "data");
      runs ← lift (iter data);
      rows ← mapM to_dict runs;
      lift (_ok "pipeline_runs" action (VList rows) ∅)
    else if String.eqb action "status" then
      if truthy (ostr pipeline_run_id) then
        resp ← call sdk "DataScienceClient.get_pipeline_run" [ds_client]
          {[ "pipeline_run_id" := ostr pipeline_run_id ]};
        data ← lift (attr resp "data");
        d ← to_dict data;
        lift (_ok "pipeline_runs" action d ∅)
      else
        resp ← call sdk "DataScienceClient.list_pipeline_runs" [ds_client]
          {[ "compartment_id" := ostr compartment_id;
             "pipeline_id" := ostr pipeline_id;
             "sort_by" := VStr "timeAccepted";
             "sort_order" := VStr "DESC";
             "limit" := VInt 1 ]};
        data ← lift (attr resp "data");
        if negb (truthy data) then
          lift (_ok "pipeline_runs" action VNone
                  {[ "message" := VStr "No pipeline runs found." ]})
        else
          latest ← lift (first data);
          d ← to_dict latest;
          lift (_ok "pipeline_runs" action d ∅)
    else unsupported action).

(** *** 9) Model deployments *)

Definition model_deployments_actions : list string :=
  ["deploy"; "activate"; "deactivate"; "delete"; "list"].

Definition deployment_row (d : value) : result value :=
  id ← attr d "id";
  name ← attr d "display_name";
  state ← attr d "lifecycle_state";
  mret (VDict {[ "id" := id; "name" := name; "lifecycle_state" := state ]}).

Definition data_science_model_deployments (action : string)
    (compartment_id project_id model_id display_name deployment_id
       subnet_id log_group access_log predict_log : option string)
    (shape : string) (ocpus memory_in_gbs : option Z) (limit : option Z)
  : M (gmap string value) :=
  logged "Error in data_science_model_deployments" (
    ds_client ← call sdk "get_data_science_client" [] ∅;
    if String.eqb action "list" then
      lift (_require (ostr compartment_id) "compartment_id" action);;
      resp ← call sdk "DataScienceClient.list_model_deployments" [ds_client]
        {[ "compartment_id" := ostr compartment_id ]};
      deps ← lift (attr resp "data");
      ds ← lift (iter deps);
      rows ← lift (mapM deployment_row ds);
      lift (_ok "model_deployments" action (VList (truncate limit rows))
              {[ "compartment_id" := ostr compartment_id ]})
    else if String.eqb action "deploy" then
      lift (_require (ostr compartment_id) "compartment_id" action);;
      lift (_require (ostr project_id) "project_id" action);;
      lift (_require (ostr model_id) "model_id" action);;
      lift (_require (ostr display_name) "display_name" action);;
      model ← call sdk "GenericModel.from_id" [ostr model_id] ∅;
      let kwargs :=
        set_if (negb (is_None (oint memory_in_gbs))) "deployment_memory_in_gbs"
          (oint memory_in_gbs)
        (set_if (negb (is_None (oint ocpus))) "deployment_ocpus" (oint ocpus)
        (set_if (truthy (ostr predict_log)) "deployment_predict_log_id"
           (ostr predict_log)
        (set_if (truthy (ostr access_log)) "deployment_access_log_id"
           (ostr access_log)
        (set_if (truthy (ostr log_group)) "deployment_log_group_id"
           (ostr log_group)
        (set_if (truthy (ostr subnet_id)) "subnet_id" (ostr subnet_id)
           {[ "deployment_instance_shape" := VStr shape ]}))))) in
      deployment ← call sdk "GenericModel.deploy" [model]
        (<["display_name" := ostr display_name]>
           (<["project_id" := ostr project_id]>
              (<["compartment_id" := ostr compartment_id]> kwargs)));
      md ← lift (attr deployment "model_deployment");
      lift (_ok "model_deployments" action
              (VDict {[ "deployment_id" := getattr md "id" VNone;
                        "url" := getattr md "url" VNone ]})
              {[ "next_actions" :=
                   VList [VStr "data_science_model_deployments(action='activate')"] ]})
    else if String.eqb action "activate" then
      lift (_require (ostr deployment_id) "deployment_id" action);;
      call sdk "DataScienceClient.activate_model_deployment" [ds_client]
        {[ "model_deployment_id" := ostr deployment_id ]};;
      lift (_ok "model_deployments" action
              (VDict {[ "deployment_id" := ostr deployment_id;
                        "activate_requested" := VBool true ]}) ∅)
    else if String.eqb action "deactivate" then
      lift (_require (ostr deployment_id) "deployment_id" action);;
      call sdk "DataScienceClient.deactivate_model_deployment" [ds_client]
        {[ "model_deployment_id" := ostr deployment_id ]};;
      lift (_ok "model_deployments" action
              (VDict {[ "deployment_id" := ostr deployment_id;
                        "deactivate_requested" := VBool true ]}) ∅)
    else if String.eqb action "delete" then
      lift (_require (ostr deployment_id) "deployment_id" action);;
      call sdk "DataScienceClient.delete_model_deployment" [ds_client]
        {[ "model_deployment_id" := ostr deployment_id ]};;
      lift (_ok "model_deployments" action
              (VDict {[ "deployment_id" := ostr deployment_id;
                        "delete_requested" := VBool true ]}) ∅)
    else unsupported action).

End Server.


(** ** The tool surface *)

(** A call of one of the nine registered tools ([@mcp.tool]) with its
    arguments, in the order of the parameters of the function. *)
Inductive tool_call :=
| Compartments (action : string)
| Projects (action compartment_id : string)
    (project_id project_name project_description new_name new_description
       : option string)
    (limit : option Z)
| ModelCatalog (action compartment_id : string)
    (project_id model_id target_dir model_version_set_id : option string)
    (limit : option Z)
| Jobs (action : string)
    (compartment_id project_id job_id display_name script_path : option string)
    (conda_env shape : string) (ocpus memory_in_gbs : option Z)
    (block_storage_size : Z) (image new_display_name : option string)
| JobRuns (action : string)
    (compartment_id project_id job_id display_name job_run_id : option string)
    (limit : option Z)
| NotebookSessions (action : string)
    (compartment_id project_id notebook_session_id display_name : option string)
    (shape : string) (block_storage_size_in_gbs : Z)
    (subnet_id private_endpoint_id : option string)
    (ocpus memory_in_gbs : option Z)
| Pipelines (action : string) (compartment_id pipeline_id : option string)
    (limit : option Z)
| PipelineRuns (action : string)
    (compartment_id pipeline_id display_name pipeline_run_id : option string)
    (limit : option Z)
| ModelDeployments (action : string)
    (compartment_id project_id model_id display_name deployment_id
       subnet_id log_group access_log predict_log : option string)
    (shape : string) (ocpus memory_in_gbs : option Z) (limit : option Z).

Definition invoke (sdk : Provider) (c : tool_call) : M (gmap string value) :=
  match c with
  | Compartments action => oci_ds_compartments sdk action
  | Projects action compartment_id project_id project_name project_description
      new_name new_description limit =>
      data_science_projects sdk action compartment_id project_id project_name
        project_description new_name new_description limit
  | ModelCatalog action compartment_id project_id model_id target_dir
      model_version_set_id limit =>
      data_science_model_catalog sdk action compartment_id project_id model_id
        target_dir model_version_set_id limit
  | Jobs action compartment_id project_id job_id display_name script_path
      conda_env shape ocpus memory_in_gbs block_storage_size image
      new_display_name =>
      data_science_jobs sdk action compartment_id project_id job_id display_name
        script_path conda_env shape ocpus memory_in_gbs block_storage_size image
        new_display_name
  | JobRuns action compartment_id project_id job_id display_name job_run_id
      limit =>
      data_science_job_runs sdk action compartment_id project_id job_id
        display_name job_run_id limit
  | NotebookSessions action compartment_id project_id notebook_session_id
      display_name shape block_storage_size_in_gbs subnet_id private_endpoint_id
      ocpus memory_in_gbs =>
      data_science_notebook_sessions sdk action compartment_id project_id
        notebook_session_id display_name shape block_storage_size_in_gbs
        subnet_id private_endpoint_id ocpus memory_in_gbs
  | Pipelines action compartment_id pipeline_id limit =>
      data_science_pipelines sdk action compartment_id pipeline_id limit
  | PipelineRuns action compartment_id pipeline_id display_name pipeline_run_id
      limit =>
      data_science_pipeline_runs sdk action compartment_id pipeline_id
        display_name pipeline_run_id limit
  | ModelDeployments action compartment_id project_id model_id display_name
      deployment_id subnet_id log_group access_log predict_log shape ocpus
      memory_in_gbs limit =>
      data_science_model_deployments sdk action compartment_id project_id
        model_id display_name deployment_id subnet_id log_group access_log
        predict_log shape ocpus memory_in_gbs limit
  end.

Definition action_of (c : tool_call) : string :=
  match c with
  | Compartments action
  | Projects action _ _ _ _ _ _ _
  | ModelCatalog action _ _ _ _ _ _
  | Jobs action _ _ _ _ _ _ _ _ _ _ _ _
  | JobRuns action _ _ _ _ _ _
  | NotebookSessions action _ _ _ _ _ _ _ _ _ _
  | Pipelines action _ _ _
  | PipelineRuns action _ _ _ _ _
  | ModelDeployments action _ _ _ _ _ _ _ _ _ _ _ _ _ => action
  end.

(** The resource tag each tool passes to [_ok]. *)
Definition resource_of (c : tool_call) : string :=
  match c with
  | Compartments _ => "compartments"
  | Projects _ _ _ _ _ _ _ _ => "projects"
  | ModelCatalog _ _ _ _ _ _ _ => "model_catalog"
  | Jobs _ _ _ _ _ _ _ _ _ _ _ _ _ => "jobs"
  | JobRuns _ _ _ _ _ _ _ => "job_runs"
  | NotebookSessions _ _ _ _ _ _ _ _ _ _ _ => "notebook_sessions"
  | Pipelines _ _ _ _ => "pipelines"
  | PipelineRuns _ _ _ _ _ _ => "pipeline_runs"
  | ModelDeployments _ _ _ _ _ _ _ _ _ _ _ _ _ _ => "model_deployments"
  end.

(** The [Literal[...]] of the [action] parameter of each tool. *)
Definition actions_of (c : tool_call) : list string :=
  match c with
  | Compartments _ => ["list"]
  | Projects _ _ _ _ _ _ _ _ => projects_actions
  | ModelCatalog _ _ _ _ _ _ _ => model_catalog_actions
  | Jobs _ _ _ _ _ _ _ _ _ _ _ _ _ => jobs_actions
  | JobRuns _ _ _ _ _ _ _ => job_runs_actions
  | NotebookSessions _ _ _ _ _ _ _ _ _ _ _ => notebook_sessions_actions
  | Pipelines _ _ _ _ => pipelines_actions
  | PipelineRuns _ _ _ _ _ _ => pipeline_runs_actions
  | ModelDeployments _ _ _ _ _ _ _ _ _ _ _ _ _ _ => model_deployments_actions
  end.

(** ** Configuration, clients and the file listing *)

(** [s.split(sep, 1)] for a separator that is not empty: the text before
    the first occurrence of [sep] and the text after it, or [s] alone. *)
Fixpoint split_once (sep s : string) : option (string * string) :=
  if String.prefix sep s
  then Some (EmptyString, String.substring (String.length sep)
                            (String.length s - String.length sep) s)
  else match s with
       | EmptyString => None
       | String c s' =>
           match split_once sep s' with
           | Some (before, after) => Some (String c before, after)
           | None => None
           end
       end.

Definition split1 (sep s : string) : list string :=
  match split_once sep s with
  | Some (before, after) => [before; after]
  | None => [s]
  end.

(** [xs[i]] on a list of str. *)
Definition index (xs : list string) (i : nat) : result string :=
  match xs !! i with
  | Some x => Ok x
  | None => Err (IndexError "list index out of range")
  end.

(** [d[key] = v] *)
Definition setitem (d : value) (key : string) (v : value) : result value :=
  match d with
  | VDict kv => Ok (VDict (<[key := v]> kv))
  | _ => Err (TypeError "object does not support item assignment")
  end.

(** The built-in subclasses of [OSError], itself included. *)
Definition OSError_classes : list string :=
  ["OSError"; "BlockingIOError"; "ChildProcessError"; "ConnectionError";
   "BrokenPipeError"; "ConnectionAbortedError"; "ConnectionRefusedError";
   "ConnectionResetError"; "FileExistsError"; "FileNotFoundError";
   "InterruptedError"; "IsADirectoryError"; "NotADirectoryError";
   "PermissionError"; "ProcessLookupError"; "TimeoutError"].

(** [except OSError] *)
Definition is_OSError (e : exc) : bool :=
  bool_decide (exc_class e ∈ OSError_classes).

Section Runtime.

(** The package constants [__project__] and [__version__], the SDK constant
    [oci.config.DEFAULT_PROFILE], and the SDK with the environment. *)
Variables (__project__ __version__ : string) (DEFAULT_PROFILE : value).
Variable sdk : Provider.

(** [_user_agent_name()] *)
Definition _user_agent_name : result string :=
  after ← index (split1 "oracle." __project__) 1;
  index (split1 "-server" after) 0.

(** [get_oci_config()].  The local [config] is bound once [from_file] has
    returned; [None] stands for the unbound local, whose read at the
    [return] raises. *)
Definition get_oci_config : M value :=
  let failed : M unit :=
    log "ERROR"
      "Failed to load OCI Config. Ensure your API Key is setup correctly" [] in
  config ←
    try_except
      (profile ← call sdk "os.getenv" [VStr "OCI_CONFIG_PROFILE"; DEFAULT_PROFILE] ∅;
       config ← call sdk "oci.config.from_file" [] {[ "profile_name" := profile ]};
       try_except
         (name ← lift _user_agent_name;
          config ← lift (setitem config "additional_user_agent"
                           (VStr (name +:+ "/" +:+ __version__)));
          mret (Some config))
         (λ _, failed;; mret (Some config)))
      (λ _, failed;; mret None);
  match config with
  | Some config => mret config
  | None =>
      raise (Exc "UnboundLocalError"
               "cannot access local variable 'config' where it is not associated with a value")
  end.

(** [get_identity_client()] *)
Definition get_identity_client : M value :=
  config ← get_oci_config;
  call sdk "oci.identity.IdentityClient" [config] ∅.

(** [get_data_science_client()] *)
Definition get_data_science_client : M value :=
  config ← get_oci_config;
  call sdk "oci.data_science.DataScienceClient" [config] ∅.

(** [get_config()], the resource [resource://config]. *)
Definition get_config : gmap string value :=
  {[ "version" := VStr "2.0"; "author" := VStr "FastMCP";
     "server" := VStr __project__ ]}.

(** [main()] *)
Definition main : M value :=
  host ← call sdk "os.getenv" [VStr "ORACLE_MCP_HOST"] ∅;
  port ← call sdk "os.getenv" [VStr "ORACLE_MCP_PORT"] ∅;
  if truthy host && truthy port then
    port ← call sdk "int" [port] ∅;
    call sdk "mcp.run" [] {[ "transport" := VStr "http"; "host" := host;
                             "port" := port ]}
  else call sdk "mcp.run" [] ∅.

End Runtime.

Module Files.
Section Files.

Variable sdk : Provider.

(** [size = p.stat().st_size], with [size = None] on an [OSError]. *)
Definition size_of (p : value) : M value :=
  try_except
    (st ← call sdk "Path.stat" [p] ∅;
     lift (attr st "st_size"))
    (λ e, if is_OSError e then mret VNone else raise e).

(** The loop over the entries of [base.rglob("*")], as they come; it
    leaves at the first entry met with [limit] records collected. *)
Fixpoint walk (limit : Z) (base : value) (entries results : list value)
  : M (list value) :=
  match entries with
  | [] => mret results
  | p :: entries =>
      if limit <=? Z.of_nat (length results) then mret results
      else
        is_file ← call sdk "Path.is_file" [p] ∅;
        if truthy is_file then
          size ← size_of p;
          relative ← call sdk "Path.relative_to" [p; base] ∅;
          path ← str sdk relative;
          walk limit base entries
            (results ++ [VDict {[ "path" := path; "bytes" := size ]}])%list
        else walk limit base entries results
  end.

(** [_list_files_recursive(base_dir, *, limit=200)] *)
Definition _list_files_recursive (base_dir : value) (limit : Z) : M value :=
  base ← call sdk "Path" [base_dir] ∅;
  exists_ ← call sdk "Path.exists" [base] ∅;
  if negb (truthy exists_) then mret (VList [])
  else
    found ← call sdk "Path.rglob" [base; VStr "*"] ∅;
    entries ← lift (iter found);
    results ← walk limit base entries [];
    mret (VList results).

End Files.
End Files.
(** * Properties *)

(** ** Values and payloads *)

(** The value is absent, or a str that is empty or white space only. *)
Definition absent_or_blank (v : value) : Prop :=
  v = VNone ∨ ∃ s, v = VStr s ∧ whitespace_only s = true.

(** An [Optional[str]] argument that passes [_require]. *)
Definition present (o : option string) : Prop := ¬ absent_or_blank (ostr o).

(** No key of the extra mapping is the name of a fixed field. *)
Definition no_collision (extra : gmap string value) : Prop :=
  extra !! "resource" = None ∧ extra !! "action" = None
  ∧ extra !! "result" = None.

(** What every success payload satisfies: it echoes the resource tag and
    the action, and has a result (possibly None). *)
Definition echoes (resource action : string) (payload : gmap string value) : Prop :=
  payload !! "resource" = Some (VStr resource)
  ∧ payload !! "action" = Some (VStr action)
  ∧ is_Some (payload !! "result").

(** ** Runs *)

(** Partial correctness in the monad: whenever [m] returns, [Q] holds of
    what it returns. *)
Definition returns {A} (m : M A) (Q : A → Prop) : Prop :=
  ∀ t t' a, m t = (t', Ok a) → Q a.

(** Total correctness for a provider that answers: [m] returns, from every
    log, a value that satisfies [Q]. *)
Definition succeeds {A} (m : M A) (Q : A → Prop) : Prop :=
  ∀ t, ∃ t' a, m t = (t', Ok a) ∧ Q a.

(** A computation only appends to the log. *)
Definition extends {A} (m : M A) : Prop :=
  ∀ t t' r, m t = (t', r) → ∃ rest, t' = (t ++ rest)%list.

(** ** Calls and their validation *)

(** The action is one the tool declares. *)
Definition supported (c : tool_call) : Prop := action_of c ∈ actions_of c.

(** The validation rules of each tool, by action: what the body checks
    before it sends the request of the action. *)
Definition valid (c : tool_call) : Prop :=
  match c with
  | Compartments _ => True
  | Projects action _ project_id project_name _ new_name new_description _ =>
      (action = "create" → present project_name)
      ∧ (action = "update" →
         present project_id ∧ (present new_name ∨ present new_description))
      ∧ (action = "delete" → present project_id)
  | ModelCatalog action _ _ model_id target_dir model_version_set_id _ =>
      (action = "download" → present model_id ∧ present target_dir)
      ∧ (action = "version_set_attributes" → present model_version_set_id)
  | Jobs action compartment_id project_id job_id display_name script_path
      _ _ _ _ _ image new_display_name =>
      (action = "list" → present compartment_id)
      ∧ (action = "details" ∨ action = "delete" → present job_id)
      ∧ (action = "create_script" →
         present compartment_id ∧ present project_id ∧ present script_path
         ∧ present display_name)
      ∧ (action = "create_container" →
         present compartment_id ∧ present project_id ∧ present image
         ∧ present display_name)
      ∧ (action = "update" → present job_id ∧ present new_display_name)
  | JobRuns action compartment_id project_id job_id display_name job_run_id _ =>
      (action = "start" →
       present compartment_id ∧ present project_id ∧ present job_id
       ∧ present display_name)
      ∧ (action = "list" → present compartment_id)
      ∧ (action = "status" ∨ action = "cancel" →
         truthy (ostr job_run_id) = true
         ∨ (present compartment_id ∧ present job_id))
  | NotebookSessions action compartment_id project_id notebook_session_id
      display_name shape _ _ _ ocpus memory_in_gbs =>
      (action = "list" → present compartment_id)
      ∧ (action = "create" →
         present compartment_id ∧ present project_id ∧ present display_name
         ∧ (shape ∈ flex_shapes → is_Some ocpus ∧ is_Some memory_in_gbs))
      ∧ (action = "activate" →
         present compartment_id ∧ present notebook_session_id)
      ∧ (action = "stop" ∨ action = "delete" → present notebook_session_id)
  | Pipelines action compartment_id pipeline_id _ =>
      (action = "list" → present compartment_id)
      ∧ (action = "details" ∨ action = "delete" → present pipeline_id)
  | PipelineRuns _ compartment_id pipeline_id _ _ _ =>
      present compartment_id ∧ present pipeline_id
  | ModelDeployments action compartment_id project_id model_id display_name
      deployment_id _ _ _ _ _ _ _ _ =>
      (action = "list" → present compartment_id)
      ∧ (action = "deploy" →
         present compartment_id ∧ present project_id ∧ present model_id
         ∧ present display_name)
      ∧ (action = "activate" ∨ action = "deactivate" ∨ action = "delete" →
         present deployment_id)
  end.

(** What a tool does before it looks at the action goes through: the
    catalog or the client is obtained and, for pipeline_runs, the two
    identifiers it always requires are present. *)
Definition reaches_dispatch (sdk : Provider) (c : tool_call) : Prop :=
  match c with
  | Compartments _ => True
  | Projects _ compartment_id _ _ _ _ _ _ =>
      ∃ pc, sdk "ProjectCatalog" [] {[ "compartment_id" := VStr compartment_id ]}
            = Ok pc
  | ModelCatalog _ _ _ _ _ _ _ | Jobs _ _ _ _ _ _ _ _ _ _ _ _ _ => True
  | JobRuns _ _ _ _ _ _ _ | NotebookSessions _ _ _ _ _ _ _ _ _ _ _
  | Pipelines _ _ _ _ | ModelDeployments _ _ _ _ _ _ _ _ _ _ _ _ _ _ =>
      ∃ ds_client, sdk "get_data_science_client" [] ∅ = Ok ds_client
  | PipelineRuns _ compartment_id pipeline_id _ _ _ =>
      present compartment_id ∧ present pipeline_id
      ∧ ∃ ds_client, sdk "get_data_science_client" [] ∅ = Ok ds_client
  end.

(** The call is one of the compartments tool. *)
Definition is_compartments (c : tool_call) : Prop :=
  match c with Compartments _ => True | _ => False end.

(** ** Providers *)

(** Shapes of the answers of the SDK. *)
Definition has_attrs (names : list string) (v : value) : Prop :=
  ∃ cls attrs, v = VObj cls attrs ∧ Forall (λ k, is_Some (attrs !! k)) names.

Definition list_of (Q : value → Prop) (v : value) : Prop :=
  ∃ xs, v = VList xs ∧ Forall Q xs.

Definition data_of (Q : value → Prop) (v : value) : Prop :=
  ∃ cls attrs d, v = VObj cls attrs ∧ attrs !! "data" = Some d ∧ Q d.

(** No constraint. *)
Definition any : value → Prop := λ _, True.

(** The answer a request must have for the tools to read it: the type the
    SDK declares for it, as far as the tools look.  A request that is not
    listed may be answered by any value. *)
Definition reply_shapes : list (string * (value → Prop)) :=
  [ ("get_oci_config", λ v, ∃ kv x, v = VDict kv ∧ kv !! "tenancy" = Some x);
    ("oci.pagination.list_call_get_all_results",
      data_of (list_of (λ c, has_attrs ["name"; "id"] c
                             ∧ ∃ s, attr c "name" = Ok (VStr s))));
    ("ProjectCatalog", has_attrs []);
    ("__len__", λ v, ∃ n, v = VInt n ∧ 0 ≤ n);
    ("__str__", λ v, ∃ s, v = VStr s);
    ("ProjectCatalog.list_projects", list_of (has_attrs ["id"]));
    ("ModelCatalog.list_models", list_of any);
    ("_list_files_recursive", list_of any);
    ("DataScienceClient.list_model_version_sets",
      data_of (list_of (has_attrs ["id"; "name"])));
    ("DataScienceJob.list_jobs", list_of (has_attrs ["job_id"; "name"]));
    ("DataScienceClient.create_job_run", data_of any);
    ("DataScienceClient.list_job_runs", data_of (list_of (has_attrs ["id"])));
    ("DataScienceClient.get_job_run", data_of any);
    ("DataScienceClient.list_notebook_sessions",
      data_of (list_of (has_attrs ["id"; "display_name"; "lifecycle_state"])));
    ("DataScienceClient.create_notebook_session", data_of any);
    ("DataScienceClient.get_notebook_session", data_of any);
    ("DataScienceClient.list_pipelines",
      data_of (list_of (has_attrs ["id"; "display_name"])));
    ("DataScienceClient.get_pipeline", data_of any);
    ("DataScienceClient.create_pipeline_run", data_of any);
    ("DataScienceClient.list_pipeline_runs", data_of (list_of any));
    ("DataScienceClient.get_pipeline_run", data_of any);
    ("DataScienceClient.list_model_deployments",
      data_of (list_of (has_attrs ["id"; "display_name"; "lifecycle_state"])));
    ("GenericModel.deploy", has_attrs ["model_deployment"]) ].

Definition reply_shape (op : string) : value → Prop :=
  from_option id any (snd <$> List.find (λ e, String.eqb e.1 op) reply_shapes).

(** A provider that returns successfully: it answers every request, with a
    value of the shape the request has. *)
Definition canonical (sdk : Provider) : Prop :=
  ∀ op args kwargs, ∃ v, sdk op args kwargs = Ok v ∧ reply_shape op v.

(** ** Requests and listings *)

(** The arguments of the request for the most recent run of a job. *)
Definition latest_job_run_kwargs (compartment_id job_id : option string)
  : gmap string value :=
  {[ "compartment_id" := ostr compartment_id; "job_id" := ostr job_id;
     "sort_by" := VStr "timeCreated"; "sort_order" := VStr "DESC";
     "limit" := VInt 1 ]}.

(** The keyword arguments of the two listings that hand the limit on. *)
Definition job_runs_list_kwargs (compartment_id job_id : option string)
    (limit : option Z) : gmap string value :=
  set_if (negb (is_None (oint limit))) "limit" (oint limit)
    (set_if (truthy (ostr job_id)) "job_id" (ostr job_id)
       {[ "compartment_id" := ostr compartment_id ]}).

Definition pipeline_runs_list_kwargs (compartment_id pipeline_id : option string)
    (limit : option Z) : gmap string value :=
  set_if (negb (is_None (oint limit))) "limit" (oint limit)
    {[ "compartment_id" := ostr compartment_id;
       "pipeline_id" := ostr pipeline_id ]}.

(** The shape-config inside the details of a create request. *)
Definition shape_config_of (details : value) : result value :=
  cfg ← attr details "notebook_session_config_details";
  attr cfg "notebook_session_shape_config_details".

(** The listing returns exactly [n] rows: the rows of the first [n] items
    the provider answered, in its order. *)
Definition lists_first (sdk : Provider) (c : tool_call) (n : Z)
    (items : list value) (row_of : value → value → Prop) : Prop :=
  ∀ t, ∃ t' payload rows,
    invoke sdk c t = (t', Ok payload)
    ∧ payload !! "result" = Some (VList rows)
    ∧ length rows = Z.to_nat n
    ∧ Forall2 row_of (take (Z.to_nat n) items) rows.

(** The listing returns a row for every item the provider answered. *)
Definition lists_all (sdk : Provider) (c : tool_call)
    (items : list value) (row_of : value → value → Prop) : Prop :=
  ∀ t, ∃ t' payload rows,
    invoke sdk c t = (t', Ok payload)
    ∧ payload !! "result" = Some (VList rows)
    ∧ length rows = length items
    ∧ Forall2 row_of items rows.

(** ** Sample providers *)

(** The frame of an SDK response around its data. *)
Definition response (data : value) : value := VObj "Response" {[ "data" := data ]}.

(** An SDK object with the attributes the listings read. *)
Definition entity_of (id : string) : value :=
  VObj "Model"
    {[ "id" := VStr id; "name" := VStr "X"; "display_name" := VStr "X";
       "job_id" := VStr id; "lifecycle_state" := VStr "ACTIVE" ]}.

(** One such object, and a list of three. *)
Definition entity : value := entity_of "ocid1.a".

Definition three_entities : list value :=
  [entity_of "ocid1.a"; entity_of "ocid1.b"; entity_of "ocid1.c"].

(** A provider that answers every request, whatever its arguments: a
    listing of three entities, a response around such a listing, or an
    entity. *)
Definition sdk_canonical : Provider := λ op args kwargs,
  Ok (if String.eqb op "get_oci_config"
      then VDict {[ "tenancy" := VStr "ocid1.tenancy" ]}
      else if String.eqb op "__len__" then VInt 1
      else if String.eqb op "__str__" then VStr "2025-01-01"
      else if bool_decide (op ∈ ["ProjectCatalog.list_projects";
                                 "ModelCatalog.list_models";
                                 "_list_files_recursive";
                                 "DataScienceJob.list_jobs"])
      then VList three_entities
      else if String.eqb op "GenericModel.deploy"
      then VObj "ModelDeployer" {[ "model_deployment" := entity ]}
      else if String.prefix "DataScienceClient." op
              || String.eqb op "oci.pagination.list_call_get_all_results"
      then response (VList three_entities)
      else entity).

(** A provider whose listings are empty. *)
Definition sdk_empty : Provider := λ op args kwargs,
  if String.eqb op "DataScienceClient.list_job_runs"
  then Ok (response (VList []))
  else Ok (VObj "Mock" ∅).

(** A provider whose artifact download fails; it finds the target
    directory empty afterwards. *)
Definition sdk_download_fails : Provider := λ op args kwargs,
  if String.eqb op "GenericModel.download_artifact"
  then Err (Exc "RuntimeError" "boom")
  else if String.eqb op "_list_files_recursive" then Ok (VList [])
  else Ok (VObj "Mock" ∅).

(** ** The mocks of the test suite *)

(** An instance with the given attributes ([SimpleNamespace]). *)
Definition namespace (attrs : gmap string value) : value := VObj "SimpleNamespace" attrs.

(** [test_data_science_projects_create_update_delete] *)
Definition sdk_projects : Provider := λ op args kwargs,
  if String.eqb op "ProjectCatalog.create_project"
  then Ok (namespace {[ "id" := VStr "p1"; "display_name" := VStr "MyProj";
                        "description" := VStr "desc" ]})
  else Ok (VObj "MagicMock" ∅).

(** [test_data_science_model_catalog_list_models_project_id_fallback_filters]:
    an ADS whose [list_models] does not take [project_id]. *)
Definition sdk_old_ads : Provider := λ op args kwargs,
  if String.eqb op "ModelCatalog.list_models"
  then
    if bool_decide (is_Some (kwargs !! "project_id"))
    then Err (TypeError "old ads")
    else Ok (VList [namespace {[ "id" := VStr "m1"; "display_name" := VStr "M1";
                                 "project_id" := VStr "p1" ]};
                    namespace {[ "id" := VStr "m2"; "display_name" := VStr "M2";
                                 "project_id" := VStr "p2" ]}])
  else Ok (VObj "MagicMock" ∅).

(** [test_data_science_pipelines_list_details_delete] *)
Definition sdk_pipelines : Provider := λ op args kwargs,
  if String.eqb op "DataScienceClient.list_pipelines"
  then Ok (namespace
             {[ "data" :=
                  VList [namespace {[ "id" := VStr "pl1"; "display_name" := VStr "P1" ]};
                         namespace {[ "id" := VStr "pl2"; "display_name" := VStr "P2" ]}] ]})
  else Ok (VObj "MagicMock" ∅).

(** ** Further requests *)

(** The arguments of the request for the most recent run of a pipeline. *)
Definition latest_pipeline_run_kwargs (compartment_id pipeline_id : option string)
  : gmap string value :=
  {[ "compartment_id" := ostr compartment_id; "pipeline_id" := ostr pipeline_id;
     "sort_by" := VStr "timeAccepted"; "sort_order" := VStr "DESC";
     "limit" := VInt 1 ]}.

(** ** Further sample providers *)

(** A provider that answers every request with a response whose data is
    the empty list. *)
Definition sdk_blank : Provider := λ op args kwargs, Ok (response (VList [])).

(** A provider with one job run, "jr-latest", as the mocks of
    [test_data_science_job_runs_status_and_cancel]. *)
Definition sdk_one_run : Provider := λ op args kwargs,
  if String.eqb op "DataScienceClient.list_job_runs"
  then Ok (response (VList [namespace {[ "id" := VStr "jr-latest" ]}]))
  else if String.eqb op "DataScienceClient.get_job_run"
  then Ok (response (namespace {[ "id" := VStr "jr-by-id" ]}))
  else if String.eqb op "oci.util.to_dict"
  then Ok (VDict {[ "id" := getattr (default VNone (head args)) "id" VNone ]})
  else Ok (VObj "MagicMock" ∅).

(** An environment where the client cannot be obtained: the helper raises,
    as [get_data_science_client] does when no configuration is loaded. *)
Definition sdk_no_client : Provider := λ op args kwargs,
  if String.eqb op "get_data_science_client"
  then Err (Exc "UnboundLocalError"
              "cannot access local variable 'config' where it is not associated with a value")
  else Ok (VObj "Mock" ∅).

(** ** Traces *)

(** The requests a run may send: a request is one of [ops]; a record for
    the logger is not restricted. *)
Definition allowed (ops : list string) (ev : event) : bool :=
  match ev with
  | ECall op _ _ => bool_decide (op ∈ ops)
  | ELog _ _ _ => true
  end.

(** Whatever its outcome, a run only appends to the log, and only requests
    among [ops]. *)
Definition sends_only {A} (ops : list string) (m : M A) : Prop :=
  ∀ t t' r, m t = (t', r) →
    ∃ rest, t' = (t ++ rest)%list ∧ forallb (allowed ops) rest = true.

(** The requests that read: the constructors of the clients and of the
    catalogs, the listings, the lookups by identifier and the conversions
    of what they answer. *)
Definition read_requests : list string :=
  ["get_oci_config"; "get_identity_client";
   "oci.pagination.list_call_get_all_results";
   "get_data_science_client"; "ProjectCatalog"; "ModelCatalog";
   "ProjectCatalog.list_projects"; "ModelCatalog.list_models";
   "DataScienceClient.list_model_version_sets";
   "ModelVersionSet.from_id"; "ModelVersionSet.to_dict";
   "DataScienceJob.list_jobs"; "Job.from_datascience_job"; "Job.to_dict";
   "DataScienceClient.list_job_runs"; "DataScienceClient.get_job_run";
   "DataScienceClient.list_notebook_sessions";
   "DataScienceClient.list_pipelines"; "DataScienceClient.get_pipeline";
   "DataScienceClient.list_pipeline_runs";
   "DataScienceClient.get_pipeline_run";
   "DataScienceClient.list_model_deployments";
   "oci.util.to_dict"; "__len__"; "__str__"].

(** The actions of each tool whose branch sends a request that creates,
    changes, starts, stops or removes something, or writes to the disk. *)
Definition write_actions (c : tool_call) : list string :=
  match c with
  | Compartments _ => []
  | Projects _ _ _ _ _ _ _ _ => ["create"; "update"; "delete"]
  | ModelCatalog _ _ _ _ _ _ _ => ["download"]
  | Jobs _ _ _ _ _ _ _ _ _ _ _ _ _ =>
      ["create_script"; "create_container"; "update"; "delete"]
  | JobRuns _ _ _ _ _ _ _ => ["start"; "cancel"]
  | NotebookSessions _ _ _ _ _ _ _ _ _ _ _ =>
      ["create"; "activate"; "stop"; "delete"]
  | Pipelines _ _ _ _ => ["delete"]
  | PipelineRuns _ _ _ _ _ _ => ["start"]
  | ModelDeployments _ _ _ _ _ _ _ _ _ _ _ _ _ _ =>
      ["deploy"; "activate"; "deactivate"; "delete"]
  end.

(** A request among [rest] was answered with the exception [e]. *)
Definition failed_in (sdk : Provider) (e : exc) (rest : list event) : Prop :=
  ∃ op args kwargs,
    ECall op args kwargs ∈ rest ∧ sdk op args kwargs = Err e.

(** A run hides no failure of the provider: when a request it sent was
    answered with an exception, the run raises that exception. *)
Definition propagates {A} (sdk : Provider) (m : M A) : Prop :=
  ∀ t t' r, m t = (t', r) →
    ∃ rest, t' = (t ++ rest)%list ∧ ∀ e, failed_in sdk e rest → r = Err e.

(** The built-in classes derived from [Exception], by name: an exception of
    one of them is caught by [except Exception].  The classes that pass
    it (KeyboardInterrupt, SystemExit, GeneratorExit, CancelledError and
    whatever else derives from BaseException only) are not among them, and
    none of them but TypeError itself is derived from TypeError. *)
Definition Exception_classes : list string :=
  (["Exception"; "ArithmeticError"; "FloatingPointError"; "OverflowError";
    "ZeroDivisionError"; "AssertionError"; "AttributeError"; "BufferError";
    "EOFError"; "ImportError"; "ModuleNotFoundError"; "LookupError";
    "IndexError"; "KeyError"; "MemoryError"; "NameError"; "UnboundLocalError";
    "ReferenceError"; "RuntimeError"; "NotImplementedError"; "RecursionError";
    "StopAsyncIteration"; "StopIteration"; "SyntaxError"; "IndentationError";
    "TabError"; "SystemError"; "TypeError"; "ValueError"; "UnicodeError";
    "UnicodeDecodeError"; "UnicodeEncodeError"; "UnicodeTranslateError"]
   ++ OSError_classes)%list.

Definition is_Exception (e : exc) : bool :=
  bool_decide (exc_class e ∈ Exception_classes).

(** The tools with their helpers.  Where a tool calls [get_oci_config],
    [get_identity_client] or [get_data_science_client], the answer is
    what that function of the repository returns or raises against the
    SDK; every other request goes to the SDK.  What a helper itself
    requests and logs is not repeated in the log of the tool. *)
Definition with_helpers (__project__ __version__ : string)
    (DEFAULT_PROFILE : value) (sdk : Provider) : Provider := λ op args kwargs,
  if String.eqb op "get_oci_config"
  then (get_oci_config __project__ __version__ DEFAULT_PROFILE sdk []).2
  else if String.eqb op "get_identity_client"
  then (get_identity_client __project__ __version__ DEFAULT_PROFILE sdk []).2
  else if String.eqb op "get_data_science_client"
  then (get_data_science_client __project__ __version__ DEFAULT_PROFILE sdk []).2
  else sdk op args kwargs.

(** The tools whose first step is to obtain the data science client. *)
Definition starts_with_client (c : tool_call) : Prop :=
  match c with
  | JobRuns _ _ _ _ _ _ _ | NotebookSessions _ _ _ _ _ _ _ _ _ _ _
  | Pipelines _ _ _ _ | ModelDeployments _ _ _ _ _ _ _ _ _ _ _ _ _ _ => True
  | _ => False
  end.

(** A request of the download step is answered with the exception [e]. *)
Definition download_raises (sdk : Provider) (model_id target_dir : option string)
    (e : exc) : Prop :=
  sdk "GenericModel.from_id" [ostr model_id] ∅ = Err e
  ∨ ∃ model,
      sdk "GenericModel.from_id" [ostr model_id] ∅ = Ok model
      ∧ sdk "GenericModel.download_artifact" [model]
          {[ "artifact_dir" := ostr target_dir; "force_overwrite" := VBool true;
             "remove_existing_artifact" := VBool true ]} = Err e.

(** The two branches with an [except] that does not raise again: the
    download, and the listing of the models of a project. *)
Definition swallows (c : tool_call) : Prop :=
  match c with
  | ModelCatalog action _ project_id _ _ _ _ =>
      action = "download"
      ∨ (action = "list_models" ∧ truthy (ostr project_id) = true)
  | _ => False
  end.

(** The requests that obtain the client or the catalog of a tool. *)
Definition client_requests : list string :=
  ["get_data_science_client"; "ProjectCatalog"].

(** A run is refused: it raises, having sent at most the requests for the
    client or the catalog, and what it raises is a ValueError unless one of
    these requests failed. *)
Definition refuses {A} (sdk : Provider) (m : M A) : Prop :=
  ∀ t, ∃ rest e,
    m t = ((t ++ rest)%list, Err e)
    ∧ forallb (allowed client_requests) rest = true
    ∧ (exc_class e = "ValueError" ∨ failed_in sdk e rest).

(** A provider whose listing of the models fails. *)
Definition sdk_models_unavailable : Provider := λ op args kwargs,
  if String.eqb op "ModelCatalog.list_models"
  then Err (Exc "RuntimeError" "service unavailable")
  else Ok (VObj "MagicMock" ∅).

(** A provider that refuses to create a project. *)
Definition sdk_create_refused : Provider := λ op args kwargs,
  if String.eqb op "ProjectCatalog.create_project"
  then Err (Exc "ServiceError" "NotAuthorizedOrNotFound")
  else Ok (VObj "MagicMock" ∅).

(** ** Rows *)

(** The row of a model can be computed: the str of its time_created, if
    it has one, is answered. *)
Definition has_row (sdk : Provider) (m : value) : Prop :=
  ∀ t, ∃ t' r, model_row sdk m t = (t', Ok r).

(** [r] is the row of the model [m]. *)
Definition row_of_model (sdk : Provider) (m r : value) : Prop :=
  ∃ t t', model_row sdk m t = (t', Ok r).

(** ** Compartments *)

(** The row the compartments tool makes of a compartment with the given
    name and id. *)
Definition compartment_row_of (c : value) (ni : string * value) : value :=
  VDict {[ "name" := VStr ni.1; "id" := ni.2;
           "lifecycle_state" := getattr c "lifecycle_state" VNone ]}.

(** A tenancy with two compartments of the same name. *)
Definition sdk_twins : Provider := λ op args kwargs,
  if String.eqb op "get_oci_config"
  then Ok (VDict {[ "tenancy" := VStr "ocid1.tenancy" ]})
  else if String.eqb op "oci.pagination.list_call_get_all_results"
  then Ok (response
             (VList [namespace {[ "name" := VStr "dev"; "id" := VStr "ocid1.a" ]};
                     namespace {[ "name" := VStr "dev"; "id" := VStr "ocid1.b" ]}]))
  else Ok (VObj "MagicMock" ∅).

(** ** Optional arguments *)

(** The keyword arguments of the update request of a project. *)
Definition update_project_kwargs (project_id new_name new_description : option string)
  : gmap string value :=
  <["project_id" := ostr project_id]>
    (set_if (truthy (ostr new_description)) "description" (ostr new_description)
       (set_if (truthy (ostr new_name)) "display_name" (ostr new_name) ∅)).

(** ** Strings *)

(** [sep] occurs in [s]. *)
Definition occurs (sep s : string) : Prop :=
  ∃ pre post, s = pre +:+ sep +:+ post.

(** [s] is [pre], then its first occurrence of [sep], then [post]. *)
Definition splits_at (sep s pre post : string) : Prop :=
  s = pre +:+ sep +:+ post
  ∧ ∀ pre' post', s = pre' +:+ sep +:+ post' →
                  (String.length pre ≤ String.length pre')%nat.

(** ** The environment *)

(** An environment whose configuration file cannot be read. *)
Definition sdk_no_config : Provider := λ op args kwargs,
  if String.eqb op "os.getenv" then Ok (default VNone (args !! 1%nat))
  else if String.eqb op "oci.config.from_file"
  then Err (Exc "PermissionError" "[Errno 13] Permission denied: '/root/.oci/config'")
  else Ok (VObj "MagicMock" ∅).

(** An environment with a configuration for the tenancy "ocid1.tenancy". *)
Definition sdk_config : Provider := λ op args kwargs,
  if String.eqb op "os.getenv" then Ok (default VNone (args !! 1%nat))
  else if String.eqb op "oci.config.from_file"
  then Ok (VDict {[ "tenancy" := VStr "ocid1.tenancy" ]})
  else Ok (VObj "MagicMock" ∅).

(** ** The file listing *)

(** A record of the file listing. *)
Definition file_record (path : string) (size : value) : value :=
  VDict {[ "path" := VStr path; "bytes" := size ]}.

Definition is_file_record (r : value) : Prop :=
  ∃ path size, r = file_record path size.

(** What the file system answers about the entry [p] below [base]:
    whether it is a regular file and, if it is, its path relative to
    [base] and its size, the size being None when [stat] fails with an
    OSError. *)
Definition entry_answers (sdk : Provider) (base p : value)
    (info : bool * string * value) : Prop :=
  let '(file, path, size) := info in
  (∃ is_file, sdk "Path.is_file" [p] ∅ = Ok is_file ∧ truthy is_file = file)
  ∧ (file = true →
     (∃ relative,
        sdk "Path.relative_to" [p; base] ∅ = Ok relative
        ∧ ∀ t, ∃ t', str sdk relative t = (t', Ok (VStr path)))
     ∧ ((∃ st, sdk "Path.stat" [p] ∅ = Ok st ∧ attr st "st_size" = Ok size)
        ∨ (∃ e, sdk "Path.stat" [p] ∅ = Err e ∧ is_OSError e = true
                ∧ size = VNone))).

(** The record of an entry, if it is a regular file. *)
Definition record_of (info : bool * string * value) : option value :=
  let '(file, path, size) := info in
  if file then Some (file_record path size) else None.

(** A path of the sample directory. *)
Definition entry_path (name : string) : value :=
  VObj "PosixPath" {[ "name" := VStr name ]}.

(** A directory with the file a.txt of 3 bytes, the directory sub, and
    the file sub/b.bin, which cannot be read. *)
Definition sdk_files : Provider := λ op args kwargs,
  let p := default VNone (head args) in
  if String.eqb op "Path" then Ok (VObj "PosixPath" {[ "name" := p ]})
  else if String.eqb op "Path.exists" then Ok (VBool true)
  else if String.eqb op "Path.rglob"
  then Ok (VList [entry_path "a.txt"; entry_path "sub"; entry_path "sub/b.bin"])
  else if String.eqb op "Path.is_file"
  then Ok (VBool (negb (eq_str (getattr p "name" VNone) "sub")))
  else if String.eqb op "Path.stat"
  then if eq_str (getattr p "name" VNone) "sub/b.bin"
       then Err (Exc "PermissionError" "[Errno 13] Permission denied")
       else Ok (VObj "stat_result" {[ "st_size" := VInt 3 ]})
  else if String.eqb op "Path.relative_to" then Ok p
  else if String.eqb op "__str__" then Ok (getattr p "name" VNone)
  else Ok (VObj "MagicMock" ∅).

(** An environment that sets the port of the server, not its host. *)
Definition sdk_port_only : Provider := λ op args kwargs,
  if String.eqb op "os.getenv"
  then Ok (if eq_str (default VNone (head args)) "ORACLE_MCP_PORT"
           then VStr "8080" else VNone)
  else Ok VNone.

(** ** Further requests of the tools *)

(** The keyword arguments of the deploy request of a model. *)
Definition deploy_kwargs
    (compartment_id project_id display_name subnet_id log_group access_log
       predict_log : option string)
    (shape : string) (ocpus memory_in_gbs : option Z) : gmap string value :=
  <["display_name" := ostr display_name]>
    (<["project_id" := ostr project_id]>
       (<["compartment_id" := ostr compartment_id]>
          (set_if (negb (is_None (oint memory_in_gbs))) "deployment_memory_in_gbs"
             (oint memory_in_gbs)
          (set_if (negb (is_None (oint ocpus))) "deployment_ocpus" (oint ocpus)
          (set_if (truthy (ostr predict_log)) "deployment_predict_log_id"
             (ostr predict_log)
          (set_if (truthy (ostr access_log)) "deployment_access_log_id"
             (ostr access_log)
          (set_if (truthy (ostr log_group)) "deployment_log_group_id"
             (ostr log_group)
          (set_if (truthy (ostr subnet_id)) "subnet_id" (ostr subnet_id)
             {[ "deployment_instance_shape" := VStr shape ]})))))))).

(** The requests of jobs "create_script" when no shape-config is set. *)
Definition create_script_requests : list string :=
  ["DataScienceJob"; "DataScienceJob.with_shape_name";
   "DataScienceJob.with_compartment_id"; "DataScienceJob.with_project_id";
   "DataScienceJob.with_block_storage_size";
   "Job"; "Job.with_infrastructure"; "ScriptRuntime";
   "ScriptRuntime.with_service_conda"; "ScriptRuntime.with_source";
   "Job.with_runtime"; "Job.create"; "Job.to_dict"].

(** ** Blank strings *)

Lemma whitespace_only_lstrip s : whitespace_only (lstrip s) = whitespace_only s.
Proof.
  induction s as [|c s IH]; simpl; [done|].
  destruct (is_space c) eqn:Hc; simpl; [done|]. by rewrite Hc.
Qed.

Lemma lstrip_empty s : String.eqb (lstrip s) "" = whitespace_only s.
Proof.
  induction s as [|c s IH]; simpl; [done|].
  by destruct (is_space c).
Qed.

Lemma whitespace_only_rev_app s1 s2 :
  whitespace_only (String.rev_app s1 s2)
  = whitespace_only s1 && whitespace_only s2.
Proof.
  revert s2. induction s1 as [|c s1 IH]; intros s2; simpl; [done|].
  rewrite IH. simpl. by destruct (is_space c), (whitespace_only s1).
Qed.

Lemma rev_app_empty s1 s2 :
  String.eqb (String.rev_app s1 s2) "" = String.eqb s1 "" && String.eqb s2 "".
Proof.
  revert s2. induction s1 as [|c s1 IH]; intros s2; simpl; [done|].
  rewrite IH. simpl. by rewrite andb_false_r.
Qed.

Lemma strip_empty s : String.eqb (strip s) "" = whitespace_only s.
Proof.
  unfold strip, rstrip, String.rev.
  rewrite rev_app_empty, andb_true_r, lstrip_empty.
  by rewrite whitespace_only_rev_app, andb_true_r, whitespace_only_lstrip.
Qed.

Lemma missing_spec v : missing v = true ↔ absent_or_blank v.
Proof.
  unfold absent_or_blank, missing.
  destruct v as [| | | |s| | |]; simpl;
    try (split; [discriminate|intros [?|(?&?&?)]; discriminate]).
  - split; [by left|done].
  - rewrite negb_involutive, strip_empty. split.
    + intros H. right. by exists s.
    + intros [?|(s'&[= <-]&?)]; [discriminate|done].
Qed.

Lemma provided_missing v : provided v = negb (missing v).
Proof. unfold provided, missing. by destruct v; simpl; rewrite ?negb_involutive. Qed.

Lemma missing_false v : missing v = false ↔ ¬ absent_or_blank v.
Proof. rewrite <-missing_spec. by destruct (missing v). Qed.

Lemma require_Ok v name action :
  ¬ absent_or_blank v → _require v name action = Ok ().
Proof. intros H. unfold _require. apply missing_false in H. by rewrite H. Qed.

Lemma require_Err v name action :
  absent_or_blank v →
  _require v name action
  = Err (ValueError ("Missing required parameter '" +:+ name
                     +:+ "' for action='" +:+ action +:+ "'.")).
Proof. intros H. unfold _require. apply missing_spec in H. by rewrite H. Qed.

(** ** C6 *)

(** C6. [_require] raises ValueError with the message
    "Missing required parameter '<name>' for action='<action>'." exactly
    when the value is None or a str that is empty or white space only; on
    every other value (0 and False among them) it returns, and as a step of
    an invocation it leaves the log of requests and records as it was. *)
Theorem C6_require_spec (v : value) (name action : string) :
  (_require v name action
   = Err (ValueError ("Missing required parameter '" +:+ name
                      +:+ "' for action='" +:+ action +:+ "'."))
   ↔ absent_or_blank v)
  ∧ (_require v name action = Ok () ↔ ¬ absent_or_blank v)
  ∧ (∀ t, ¬ absent_or_blank v → lift (_require v name action) t = (t, Ok ())).
Proof.
  split_and!.
  - split; [|apply require_Err].
    unfold _require. destruct (missing v) eqn:E; [|discriminate].
    intros _. by apply missing_spec.
  - split; [|apply require_Ok].
    unfold _require. destruct (missing v) eqn:E; [discriminate|].
    intros _. by apply missing_false.
  - intros t Hv. unfold lift. by rewrite require_Ok.
Qed.

(** The examples of the specification, and the values 0 and False. *)
Example require_examples :
  _require VNone "x" "a"
  = Err (ValueError "Missing required parameter 'x' for action='a'.")
  ∧ _require (VStr "   ") "x" "a"
    = Err (ValueError "Missing required parameter 'x' for action='a'.")
  ∧ _require (VStr "v") "x" "a" = Ok ()
  ∧ _require (VInt 0) "x" "a" = Ok ()
  ∧ _require (VBool false) "x" "a" = Ok ().
Proof. by vm_compute. Qed.

(** ** C7 *)

Lemma existsb_provided_false (pairs : list (string * value)) :
  existsb (λ kv, provided kv.2) pairs = false
  ↔ Forall (λ kv, absent_or_blank kv.2) pairs.
Proof.
  induction pairs as [|[k v] pairs IH]; simpl.
  - split; [constructor|done].
  - rewrite orb_false_iff, IH, Forall_cons, provided_missing, negb_false_iff.
    by rewrite missing_spec.
Qed.

Lemma existsb_provided_true (pairs : list (string * value)) :
  existsb (λ kv, provided kv.2) pairs = true
  ↔ Exists (λ kv, ¬ absent_or_blank kv.2) pairs.
Proof.
  induction pairs as [|[k v] pairs IH]; simpl.
  - split; [done|by intros ?%Exists_nil].
  - rewrite orb_true_iff, IH, Exists_cons, provided_missing, negb_true_iff.
    by rewrite missing_false.
Qed.

Lemma at_least_one_Ok pairs action :
  Exists (λ kv : string * value, ¬ absent_or_blank kv.2) pairs →
  _at_least_one pairs action = Ok ().
Proof.
  intros H. apply existsb_provided_true in H. unfold _at_least_one.
  by rewrite H.
Qed.

Lemma at_least_one_Err pairs action :
  Forall (λ kv : string * value, absent_or_blank kv.2) pairs →
  _at_least_one pairs action
  = Err (ValueError ("At least one of [" +:+ String.concat ", " (map fst pairs)
                     +:+ "] must be provided for action='" +:+ action +:+ "'.")).
Proof.
  intros H. apply existsb_provided_false in H. unfold _at_least_one.
  by rewrite H.
Qed.

(** C7. [_at_least_one] raises ValueError with the message
    "At least one of [<names>] must be provided for action='<action>'.",
    the names in the order given and joined with ", ", exactly when every
    value of the list is None or a blank str; when some value is present
    and not blank it returns, and leaves the log as it was. *)
Theorem C7_at_least_one_spec (pairs : list (string * value)) (action : string) :
  (_at_least_one pairs action
   = Err (ValueError ("At least one of [" +:+ String.concat ", " (map fst pairs)
                      +:+ "] must be provided for action='" +:+ action +:+ "'."))
   ↔ Forall (λ kv, absent_or_blank kv.2) pairs)
  ∧ (_at_least_one pairs action = Ok ()
     ↔ Exists (λ kv, ¬ absent_or_blank kv.2) pairs)
  ∧ (∀ t, Exists (λ kv, ¬ absent_or_blank kv.2) pairs →
          lift (_at_least_one pairs action) t = (t, Ok ())).
Proof.
  split_and!.
  - split; [|apply at_least_one_Err].
    unfold _at_least_one.
    destruct (existsb _ pairs) eqn:E; simpl; [discriminate|].
    intros _. by apply existsb_provided_false.
  - split; [|apply at_least_one_Ok].
    unfold _at_least_one.
    destruct (existsb _ pairs) eqn:E; simpl; [|discriminate].
    intros _. by apply existsb_provided_true.
  - intros t H. unfold lift. by rewrite at_least_one_Ok.
Qed.

Example at_least_one_examples :
  _at_least_one [("a", VNone); ("b", VStr "")] "x"
  = Err (ValueError "At least one of [a, b] must be provided for action='x'.")
  ∧ _at_least_one [("a", VNone); ("b", VStr "v")] "x" = Ok ().
Proof. by vm_compute. Qed.

(** ** The payload builder *)

Lemma _ok_Ok resource action res (extra : gmap string value) :
  no_collision extra →
  _ok resource action res extra = Ok (_ok_body resource action res extra).
Proof.
  intros (H1 & H2 & H3). unfold _ok, _ok_params. simpl.
  rewrite H1, H2, H3.
  rewrite !bool_decide_eq_false_2; [done|by intros [? ?]..].
Qed.

Lemma _ok_Err resource action res (extra : gmap string value) :
  ¬ no_collision extra →
  ∃ k, k ∈ _ok_params ∧ is_Some (extra !! k)
       ∧ _ok resource action res extra
         = Err (TypeError ("_ok() got multiple values for argument '"
                           +:+ k +:+ "'")).
Proof.
  intros Hc. unfold _ok, _ok_params. simpl.
  repeat case_bool_decide;
    try (eexists; split_and!; [|eassumption|reflexivity]; set_solver).
  destruct Hc. split_and!; by apply eq_None_not_Some.
Qed.

Lemma _ok_inv resource action res (extra p : gmap string value) :
  _ok resource action res extra = Ok p →
  no_collision extra ∧ p = _ok_body resource action res extra.
Proof.
  intros H. destruct (decide (no_collision extra)) as [Hc|Hc].
  - split; [done|]. rewrite _ok_Ok in H by done. by injection H.
  - destruct (_ok_Err resource action res extra Hc) as (k & _ & _ & E).
    by rewrite E in H.
Qed.

Lemma _ok_body_fixed resource action res (extra : gmap string value) :
  no_collision extra →
  _ok_body resource action res extra !! "resource" = Some (VStr resource)
  ∧ _ok_body resource action res extra !! "action" = Some (VStr action)
  ∧ _ok_body resource action res extra !! "result" = Some res.
Proof.
  intros (H1 & H2 & H3). unfold _ok_body.
  rewrite !lookup_union_r by done. by split_and!.
Qed.

Lemma _ok_body_extra resource action res (extra : gmap string value) k x :
  extra !! k = Some x → _ok_body resource action res extra !! k = Some x.
Proof. intros H. unfold _ok_body. by apply lookup_union_Some_l. Qed.

Lemma _ok_echoes resource action res (extra p : gmap string value) :
  _ok resource action res extra = Ok p → echoes resource action p.
Proof.
  intros H. apply _ok_inv in H as [Hc ->].
  destruct (_ok_body_fixed resource action res extra Hc) as (? & ? & ?).
  by split_and!.
Qed.

(** ** C2 *)

(** C2, as amended.  When no key of the extra mapping is "resource",
    "action" or "result", [_ok] returns a payload whose three fixed fields
    are the three arguments and in which every extra entry sits at the top
    level, and nothing else.  An extra mapping with one of these three
    keys cannot be passed: the call raises TypeError for the first such
    name and no payload is built. *)
Theorem C2_ok_payload (resource action : string) (res : value)
    (extra : gmap string value) :
  (no_collision extra →
   ∃ p, _ok resource action res extra = Ok p
        ∧ p !! "resource" = Some (VStr resource)
        ∧ p !! "action" = Some (VStr action)
        ∧ p !! "result" = Some res
        ∧ (∀ k x, extra !! k = Some x → p !! k = Some x)
        ∧ dom p = dom extra ∪ {[ "resource"; "action"; "result" ]})
  ∧ (¬ no_collision extra →
     ∃ k, k ∈ _ok_params ∧ is_Some (extra !! k)
          ∧ _ok resource action res extra
            = Err (TypeError ("_ok() got multiple values for argument '"
                              +:+ k +:+ "'"))).
Proof.
  split; [|apply _ok_Err].
  intros Hc. exists (_ok_body resource action res extra).
  destruct (_ok_body_fixed resource action res extra Hc) as (? & ? & ?).
  split_and!; [by apply _ok_Ok|done..| |].
  - intros k x. apply _ok_body_extra.
  - unfold _ok_body. rewrite dom_union_L, !dom_insert_L, dom_singleton_L.
    set_solver.
Qed.

(** The amended statement at a payload with one extra field, and at a
    colliding one. *)
Lemma C2_ok_payload_witness :
  (∃ p, _ok "projects" "count" (VInt 2) {[ "compartment_id" := VStr "c" ]} = Ok p
        ∧ p !! "resource" = Some (VStr "projects")
        ∧ p !! "compartment_id" = Some (VStr "c"))
  ∧ (∃ k, _ok "projects" "count" (VInt 2) {[ "result" := VStr "x" ]}
          = Err (TypeError ("_ok() got multiple values for argument '"
                            +:+ k +:+ "'"))).
Proof.
  split.
  - destruct (proj1 (C2_ok_payload "projects" "count" (VInt 2)
                       {[ "compartment_id" := VStr "c" ]}))
      as (p & Hp & Hr & _ & _ & Hx & _).
    + by vm_compute.
    + exists p. split_and!; [done..|]. by apply Hx.
  - destruct (proj2 (C2_ok_payload "projects" "count" (VInt 2)
                       {[ "result" := VStr "x" ]}))
      as (k & _ & _ & Hk).
    + intros (_ & _ & H). by vm_compute in H.
    + by exists k.
Defined.

(** C2, as stated, fails when the extra mapping has the key "resource":
    the call raises and returns no payload; and the body alone, merging the
    extra mapping over the fixed fields, would let the extra entry win. *)
Lemma C2_counterexample :
  _ok "projects" "list" VNone {[ "resource" := VStr "x" ]}
  = Err (TypeError "_ok() got multiple values for argument 'resource'")
  ∧ ¬ (∃ p, _ok "projects" "list" VNone {[ "resource" := VStr "x" ]} = Ok p
            ∧ p !! "resource" = Some (VStr "projects"))
  ∧ _ok_body "projects" "list" VNone {[ "resource" := VStr "x" ]} !! "resource"
    = Some (VStr "x").
Proof.
  split_and!; [by vm_compute| |by vm_compute].
  intros (p & Hp & _). by vm_compute in Hp.
Qed.

(** ** The tests of the repository, replayed *)

(** The creation of a project, the scenario of the specification. *)
Example projects_create :
  (data_science_projects sdk_projects "create" "c" None (Some "MyProj")
     (Some "desc") None None None []).2
  = Ok {[ "resource" := VStr "projects"; "action" := VStr "create";
          "result" := VDict {[ "project_id" := VStr "p1";
                               "project_name" := VStr "MyProj";
                               "project_description" := VStr "desc" ]};
          "next_actions" :=
            VList [VStr "data_science_notebook_sessions(action='create')";
                   VStr "data_science_jobs(action='create_script'|'create_container')"] ]}.
Proof. by vm_compute. Qed.

(** The filter on project_id falls back to the client when the SDK does
    not take the argument. *)
Example list_models_fallback :
  ∃ t' payload m1,
    data_science_model_catalog sdk_old_ads "list_models" "c" (Some "p1") None
      None None None [] = (t', Ok payload)
    ∧ payload !! "result" = Some (VList [VDict m1])
    ∧ m1 !! "model_id" = Some (VStr "m1").
Proof. eexists _, _, _. by vm_compute. Qed.

(** The listing of the pipelines cut at limit 1. *)
Example pipelines_list_limit :
  (data_science_pipelines sdk_pipelines "list" (Some "c") None (Some 1) []).2
  = Ok {[ "resource" := VStr "pipelines"; "action" := VStr "list";
          "result" := VList [VDict {[ "id" := VStr "pl1"; "name" := VStr "P1" ]}];
          "compartment_id" := VStr "c" ]}.
Proof. by vm_compute. Qed.

(** The listing of the job runs hands job_id and limit to the SDK. *)
Example job_runs_list_passes_job_id_and_limit :
  (data_science_job_runs sdk_empty "list" (Some "c") None (Some "j") None None
     (Some 5) []).1
  = [ECall "get_data_science_client" [] ∅;
     ECall "DataScienceClient.list_job_runs" [VObj "Mock" ∅]
       {[ "compartment_id" := VStr "c"; "job_id" := VStr "j";
          "limit" := VInt 5 ]}].
Proof. by vm_compute. Qed.

(** An update of a job without a new display name is refused. *)
Example jobs_update_requires_new_display_name :
  (data_science_jobs sdk_empty "update" None None (Some "j1") None None
     "generalml_p311_cpu_x86_64_v1" "VM.Standard2.2" None None 50 None None []).2
  = Err (ValueError
           "At least one of [new_display_name] must be provided for action='update'.").
Proof. by vm_compute. Qed.

(** ** Rules for [returns] *)

Section Returns.
Context {A B : Type}.
Implicit Types (m : M A) (k : A → M B) (Q : B → Prop).

Lemma returns_ret (a : A) (Q : A → Prop) : Q a → returns (mret a) Q.
Proof. intros H t t' a' [= _ <-]. done. Qed.

Lemma returns_raise e (Q : A → Prop) : returns (raise e) Q.
Proof. intros t t' a. unfold raise. congruence. Qed.

Lemma returns_bind m k Q : (∀ a, returns (k a) Q) → returns (m ≫= k) Q.
Proof.
  intros Hk t t' b. unfold mbind, M_bind.
  destruct (m t) as [t1 [a|e]]; [apply Hk|congruence].
Qed.

Lemma returns_if (b : bool) (m1 m2 : M A) (Q : A → Prop) :
  returns m1 Q → returns m2 Q → returns (if b then m1 else m2) Q.
Proof. by destruct b. Qed.

Lemma returns_try_except m (h : exc → M A) (Q : A → Prop) :
  returns m Q → (∀ e, returns (h e) Q) → returns (try_except m h) Q.
Proof.
  intros Hm Hh t t' a. unfold try_except.
  destruct (m t) as [t1 [a1|e]] eqn:E.
  - intros [= <- <-]. by eapply Hm.
  - apply Hh.
Qed.

End Returns.

Lemma returns_logged {A} msg (m : M A) (Q : A → Prop) :
  returns m Q → returns (logged msg m) Q.
Proof.
  intros Hm. apply returns_try_except; [done|].
  intros e. apply returns_bind. intros _. apply returns_raise.
Qed.

Lemma returns_ok resource action res extra :
  returns (lift (_ok resource action res extra)) (echoes resource action).
Proof. intros t t' p [= _ H]. by eapply _ok_echoes. Qed.

(** One step of a proof that a tool echoes: peel the frame, a bind or a
    conditional, or close at [_ok] or at a raise. *)
Ltac echo_step :=
  lazymatch goal with
  | |- returns (logged _ _) _ => apply returns_logged
  | |- returns (lift (_ok _ _ _ _)) _ => apply returns_ok
  | |- returns (unsupported _) _ => apply returns_raise
  | |- returns (raise _) _ => apply returns_raise
  | |- returns (_ ≫= _) _ => apply returns_bind; intros ?
  | |- returns (if _ then _ else _) _ => apply returns_if
  | |- returns (let _ := _ in _) _ => cbv zeta
  end.

Lemma compartments_echoes sdk action :
  returns (oci_ds_compartments sdk action) (echoes "compartments" action).
Proof. unfold oci_ds_compartments. repeat echo_step. Qed.

Lemma projects_echoes sdk action c pid pn pd nn nd limit :
  returns (data_science_projects sdk action c pid pn pd nn nd limit)
    (echoes "projects" action).
Proof. unfold data_science_projects. repeat echo_step. Qed.

Lemma model_catalog_echoes sdk action c pid mid td vs limit :
  returns (data_science_model_catalog sdk action c pid mid td vs limit)
    (echoes "model_catalog" action).
Proof. unfold data_science_model_catalog. repeat echo_step. Qed.

Lemma jobs_echoes sdk action c p j d sp ce sh oc mem bs im nd :
  returns (data_science_jobs sdk action c p j d sp ce sh oc mem bs im nd)
    (echoes "jobs" action).
Proof. unfold data_science_jobs. repeat echo_step. Qed.

Lemma job_runs_echoes sdk action c p j d jr limit :
  returns (data_science_job_runs sdk action c p j d jr limit)
    (echoes "job_runs" action).
Proof. unfold data_science_job_runs. repeat echo_step. Qed.

Lemma notebook_sessions_echoes sdk action c p ns d sh bs sn pe oc mem :
  returns (data_science_notebook_sessions sdk action c p ns d sh bs sn pe oc mem)
    (echoes "notebook_sessions" action).
Proof. unfold data_science_notebook_sessions. repeat echo_step. Qed.

Lemma pipelines_echoes sdk action c pl limit :
  returns (data_science_pipelines sdk action c pl limit)
    (echoes "pipelines" action).
Proof. unfold data_science_pipelines. repeat echo_step. Qed.

Lemma pipeline_runs_echoes sdk action c pl d pr limit :
  returns (data_science_pipeline_runs sdk action c pl d pr limit)
    (echoes "pipeline_runs" action).
Proof. unfold data_science_pipeline_runs. repeat echo_step. Qed.

Lemma model_deployments_echoes sdk action c p m d dep sn lg al pl sh oc mem limit :
  returns (data_science_model_deployments sdk action c p m d dep sn lg al pl sh
             oc mem limit)
    (echoes "model_deployments" action).
Proof. unfold data_science_model_deployments. repeat echo_step. Qed.

Lemma invoke_echoes sdk c :
  returns (invoke sdk c) (echoes (resource_of c) (action_of c)).
Proof.
  destruct c;
    [ apply compartments_echoes | apply projects_echoes
    | apply model_catalog_echoes | apply jobs_echoes | apply job_runs_echoes
    | apply notebook_sessions_echoes | apply pipelines_echoes
    | apply pipeline_runs_echoes | apply model_deployments_echoes ].
Qed.

(** ** Rules for [succeeds] *)

Lemma succeeds_ret {A} (a : A) (Q : A → Prop) : Q a → succeeds (mret a) Q.
Proof. intros H t. by exists t, a. Qed.

Lemma succeeds_bind {A B} (m : M A) (k : A → M B) (Q1 : A → Prop) (Q : B → Prop) :
  succeeds m Q1 → (∀ a, Q1 a → succeeds (k a) Q) → succeeds (m ≫= k) Q.
Proof.
  intros Hm Hk t. destruct (Hm t) as (t1 & a & E & Ha).
  destruct (Hk a Ha t1) as (t2 & b & E' & Hb).
  exists t2, b. unfold mbind, M_bind. by rewrite E.
Qed.

Lemma succeeds_lift {A} (r : result A) (a : A) (Q : A → Prop) :
  r = Ok a → Q a → succeeds (lift r) Q.
Proof. intros -> H t. by exists t, a. Qed.

Lemma succeeds_bind_lift {A B} (r : result A) (a : A) (k : A → M B) (Q : B → Prop) :
  r = Ok a → succeeds (k a) Q → succeeds (lift r ≫= k) Q.
Proof.
  intros Hr Hk. apply succeeds_bind with (Q1 := λ x, x = a).
  - by apply succeeds_lift with a.
  - by intros ? ->.
Qed.

Lemma succeeds_weaken {A} (m : M A) (Q Q' : A → Prop) :
  succeeds m Q → (∀ a, Q a → Q' a) → succeeds m Q'.
Proof.
  intros Hm HQ t. destruct (Hm t) as (t' & a & E & Ha). exists t', a. auto.
Qed.

Lemma succeeds_call sdk op args kwargs :
  canonical sdk → succeeds (call sdk op args kwargs) (reply_shape op).
Proof.
  intros Hc t. destruct (Hc op args kwargs) as (v & E & Hv).
  eexists _, v. unfold call. by rewrite E.
Qed.

Lemma succeeds_try_except {A} (m : M A) (h : exc → M A) (Q : A → Prop) :
  succeeds m Q → succeeds (try_except m h) Q.
Proof.
  intros Hm t. destruct (Hm t) as (t' & a & E & Ha). exists t', a.
  unfold try_except. by rewrite E.
Qed.

Lemma succeeds_logged {A} msg (m : M A) (Q : A → Prop) :
  succeeds m Q → succeeds (logged msg m) Q.
Proof. apply succeeds_try_except. Qed.

Lemma succeeds_log level msg args : succeeds (log level msg args) (λ _, True).
Proof. intros t. by eexists _, (). Qed.

Lemma succeeds_mapM {A B} (f : A → M B) (xs : list A) :
  (∀ x, succeeds (f x) (λ _, True)) → succeeds (mapM f xs) (λ _, True).
Proof.
  intros Hf. induction xs as [|x xs IH]; simpl.
  - by apply succeeds_ret.
  - eapply succeeds_bind; [apply Hf|]. intros y _.
    eapply succeeds_bind; [apply IH|]. intros ys _. by apply succeeds_ret.
Qed.

Lemma mapM_cons `{MBind F, MRet F} {A B} (f : A → F B) x xs :
  mapM f (x :: xs) = (y ← f x; ys ← mapM f xs; mret (y :: ys)).
Proof. done. Qed.

Lemma mapM_Ok {A B} (f : A → result B) (P : A → Prop) (xs : list A) :
  (∀ x, P x → ∃ y, f x = Ok y) → Forall P xs → ∃ ys, mapM f xs = Ok ys.
Proof.
  intros Hf. induction 1 as [|x xs Hx _ [ys IH]]; simpl; [by eexists|].
  destruct (Hf x Hx) as [y ->]. simpl. rewrite IH. by eexists.
Qed.

(** The requests of a valid call pass the helpers. *)
Lemma succeeds_require {B} o name action (k : unit → M B) (Q : B → Prop) :
  present o → succeeds (k ()) Q →
  succeeds (lift (_require (ostr o) name action) ≫= k) Q.
Proof. intros Ho. apply succeeds_bind_lift. by apply require_Ok. Qed.

Lemma succeeds_ok resource action res extra :
  no_collision extra →
  succeeds (lift (_ok resource action res extra)) (λ _, True).
Proof. intros H. eapply succeeds_lift; [by apply _ok_Ok|done]. Qed.

Lemma no_collision_empty : no_collision ∅.
Proof. by split_and!. Qed.

Lemma no_collision_singleton (k : string) (v : value) :
  k ≠ "resource" → k ≠ "action" → k ≠ "result" → no_collision {[ k := v ]}.
Proof. intros. split_and!; by apply lookup_singleton_ne. Qed.

(** Reading an answer of the expected shape. *)
Lemma data_of_attr Q v : data_of Q v → ∃ d, attr v "data" = Ok d ∧ Q d.
Proof. intros (cls & attrs & d & -> & Hd & HQ). exists d. simpl. by rewrite Hd. Qed.

Lemma list_of_iter Q v : list_of Q v → ∃ xs, iter v = Ok xs ∧ Forall Q xs.
Proof. intros (xs & -> & HQ). by exists xs. Qed.

Lemma has_attrs_attr names v k :
  has_attrs names v → k ∈ names → ∃ x, attr v k = Ok x.
Proof.
  intros (cls & attrs & -> & Hall) Hk.
  rewrite Forall_forall in Hall. destruct (Hall k Hk) as [x Hx].
  exists x. simpl. by rewrite Hx.
Qed.

Lemma list_of_first Q v :
  list_of Q v → truthy v = true → ∃ x, first v = Ok x ∧ Q x.
Proof.
  intros (xs & -> & HQ) Ht. destruct xs as [|x xs]; [done|].
  exists x. split; [done|]. by inversion HQ.
Qed.

(** Reduce the comparisons of two literal strings in the goal. *)
Ltac eqb_reduce :=
  repeat match goal with
  | |- context [String.eqb ?a ?b] =>
      let r := eval vm_compute in (String.eqb a b) in
      change (String.eqb a b) with r; cbv iota
  end.

(** The rows of the listings. *)
Ltac row_Ok names :=
  let H := fresh in
  intros H; unfold mbind, result_bind;
  repeat match goal with
  | |- context [attr ?v ?k] =>
      let x := fresh "x" in let Hx := fresh "Hx" in
      destruct (has_attrs_attr names v k H) as [x Hx];
      [set_solver|rewrite Hx]
  end; by eexists.

Lemma project_row_Ok p : has_attrs ["id"] p → ∃ y, project_row p = Ok y.
Proof. unfold project_row. row_Ok ["id"]. Qed.

Lemma version_set_row_Ok p :
  has_attrs ["id"; "name"] p → ∃ y, version_set_row p = Ok y.
Proof. unfold version_set_row. row_Ok ["id"; "name"]. Qed.

Lemma job_row_Ok p : has_attrs ["job_id"; "name"] p → ∃ y, job_row p = Ok y.
Proof. unfold job_row. row_Ok ["job_id"; "name"]. Qed.

Lemma session_row_Ok p :
  has_attrs ["id"; "display_name"; "lifecycle_state"] p →
  ∃ y, session_row p = Ok y.
Proof. unfold session_row. row_Ok ["id"; "display_name"; "lifecycle_state"]. Qed.

Lemma pipeline_row_Ok p :
  has_attrs ["id"; "display_name"] p → ∃ y, pipeline_row p = Ok y.
Proof. unfold pipeline_row. row_Ok ["id"; "display_name"]. Qed.

Lemma deployment_row_Ok p :
  has_attrs ["id"; "display_name"; "lifecycle_state"] p →
  ∃ y, deployment_row p = Ok y.
Proof. unfold deployment_row. row_Ok ["id"; "display_name"; "lifecycle_state"]. Qed.

Section Canonical.

Variable sdk : Provider.
Hypothesis Hsdk : canonical sdk.

Lemma succeeds_call_bind {B} op args kwargs (k : value → M B) (Q : B → Prop) :
  (∀ v, reply_shape op v → succeeds (k v) Q) →
  succeeds (call sdk op args kwargs ≫= k) Q.
Proof. intros Hk. eapply succeeds_bind; [by apply succeeds_call|done]. Qed.

Lemma succeeds_len v :
  has_attrs [] v ∨ list_of any v → succeeds (len sdk v) (λ _, True).
Proof.
  intros [(cls & attrs & -> & _)|(xs & -> & _)]; simpl.
  - apply succeeds_call_bind. intros r (n & -> & Hn).
    destruct (Z.ltb_spec n 0); [lia|]. by apply succeeds_ret.
  - by apply succeeds_ret.
Qed.

Lemma succeeds_str v : succeeds (str sdk v) (λ _, True).
Proof.
  assert (succeeds (r ← call sdk "__str__" [v] ∅;
                    match r with
                    | VStr s => mret (VStr s)
                    | _ => raise (TypeError "__str__ returned non-string")
                    end) (λ _, True)) as H.
  { apply succeeds_call_bind. intros r (s & ->). by apply succeeds_ret. }
  destruct v; try exact H. by apply succeeds_ret.
Qed.

Lemma succeeds_to_dict v : succeeds (to_dict sdk v) (λ _, True).
Proof. eapply succeeds_weaken; [by apply succeeds_call|done]. Qed.

Lemma succeeds_model_row m : succeeds (model_row sdk m) (λ _, True).
Proof.
  unfold model_row. eapply succeeds_bind with (Q1 := λ _, True).
  - destruct (negb _); [apply succeeds_str|by apply succeeds_ret].
  - intros. by apply succeeds_ret.
Qed.

Lemma succeeds_try_download model_id target_dir :
  succeeds (try_download sdk model_id target_dir) (λ _, True).
Proof.
  unfold try_download. apply succeeds_try_except.
  apply succeeds_call_bind. intros model _.
  apply succeeds_call_bind. intros _ _. by apply succeeds_ret.
Qed.

(** One step of a run against a canonical provider. *)
Ltac run_step :=
  lazymatch goal with
  | |- succeeds (logged _ _) _ => apply succeeds_logged
  | |- succeeds (let _ := _ in _) _ => cbv zeta
  | |- succeeds (lift (_ok _ _ _ _)) _ =>
      apply succeeds_ok;
      first [ apply no_collision_empty
            | by apply no_collision_singleton ]
  | |- succeeds (call sdk ?op _ _ ≫= _) _ =>
      let v := fresh "v" in let Hv := fresh "Hv" in
      apply succeeds_call_bind; intros v Hv;
      unfold reply_shape in Hv; simpl in Hv
  | |- succeeds (lift (_require (ostr _) _ _) ≫= _) _ =>
      apply succeeds_require; [assumption|]
  | |- succeeds (lift (_at_least_one _ _) ≫= _) _ =>
      eapply succeeds_bind_lift;
      [apply at_least_one_Ok;
       repeat first [apply Exists_cons_hd; assumption|apply Exists_cons_tl]|]
  | |- succeeds (lift (first ?v) ≫= _) _ =>
      lazymatch goal with
      | H : list_of _ v, E : truthy v = true |- _ =>
          let x := fresh "x" in let Hx := fresh "Hx" in let Hq := fresh "Hq" in
          destruct (list_of_first _ _ H E) as (x & Hx & Hq);
          apply (succeeds_bind_lift _ _ _ _ Hx)
      end
  | |- succeeds (lift (attr ?v "data") ≫= _) _ =>
      lazymatch goal with
      | H : data_of _ v |- _ =>
          let d := fresh "d" in let Hd := fresh "Hd" in let Hq := fresh "Hq" in
          destruct (data_of_attr _ _ H) as (d & Hd & Hq);
          apply (succeeds_bind_lift _ _ _ _ Hd)
      end
  | |- succeeds (lift (attr ?v ?k) ≫= _) _ =>
      lazymatch goal with
      | H : has_attrs ?names v |- _ =>
          let x := fresh "x" in let Hx := fresh "Hx" in
          destruct (has_attrs_attr names v k H) as [x Hx];
          [set_solver|apply (succeeds_bind_lift _ _ _ _ Hx)]
      end
  | |- succeeds (lift (iter ?v) ≫= _) _ =>
      lazymatch goal with
      | H : list_of _ v |- _ =>
          let xs := fresh "xs" in let Hi := fresh "Hi" in let Hq := fresh "Hq" in
          destruct (list_of_iter _ _ H) as (xs & Hi & Hq);
          apply (succeeds_bind_lift _ _ _ _ Hi)
      end
  | |- succeeds (lift (mapM ?row ?xs) ≫= _) _ =>
      lazymatch goal with
      | H : Forall _ xs |- _ =>
          let ys := fresh "rows" in let Hy := fresh "Hrows" in
          destruct (mapM_Ok row _ xs
                      ltac:(first [ exact project_row_Ok | exact version_set_row_Ok
                                  | exact job_row_Ok | exact session_row_Ok
                                  | exact pipeline_row_Ok | exact deployment_row_Ok ])
                      H) as (ys & Hy);
          apply (succeeds_bind_lift _ _ _ _ Hy)
      end
  | |- succeeds (len sdk ?v ≫= _) _ =>
      eapply succeeds_bind; [apply succeeds_len; by eauto|intros ? _]
  | |- succeeds (str sdk ?v ≫= _) _ =>
      eapply succeeds_bind; [apply succeeds_str|intros ? _]
  | |- succeeds (to_dict sdk ?v ≫= _) _ =>
      eapply succeeds_bind; [apply succeeds_to_dict|intros ? _]
  | |- succeeds (mapM (to_dict sdk) _ ≫= _) _ =>
      eapply succeeds_bind;
      [apply succeeds_mapM; intros ?; apply succeeds_to_dict|intros ? _]
  | |- succeeds (mapM (model_row sdk) _ ≫= _) _ =>
      eapply succeeds_bind;
      [apply succeeds_mapM; intros ?; apply succeeds_model_row|intros ? _]
  | |- succeeds (try_download sdk _ _ ≫= _) _ =>
      eapply succeeds_bind; [apply succeeds_try_download|intros ? _]
  | |- succeeds (_list_files_recursive sdk _ ≫= _) _ =>
      unfold _list_files_recursive
  | |- succeeds (log _ _ _ ≫= _) _ =>
      eapply succeeds_bind; [apply succeeds_log|intros ? _]
  | |- succeeds (mret _ ≫= _) _ =>
      eapply succeeds_bind; [by apply succeeds_ret|intros ? _]
  | |- succeeds ((if ?b then _ else _) ≫= _) _ =>
      eapply succeeds_bind with (Q1 := λ _, True); [destruct b|intros ? _]
  | |- succeeds (if negb ?b then _ else _) _ =>
      destruct b eqn:?; cbn [negb]; try done
  | |- succeeds (if ?b then _ else _) _ => destruct b eqn:?; try done
  | |- succeeds (mret _) _ => by apply succeeds_ret
  | |- succeeds (log _ _ _) _ => apply succeeds_log
  | |- succeeds (try_except _ _) _ => apply succeeds_try_except
  | |- succeeds (call sdk _ _ _) _ =>
      eapply succeeds_weaken; [by apply succeeds_call|done]
  end.

(** Spend the rules of a valid call at the action at hand. *)
Ltac use_valid :=
  repeat match goal with
  | H : _ ∧ _ |- _ => destruct H
  | H : _ ∨ _ |- _ => destruct H
  | H : _ = _ → _ |- _ => first [specialize (H eq_refl)|clear H]
  | H : _ = _ ∨ _ → _ |- _ =>
      first [ specialize (H (or_introl eq_refl))
            | specialize (H (or_intror eq_refl))
            | specialize (H (or_intror (or_introl eq_refl)))
            | specialize (H (or_intror (or_intror eq_refl)))
            | clear H ]
  end.

(** Split the declared actions into cases and run each. *)
Ltac by_action Ha :=
  unfold supported in Ha; cbn [action_of actions_of] in Ha;
  unfold projects_actions, model_catalog_actions, jobs_actions,
    job_runs_actions, notebook_sessions_actions, pipelines_actions,
    pipeline_runs_actions, model_deployments_actions in Ha;
  repeat (apply elem_of_cons in Ha; destruct Ha as [->|Ha]);
  [..|by apply elem_of_nil in Ha]; eqb_reduce; use_valid.

Lemma compartment_row_Ok c s i :
  attr c "name" = Ok (VStr s) → attr c "id" = Ok i →
  compartment_row c
  = Ok (VDict {[ "name" := VStr s; "id" := i;
                 "lifecycle_state" := getattr c "lifecycle_state" VNone ]}).
Proof. unfold compartment_row. by intros -> ->. Qed.

Lemma compartment_rows_Ok cs :
  Forall (λ c, has_attrs ["name"; "id"] c ∧ ∃ s, attr c "name" = Ok (VStr s)) cs →
  ∃ rows, mapM compartment_row cs = Ok rows
          ∧ ∀ acc, ∃ by_name, by_name_of rows acc = Ok by_name.
Proof.
  induction 1 as [|c cs [Hc [s Hs]] _ (rows & Hrows & Hby)].
  - exists []. split; [done|]. intros acc. by exists acc.
  - destruct (has_attrs_attr _ _ "id" Hc) as [i Hi]; [set_solver|].
    rewrite mapM_cons, (compartment_row_Ok c s i Hs Hi), Hrows.
    eexists. split; [reflexivity|].
    intros acc. simpl. rewrite lookup_insert_eq. simpl.
    rewrite lookup_insert_ne by done. rewrite lookup_insert_eq. simpl.
    apply Hby.
Qed.

Lemma compartments_succeeds action :
  succeeds (oci_ds_compartments sdk action) (λ _, True).
Proof.
  unfold oci_ds_compartments. do 2 run_step.
  destruct Hv as (kv & x & -> & Hx).
  eapply succeeds_bind_lift; [simpl; by rewrite Hx|].
  do 4 run_step.
  destruct (compartment_rows_Ok _ Hq0) as (rows & Hrows & Hby).
  eapply succeeds_bind_lift; [exact Hrows|].
  destruct (Hby ∅) as [by_name Hb].
  eapply succeeds_bind_lift; [exact Hb|]. run_step.
Qed.

Lemma projects_succeeds action c pid pn pd nn nd limit :
  supported (Projects action c pid pn pd nn nd limit) →
  valid (Projects action c pid pn pd nn nd limit) →
  succeeds (data_science_projects sdk action c pid pn pd nn nd limit) (λ _, True).
Proof.
  unfold valid, data_science_projects.
  intros Ha Hvalid. by_action Ha; repeat run_step.
Qed.

Lemma model_catalog_succeeds action c pid mid td vs limit :
  supported (ModelCatalog action c pid mid td vs limit) →
  valid (ModelCatalog action c pid mid td vs limit) →
  succeeds (data_science_model_catalog sdk action c pid mid td vs limit)
    (λ _, True).
Proof.
  unfold valid, data_science_model_catalog.
  intros Ha Hvalid. by_action Ha; [|repeat run_step..].
  do 2 run_step.
  apply succeeds_bind with (Q1 := reply_shape "ModelCatalog.list_models").
  - destruct (truthy (ostr pid)); [apply succeeds_try_except|];
      by apply succeeds_call.
  - intros models Hm. unfold reply_shape in Hm. simpl in Hm. repeat run_step.
Qed.

Lemma jobs_succeeds action c p j d sp ce sh oc mem bs im nd :
  supported (Jobs action c p j d sp ce sh oc mem bs im nd) →
  valid (Jobs action c p j d sp ce sh oc mem bs im nd) →
  succeeds (data_science_jobs sdk action c p j d sp ce sh oc mem bs im nd)
    (λ _, True).
Proof.
  unfold valid, data_science_jobs.
  intros Ha Hvalid. by_action Ha; repeat run_step.
Qed.

Lemma job_runs_succeeds action c p j d jr limit :
  supported (JobRuns action c p j d jr limit) →
  valid (JobRuns action c p j d jr limit) →
  succeeds (data_science_job_runs sdk action c p j d jr limit) (λ _, True).
Proof.
  unfold valid, data_science_job_runs.
  intros Ha Hvalid. by_action Ha; repeat run_step.
Qed.

Lemma notebook_sessions_succeeds action c p ns d sh bs sn pe oc mem :
  supported (NotebookSessions action c p ns d sh bs sn pe oc mem) →
  valid (NotebookSessions action c p ns d sh bs sn pe oc mem) →
  succeeds (data_science_notebook_sessions sdk action c p ns d sh bs sn pe oc mem)
    (λ _, True).
Proof.
  unfold valid, data_science_notebook_sessions.
  intros Ha Hvalid. by_action Ha; repeat run_step.
  exfalso.
  match goal with H : _ && _ = true |- _ => apply andb_true_iff in H as [Hf Hn] end.
  apply bool_decide_eq_true in Hf.
  match goal with H : _ ∈ flex_shapes → _ |- _ =>
    destruct (H Hf) as [[o ->] [m ->]] end.
  done.
Qed.

Lemma pipelines_succeeds action c pl limit :
  supported (Pipelines action c pl limit) →
  valid (Pipelines action c pl limit) →
  succeeds (data_science_pipelines sdk action c pl limit) (λ _, True).
Proof.
  unfold valid, data_science_pipelines.
  intros Ha Hvalid. by_action Ha; repeat run_step.
Qed.

Lemma pipeline_runs_succeeds action c pl d pr limit :
  supported (PipelineRuns action c pl d pr limit) →
  valid (PipelineRuns action c pl d pr limit) →
  succeeds (data_science_pipeline_runs sdk action c pl d pr limit) (λ _, True).
Proof.
  unfold valid, data_science_pipeline_runs.
  intros Ha Hvalid. by_action Ha; repeat run_step.
Qed.

Lemma model_deployments_succeeds action c p m d dep sn lg al pl sh oc mem limit :
  supported (ModelDeployments action c p m d dep sn lg al pl sh oc mem limit) →
  valid (ModelDeployments action c p m d dep sn lg al pl sh oc mem limit) →
  succeeds (data_science_model_deployments sdk action c p m d dep sn lg al pl sh
              oc mem limit) (λ _, True).
Proof.
  unfold valid, data_science_model_deployments.
  intros Ha Hvalid. by_action Ha; repeat run_step.
Qed.

Lemma invoke_succeeds c :
  supported c → valid c → succeeds (invoke sdk c) (λ _, True).
Proof.
  destruct c;
    [ intros _ _; apply compartments_succeeds | apply projects_succeeds
    | apply model_catalog_succeeds | apply jobs_succeeds
    | apply job_runs_succeeds | apply notebook_sessions_succeeds
    | apply pipelines_succeeds | apply pipeline_runs_succeeds
    | apply model_deployments_succeeds ].
Qed.

End Canonical.

(** ** Equations of a run *)

Lemma run_call_Ok {B} sdk op args kwargs v (k : value → M B) t :
  sdk op args kwargs = Ok v →
  (call sdk op args kwargs ≫= k) t = k v (t ++ [ECall op args kwargs])%list.
Proof. intros H. unfold mbind, M_bind, call. by rewrite H. Qed.

Lemma run_call_Err {B} sdk op args kwargs e (k : value → M B) t :
  sdk op args kwargs = Err e →
  (call sdk op args kwargs ≫= k) t
  = ((t ++ [ECall op args kwargs])%list, Err e).
Proof. intros H. unfold mbind, M_bind, call. by rewrite H. Qed.

Lemma run_lift_Ok {A B} (r : result A) a (k : A → M B) t :
  r = Ok a → (lift r ≫= k) t = k a t.
Proof. by intros ->. Qed.

Lemma run_lift_Err {A B} (r : result A) e (k : A → M B) t :
  r = Err e → (lift r ≫= k) t = (t, Err e).
Proof. by intros ->. Qed.

Lemma run_require_Ok {B} o name action (k : unit → M B) t :
  present o → (lift (_require (ostr o) name action) ≫= k) t = k () t.
Proof. intros H. apply run_lift_Ok. by apply require_Ok. Qed.

Lemma run_require_Err {B} o name action (k : unit → M B) t :
  absent_or_blank (ostr o) →
  (lift (_require (ostr o) name action) ≫= k) t
  = (t, Err (ValueError ("Missing required parameter '" +:+ name
                         +:+ "' for action='" +:+ action +:+ "'."))).
Proof. intros H. apply run_lift_Err. by apply require_Err. Qed.

Lemma run_logged_Ok {A} msg (m : M A) t t' a :
  m t = (t', Ok a) → logged msg m t = (t', Ok a).
Proof. intros H. unfold logged, try_except. by rewrite H. Qed.

Lemma run_logged_Err {A} msg (m : M A) t t' e :
  m t = (t', Err e) →
  logged msg m t = ((t' ++ [ELog "ERROR" msg []])%list, Err e).
Proof. intros H. unfold logged, try_except. by rewrite H. Qed.

Lemma run_ok resource action res extra t :
  no_collision extra →
  lift (_ok resource action res extra) t
  = (t, Ok (_ok_body resource action res extra)).
Proof. intros H. unfold lift. by rewrite _ok_Ok. Qed.

(** ** C4 *)

(** C4. job_runs, action "status" or "cancel", without a job_run_id, with
    compartment_id and job_id given: when the list of runs the provider
    answers for them is empty, the tool returns a payload, it does not
    raise; the result is None and a message says that no runs were found.
    For "status" the payload is
    {resource: "job_runs", action: "status", result: None,
     message: "No job runs found."}. *)
Theorem C4_no_runs_is_success (sdk : Provider)
    (compartment_id project_id job_id display_name job_run_id : option string)
    (limit : option Z) (ds_client resp : value) (t : list event) :
  truthy (ostr job_run_id) = false →
  present compartment_id → present job_id →
  sdk "get_data_science_client" [] ∅ = Ok ds_client →
  sdk "DataScienceClient.list_job_runs" [ds_client]
      (latest_job_run_kwargs compartment_id job_id) = Ok resp →
  attr resp "data" = Ok (VList []) →
  let t' := (t ++ [ECall "get_data_science_client" [] ∅;
                   ECall "DataScienceClient.list_job_runs" [ds_client]
                     (latest_job_run_kwargs compartment_id job_id)])%list in
  data_science_job_runs sdk "status" compartment_id project_id job_id
    display_name job_run_id limit t
  = (t', Ok {[ "resource" := VStr "job_runs"; "action" := VStr "status";
               "result" := VNone; "message" := VStr "No job runs found." ]})
  ∧ data_science_job_runs sdk "cancel" compartment_id project_id job_id
      display_name job_run_id limit t
    = (t', Ok {[ "resource" := VStr "job_runs"; "action" := VStr "cancel";
                 "result" := VNone;
                 "message" := VStr "No job runs found to cancel." ]}).
Proof.
  intros Hjr Hc Hj Hclient Hlist Hdata t'.
  unfold data_science_job_runs. split.
  - apply run_logged_Ok. rewrite (run_call_Ok _ _ _ _ _ _ _ Hclient).
    eqb_reduce. rewrite Hjr.
    rewrite !run_require_Ok by done.
    unfold latest_job_run_kwargs in Hlist.
    rewrite (run_call_Ok _ _ _ _ _ _ _ Hlist).
    rewrite (run_lift_Ok _ _ _ _ Hdata). cbn [truthy negb].
    rewrite run_ok by (by apply no_collision_singleton).
    subst t'. by rewrite <-app_assoc.
  - apply run_logged_Ok. rewrite (run_call_Ok _ _ _ _ _ _ _ Hclient).
    eqb_reduce. cbv zeta. rewrite Hjr. cbn [negb].
    rewrite !run_require_Ok by done.
    unfold latest_job_run_kwargs in Hlist.
    rewrite (run_call_Ok _ _ _ _ _ _ _ Hlist).
    rewrite (run_lift_Ok _ _ _ _ Hdata). cbn [truthy negb].
    rewrite run_ok by (by apply no_collision_singleton).
    subst t'. by rewrite <-app_assoc.
Qed.

Lemma present_Some s : whitespace_only s = false → present (Some s).
Proof.
  intros H. apply missing_false. unfold missing. simpl.
  by rewrite negb_involutive, strip_empty.
Qed.

(** C4 at compartment_id "c" and job_id "j", the scenario of the
    specification. *)
Lemma C4_no_runs_is_success_witness :
  data_science_job_runs sdk_empty "status" (Some "c") None (Some "j") None None
    None []
  = ([ECall "get_data_science_client" [] ∅;
      ECall "DataScienceClient.list_job_runs" [VObj "Mock" ∅]
        (latest_job_run_kwargs (Some "c") (Some "j"))],
     Ok {[ "resource" := VStr "job_runs"; "action" := VStr "status";
           "result" := VNone; "message" := VStr "No job runs found." ]}).
Proof.
  refine (proj1 (C4_no_runs_is_success sdk_empty (Some "c") None (Some "j") None
                   None None (VObj "Mock" ∅) (response (VList [])) []
                   _ _ _ _ _ _)).
  - reflexivity.
  - by apply present_Some.
  - by apply present_Some.
  - reflexivity.
  - reflexivity.
  - reflexivity.
Defined.

(** ** C10 *)

(** C10. pipeline_runs checks compartment_id, then pipeline_id, before it
    obtains the client and before it looks at the action.  Whatever the
    action (declared or not) and whatever pipeline_run_id: when
    compartment_id is absent or blank the call raises the ValueError that
    names compartment_id; when compartment_id is present and pipeline_id is
    absent or blank it raises the one that names pipeline_id.  In both
    cases the log has gained the record of the frame and no request. *)
Theorem C10_pipeline_runs_validates_first (sdk : Provider) (action : string)
    (compartment_id pipeline_id display_name pipeline_run_id : option string)
    (limit : option Z) (t : list event) :
  let run := data_science_pipeline_runs sdk action compartment_id pipeline_id
               display_name pipeline_run_id limit t in
  let missing_parameter name :=
    ((t ++ [ELog "ERROR" "Error in data_science_pipeline_runs" []])%list,
     @Err (gmap string value)
       (ValueError ("Missing required parameter '" +:+ name
                    +:+ "' for action='" +:+ action +:+ "'."))) in
  (absent_or_blank (ostr compartment_id) →
   run = missing_parameter "compartment_id")
  ∧ (present compartment_id → absent_or_blank (ostr pipeline_id) →
     run = missing_parameter "pipeline_id").
Proof.
  intros run missing_parameter. subst run missing_parameter.
  unfold data_science_pipeline_runs. split.
  - intros Hc. apply run_logged_Err. by apply run_require_Err.
  - intros Hc Hp. apply run_logged_Err.
    rewrite run_require_Ok by done. by apply run_require_Err.
Qed.

(** C10 at an action that is not declared, with no compartment_id; and at
    "status" with a pipeline_run_id and a blank pipeline_id. *)
Lemma C10_pipeline_runs_validates_first_witness :
  data_science_pipeline_runs sdk_empty "bogus" None (Some "p") None None None []
  = ([ELog "ERROR" "Error in data_science_pipeline_runs" []],
     Err (ValueError "Missing required parameter 'compartment_id' for action='bogus'."))
  ∧ data_science_pipeline_runs sdk_empty "status" (Some "c") (Some " ") None
      (Some "r") None []
    = ([ELog "ERROR" "Error in data_science_pipeline_runs" []],
       Err (ValueError "Missing required parameter 'pipeline_id' for action='status'.")).
Proof.
  split.
  - apply (proj1 (C10_pipeline_runs_validates_first sdk_empty "bogus" None
                    (Some "p") None None None [])).
    by left.
  - apply (proj2 (C10_pipeline_runs_validates_first sdk_empty "status" (Some "c")
                    (Some " ") None (Some "r") None [])).
    + by apply present_Some.
    + right. by exists " ".
Defined.

(** ** Rules for [extends] *)

Lemma extends_lift {A} (r : result A) : extends (lift r).
Proof. intros t t' r' [= <- _]. exists []. by rewrite app_nil_r. Qed.

Lemma extends_ret {A} (a : A) : extends (mret a).
Proof. apply (extends_lift (Ok a)). Qed.

Lemma extends_raise {A} e : extends (@raise A e).
Proof. apply (extends_lift (Err e)). Qed.

Lemma extends_call sdk op args kwargs : extends (call sdk op args kwargs).
Proof. intros t t' r [= <- _]. by eexists. Qed.

Lemma extends_log level msg args : extends (log level msg args).
Proof. intros t t' r [= <- _]. by eexists. Qed.

Lemma extends_bind {A B} (m : M A) (k : A → M B) :
  extends m → (∀ a, extends (k a)) → extends (m ≫= k).
Proof.
  intros Hm Hk t t' r. unfold mbind, M_bind.
  destruct (m t) as [t1 [a|e]] eqn:E.
  - intros H. destruct (Hm _ _ _ E) as [r1 ->].
    destruct (Hk _ _ _ _ H) as [r2 ->]. exists (r1 ++ r2)%list.
    by rewrite app_assoc.
  - intros [= <- _]. by eapply Hm.
Qed.

Lemma extends_try_except {A} (m : M A) (h : exc → M A) :
  extends m → (∀ e, extends (h e)) → extends (try_except m h).
Proof.
  intros Hm Hh t t' r. unfold try_except.
  destruct (m t) as [t1 [a|e]] eqn:E.
  - intros [= <- _]. by eapply Hm.
  - intros H. destruct (Hm _ _ _ E) as [r1 ->].
    destruct (Hh _ _ _ _ H) as [r2 ->]. exists (r1 ++ r2)%list.
    by rewrite app_assoc.
Qed.

Lemma extends_str sdk v : extends (str sdk v).
Proof.
  assert (extends (r ← call sdk "__str__" [v] ∅;
                   match r with
                   | VStr s => mret (VStr s)
                   | _ => raise (TypeError "__str__ returned non-string")
                   end)) as H.
  { apply extends_bind; [apply extends_call|].
    intros []; first [apply extends_ret|apply extends_raise]. }
  destruct v; try exact H. apply extends_ret.
Qed.

Lemma run_logged_prefix {A} msg (m : M A) t pre :
  (∃ rest r, m t = ((pre ++ rest)%list, r)) →
  ∃ rest r, logged msg m t = ((pre ++ rest)%list, r).
Proof.
  intros (rest & [a|e] & H).
  - exists rest, (Ok a). by apply run_logged_Ok.
  - eexists _, (Err e). erewrite run_logged_Err by done. by rewrite <-app_assoc.
Qed.

Lemma run_call_prefix {B} sdk op args kwargs (k : value → M B) t :
  (∀ v, extends (k v)) →
  ∃ rest r, (call sdk op args kwargs ≫= k) t
            = (((t ++ [ECall op args kwargs]) ++ rest)%list, r).
Proof.
  intros Hk. destruct (sdk op args kwargs) as [v|e] eqn:E.
  - rewrite (run_call_Ok _ _ _ _ _ _ _ E).
    destruct (k v (t ++ [ECall op args kwargs])%list) as [t' r] eqn:Ek.
    destruct (Hk _ _ _ _ Ek) as [rest ->]. by exists rest, r.
  - rewrite (run_call_Err _ _ _ _ _ _ _ E). exists [], (Err e).
    by rewrite app_nil_r.
Qed.

Lemma snoc2 {A} (t : list A) a b : (t ++ [a; b] = (t ++ [a]) ++ [b])%list.
Proof. by rewrite <-app_assoc. Qed.

Lemma shape_config_of_details c p d sh bs sn pe o m :
  shape_config_of (notebook_details c p d sh bs sn pe (Some o) (Some m))
  = Ok (VObj "NotebookSessionShapeConfigDetails"
          {[ "ocpus" := VInt o; "memory_in_gbs" := VInt m ]}).
Proof.
  unfold shape_config_of, notebook_details. cbn [attr].
  rewrite !lookup_insert_ne by done. rewrite lookup_singleton_eq.
  cbn [mbind result_bind attr]. unfold cfg_kwargs, set_if at 1.
  cbn [oint from_option is_None negb andb]. by rewrite lookup_insert_eq.
Qed.

(** ** C9 *)

(** C9, as amended.  notebook_sessions, action "create", with
    compartment_id, project_id and display_name present.  The tool asks
    for the client before it validates.  (1) When the shape is one of the
    flexible shapes and ocpus or memory_in_gbs is absent: with the client
    obtained, the call raises the ValueError "For flexible shapes you must
    provide both ocpus and memory_in_gbs." and the log shows that no
    create request was sent: it has gained the request for the client and
    the record of the frame, nothing else.  When the request for the
    client raises, the call raises that exception, not the validation
    error; the log has gained the request for the client and at most the
    record of the frame.  (2) When both are given and the client is
    obtained, the create request is sent, and the details it carries hold
    a shape-config with exactly these ocpus and memory_in_gbs. *)
Theorem C9_flex_shape_pair (sdk : Provider)
    (compartment_id project_id notebook_session_id display_name : option string)
    (shape : string) (block_storage_size_in_gbs : Z)
    (subnet_id private_endpoint_id : option string)
    (ocpus memory_in_gbs : option Z) (t : list event) :
  present compartment_id → present project_id → present display_name →
  let run := data_science_notebook_sessions sdk "create" compartment_id
               project_id notebook_session_id display_name shape
               block_storage_size_in_gbs subnet_id private_endpoint_id
               ocpus memory_in_gbs t in
  (shape ∈ flex_shapes → ocpus = None ∨ memory_in_gbs = None →
   (∀ ds_client,
      sdk "get_data_science_client" [] ∅ = Ok ds_client →
      run = ((t ++ [ECall "get_data_science_client" [] ∅;
                    ELog "ERROR" "Error in data_science_notebook_sessions" []])%list,
             Err (ValueError
                    "For flexible shapes you must provide both ocpus and memory_in_gbs.")))
   ∧ (∀ e,
        sdk "get_data_science_client" [] ∅ = Err e →
        ∃ rest,
          run = ((t ++ ECall "get_data_science_client" [] ∅ :: rest)%list, Err e)
          ∧ (rest = []
             ∨ rest = [ELog "ERROR" "Error in data_science_notebook_sessions" []])))
  ∧ (∀ o m ds_client,
       ocpus = Some o → memory_in_gbs = Some m →
       sdk "get_data_science_client" [] ∅ = Ok ds_client →
       let details := notebook_details compartment_id project_id display_name
                        shape block_storage_size_in_gbs subnet_id
                        private_endpoint_id ocpus memory_in_gbs in
       (∃ rest r,
          run = ((t ++ [ECall "get_data_science_client" [] ∅;
                        ECall "DataScienceClient.create_notebook_session"
                          [ds_client; details] ∅] ++ rest)%list, r))
       ∧ shape_config_of details
         = Ok (VObj "NotebookSessionShapeConfigDetails"
                 {[ "ocpus" := VInt o; "memory_in_gbs" := VInt m ]})).
Proof.
  intros Hc Hp Hd run. subst run. unfold data_science_notebook_sessions. split.
  - intros Hflex Hnone. split.
    + intros ds Hclient. rewrite snoc2. apply run_logged_Err.
      rewrite (run_call_Ok _ _ _ _ _ _ _ Hclient). eqb_reduce.
      rewrite !run_require_Ok by done.
      rewrite bool_decide_eq_true_2 by done.
      by destruct Hnone as [-> | ->]; [destruct memory_in_gbs|destruct ocpus].
    + intros e Hclient.
      exists [ELog "ERROR" "Error in data_science_notebook_sessions" []].
      split; [|by right]. rewrite snoc2. apply run_logged_Err.
      by apply run_call_Err.
  - intros o m ds -> -> Hclient. split; [|apply shape_config_of_details].
    match goal with
    | |- ∃ rest r, logged ?msg ?body t = ((t ++ [?a; ?b] ++ rest)%list, r) =>
        cut (∃ rest r,
               logged msg body t = ((((t ++ [a]) ++ [b]) ++ rest)%list, r))
    end.
    { intros (rest & r & ->). exists rest, r. by rewrite <-!app_assoc. }
    apply run_logged_prefix.
    rewrite (run_call_Ok _ _ _ _ _ _ _ Hclient). eqb_reduce.
    rewrite !run_require_Ok by done. rewrite andb_false_r.
    apply run_call_prefix. intros resp.
    apply extends_bind; [apply extends_lift|intros data].
    apply extends_bind; [apply extends_str|intros time_created].
    apply extends_lift.
Qed.

(** C9, as amended, at the shape VM.Standard.E5.Flex: with ocpus 2 and no
    memory_in_gbs the call raises the validation error before any create
    request; with ocpus 2 and memory_in_gbs 16 the details carry both. *)
Lemma C9_flex_shape_pair_witness :
  data_science_notebook_sessions sdk_empty "create" (Some "c") (Some "p")
    None (Some "nb") "VM.Standard.E5.Flex" 50 None None (Some 2) None []
  = ([ECall "get_data_science_client" [] ∅;
      ELog "ERROR" "Error in data_science_notebook_sessions" []],
     Err (ValueError
            "For flexible shapes you must provide both ocpus and memory_in_gbs."))
  ∧ shape_config_of
      (notebook_details (Some "c") (Some "p") (Some "nb") "VM.Standard.E5.Flex"
         50 None None (Some 2) (Some 16))
    = Ok (VObj "NotebookSessionShapeConfigDetails"
            {[ "ocpus" := VInt 2; "memory_in_gbs" := VInt 16 ]}).
Proof.
  split.
  - refine (proj1 (proj1 (C9_flex_shape_pair sdk_empty (Some "c") (Some "p") None
                            (Some "nb") "VM.Standard.E5.Flex" 50 None None
                            (Some 2) None [] _ _ _) _ _)
              (VObj "Mock" ∅) _);
      first [by apply present_Some|by vm_compute|by right|reflexivity].
  - refine (proj2 (proj2 (C9_flex_shape_pair sdk_empty (Some "c") (Some "p") None
                     (Some "nb") "VM.Standard.E5.Flex" 50 None None (Some 2)
                     (Some 16) [] _ _ _) 2 16 (VObj "Mock" ∅) _ _ _));
      first [by apply present_Some|reflexivity].
Defined.

(** C9, as stated, fails when the client is not obtained: with the shape
    VM.Standard.E5.Flex, ocpus 2 and no memory_in_gbs, in an environment
    where [get_data_science_client] raises (as it does, with an
    UnboundLocalError, when there is no configuration file), the call
    raises that exception and not a validation error. *)
Lemma C9_counterexample :
  data_science_notebook_sessions sdk_no_client "create" (Some "c") (Some "p")
    None (Some "nb") "VM.Standard.E5.Flex" 50 None None (Some 2) None []
  = ([ECall "get_data_science_client" [] ∅;
      ELog "ERROR" "Error in data_science_notebook_sessions" []],
     Err (Exc "UnboundLocalError"
            "cannot access local variable 'config' where it is not associated with a value"))
  ∧ "VM.Standard.E5.Flex" ∈ flex_shapes
  ∧ ∀ msg,
      Exc "UnboundLocalError"
        "cannot access local variable 'config' where it is not associated with a value"
      ≠ ValueError msg.
Proof. split_and!; [by vm_compute|by vm_compute|done]. Qed.

(** ** C5 *)

(** Check a closed answer against its shape. *)
Ltac shape_solve :=
  vm_compute;
  repeat first [ reflexivity | eexists | split | constructor
               | intros ?; discriminate ].

Lemma sdk_canonical_canonical : canonical sdk_canonical.
Proof.
  intros op args kwargs. eexists. split; [reflexivity|].
  unfold reply_shape, reply_shapes. cbn [List.find fst snd].
  repeat lazymatch goal with
  | |- context [String.eqb ?a op] =>
      destruct (String.eqb_spec a op) as [<-|?]; [by shape_solve|]
  end.
  done.
Qed.

(** C5. Every tool, at every action it declares, called with arguments that
    pass the validation of that action, against a provider that answers
    every request: the call returns a payload; its "resource" is the tag of
    the tool, its "action" is the action requested, and it has a "result"
    (possibly None). *)
Theorem C5_success_payload_echoes (sdk : Provider) (c : tool_call)
    (t : list event) :
  canonical sdk → supported c → valid c →
  ∃ t' payload,
    invoke sdk c t = (t', Ok payload)
    ∧ payload !! "resource" = Some (VStr (resource_of c))
    ∧ payload !! "action" = Some (VStr (action_of c))
    ∧ is_Some (payload !! "result").
Proof.
  intros Hsdk Hs Hv.
  destruct (invoke_succeeds sdk Hsdk c Hs Hv t) as (t' & payload & E & _).
  exists t', payload. split; [done|]. by eapply invoke_echoes.
Qed.

(** C5 at the creation of a project. *)
Lemma C5_success_payload_echoes_witness :
  ∃ t' payload,
    invoke sdk_canonical
      (Projects "create" "c" None (Some "MyProj") (Some "desc") None None None) []
    = (t', Ok payload)
    ∧ payload !! "resource" = Some (VStr "projects")
    ∧ payload !! "action" = Some (VStr "create")
    ∧ is_Some (payload !! "result").
Proof.
  apply (C5_success_payload_echoes sdk_canonical
           (Projects "create" "c" None (Some "MyProj") (Some "desc") None None None)
           []).
  - apply sdk_canonical_canonical.
  - unfold supported. simpl. repeat constructor.
  - simpl. split_and!; [intros _; by apply present_Some|intros [=]..].
Defined.

(** Whatever the provider and the arguments, a payload that a tool returns
    echoes the tag of the tool and the action. *)
Lemma returned_payload_echoes sdk c t t' payload :
  invoke sdk c t = (t', Ok payload) →
  echoes (resource_of c) (action_of c) payload.
Proof. apply invoke_echoes. Qed.

(** ** C8 *)

(** The comparisons of an action that is not declared all fail. *)
Ltac not_declared Hns :=
  unfold supported in Hns; cbn [action_of actions_of] in Hns;
  unfold projects_actions, model_catalog_actions, jobs_actions,
    job_runs_actions, notebook_sessions_actions, pipelines_actions,
    pipeline_runs_actions, model_deployments_actions in Hns;
  repeat match goal with
  | |- context [String.eqb ?a ?lit] =>
      let H := fresh in
      assert (String.eqb a lit = false) as H
        by (apply String.eqb_neq; intros ->; apply Hns; repeat constructor);
      rewrite H; clear H
  end.

Lemma run_unsupported_after_call sdk msg op args kwargs action t
    (Q : Prop) :
  (Q → ∃ v, sdk op args kwargs = Ok v) →
  ∃ t' e,
    logged msg (call sdk op args kwargs ≫= λ _, unsupported action) t
    = (t', @Err (gmap string value) e)
    ∧ (Q → e = ValueError ("Unsupported action='" +:+ action +:+ "'")).
Proof.
  intros HQ. destruct (sdk op args kwargs) as [v|e] eqn:E.
  - eexists _, _. split; [|done].
    apply run_logged_Err. by rewrite (run_call_Ok _ _ _ _ _ _ _ E).
  - eexists _, e. split.
    + apply run_logged_Err. by apply run_call_Err.
    + intros [v Hv]%HQ. congruence.
Qed.

Lemma run_unsupported msg action t :
  ∃ t' e,
    logged msg (unsupported action) t = (t', @Err (gmap string value) e)
    ∧ (True → e = ValueError ("Unsupported action='" +:+ action +:+ "'")).
Proof. eexists _, _. split; [|done]. by apply run_logged_Err. Qed.

Lemma pipeline_runs_unsupported sdk action c pl d pr limit t :
  action ∉ pipeline_runs_actions →
  ∃ t' e,
    data_science_pipeline_runs sdk action c pl d pr limit t = (t', Err e)
    ∧ (reaches_dispatch sdk (PipelineRuns action c pl d pr limit) →
       e = ValueError ("Unsupported action='" +:+ action +:+ "'")).
Proof.
  intros Hns. unfold data_science_pipeline_runs, reaches_dispatch.
  not_declared Hns.
  destruct (missing (ostr c)) eqn:Hc.
  { apply missing_spec in Hc. eexists _, _. split.
    - apply run_logged_Err. by apply run_require_Err.
    - by intros [? _]. }
  apply missing_false in Hc.
  destruct (missing (ostr pl)) eqn:Hpl.
  { apply missing_spec in Hpl. eexists _, _. split.
    - apply run_logged_Err. rewrite run_require_Ok by done.
      by apply run_require_Err.
    - by intros (_ & ? & _). }
  apply missing_false in Hpl.
  destruct (sdk "get_data_science_client" [] ∅) as [ds|e] eqn:E.
  - eexists _, _. split; [|done]. apply run_logged_Err.
    rewrite !run_require_Ok by done.
    by rewrite (run_call_Ok _ _ _ _ _ _ _ E).
  - eexists _, e. split.
    + apply run_logged_Err. rewrite !run_require_Ok by done.
      by apply run_call_Err.
    + intros (_ & _ & [v Hv]). congruence.
Qed.

(** C8, as amended.  Each of the eight data-science tools, called with an
    action outside the set it declares, raises and returns no payload.  The
    error is the ValueError "Unsupported action='<action>'" when the steps
    the tool takes before it looks at the action go through: the catalog or
    the client is obtained and, for pipeline_runs, compartment_id and
    pipeline_id are present. *)
Theorem C8_unsupported_action_raises (sdk : Provider) (c : tool_call)
    (t : list event) :
  ¬ is_compartments c → ¬ supported c →
  ∃ t' e,
    invoke sdk c t = (t', Err e)
    ∧ (reaches_dispatch sdk c →
       e = ValueError ("Unsupported action='" +:+ action_of c +:+ "'")).
Proof.
  intros Hc Hns. destruct c; [by destruct Hc|..];
    try (apply pipeline_runs_unsupported; exact Hns);
    cbn [invoke action_of reaches_dispatch];
    unfold data_science_projects, data_science_model_catalog, data_science_jobs,
      data_science_job_runs, data_science_notebook_sessions,
      data_science_pipelines, data_science_model_deployments;
    not_declared Hns;
    first [ apply run_unsupported | by apply run_unsupported_after_call ].
Qed.

(** ** C3 *)

Lemma run_bind_Ok {A B} (m : M A) (k : A → M B) t t1 a :
  m t = (t1, Ok a) → (m ≫= k) t = k a t1.
Proof. intros H. unfold mbind, M_bind. by rewrite H. Qed.

Lemma run_try_except_Ok {A} (m : M A) h t t' a :
  m t = (t', Ok a) → try_except m h t = (t', Ok a).
Proof. intros H. unfold try_except. by rewrite H. Qed.

Lemma slice_to_take {A} (xs : list A) n :
  0 ≤ n → slice_to xs n = take (Z.to_nat n) xs.
Proof. intros H. unfold slice_to. by destruct (Z.ltb_spec n 0); [lia|]. Qed.

Lemma mapM_result_Forall2 {A B} (f : A → result B) xs ys :
  mapM f xs = Ok ys → Forall2 (λ x y, f x = Ok y) xs ys.
Proof.
  revert ys. induction xs as [|x xs IH]; intros ys.
  - intros [= <-]. constructor.
  - rewrite mapM_cons. destruct (f x) as [y|] eqn:E; [|done]. simpl.
    destruct (mapM f xs) as [ys'|]; [|done]. intros [= <-].
    constructor; [done|by apply IH].
Qed.

Lemma mapM_M_Forall2 {A B} (f : A → M B) xs ys t t' :
  mapM f xs t = (t', Ok ys) →
  Forall2 (λ x y, ∃ t1 t2, f x t1 = (t2, Ok y)) xs ys.
Proof.
  revert ys t t'. induction xs as [|x xs IH]; intros ys t t'.
  - intros [= _ <-]. constructor.
  - rewrite mapM_cons. unfold mbind at 1, M_bind at 1.
    destruct (f x t) as [t1 [y|]] eqn:E; [|done].
    unfold mbind at 1, M_bind at 1.
    destruct (mapM f xs t1) as [t2 [ys'|]] eqn:E'; [|done].
    intros [= _ <-]. constructor; [by eexists _, _|by eapply IH].
Qed.

Lemma first_rows {A B} (R : A → B → Prop) items rows n :
  Forall2 R items rows → 0 ≤ n < Z.of_nat (length items) →
  length (truncate (Some n) rows) = Z.to_nat n
  ∧ Forall2 R (take (Z.to_nat n) items) (truncate (Some n) rows).
Proof.
  intros HR Hn. unfold truncate. rewrite slice_to_take by lia.
  split; [|by apply Forall2_take].
  rewrite length_take. apply Forall2_length in HR. lia.
Qed.

Lemma run_ok_result resource action res extra t :
  no_collision extra →
  ∃ payload, lift (_ok resource action res extra) t = (t, Ok payload)
             ∧ payload !! "result" = Some res.
Proof.
  intros H. eexists. split; [by apply run_ok|].
  by apply _ok_body_fixed.
Qed.

(** The end of a listing that cuts its rows at the limit. *)
Lemma run_truncated {A} (R : A → value → Prop) resource action extra
    items rows n t :
  no_collision extra → Forall2 R items rows →
  0 ≤ n < Z.of_nat (length items) →
  ∃ t' payload rows',
    lift (_ok resource action (VList (truncate (Some n) rows)) extra) t
    = (t', Ok payload)
    ∧ payload !! "result" = Some (VList rows')
    ∧ length rows' = Z.to_nat n
    ∧ Forall2 R (take (Z.to_nat n) items) rows'.
Proof.
  intros Hx HR Hn.
  destruct (run_ok_result resource action (VList (truncate (Some n) rows))
              extra t Hx) as (p & Hp & Hres).
  destruct (first_rows R items rows n HR Hn) as [Hlen Hrows].
  by exists t, p, (truncate (Some n) rows).
Qed.

(** What a canonical provider answered has the shape of the request. *)
Lemma canonical_shape sdk op args kwargs v :
  canonical sdk → sdk op args kwargs = Ok v → reply_shape op v.
Proof.
  intros Hsdk Hv. destruct (Hsdk op args kwargs) as (v' & Hv' & Hs).
  congruence.
Qed.

Lemma data_of_items Q resp items :
  data_of (list_of Q) resp → attr resp "data" = Ok (VList items) →
  Forall Q items.
Proof.
  intros (cls & attrs & d & -> & Hd & (xs & -> & HQ)). simpl. rewrite Hd.
  by intros [= <-].
Qed.

Lemma rows_of_items (row : value → result value) (P : value → Prop) items :
  (∀ x, P x → ∃ y, row x = Ok y) → Forall P items →
  ∃ rows, mapM row items = Ok rows ∧ Forall2 (λ x r, row x = Ok r) items rows.
Proof.
  intros Hrow HP. destruct (mapM_Ok row P items Hrow HP) as [rows Hrows].
  exists rows. split; [done|]. by apply mapM_result_Forall2.
Qed.

Section Listings.

Variable sdk : Provider.
Hypothesis Hsdk : canonical sdk.
Variables (n : Z) (items : list value).
Hypothesis Hn : 0 ≤ n < Z.of_nat (length items).

Lemma projects_list_first c pid pn pd nn nd pc :
  sdk "ProjectCatalog" [] {[ "compartment_id" := VStr c ]} = Ok pc →
  sdk "ProjectCatalog.list_projects" [pc] ∅ = Ok (VList items) →
  lists_first sdk (Projects "list" c pid pn pd nn nd (Some n)) n items
    (λ x r, project_row x = Ok r).
Proof.
  intros Hpc Hlist t. cbn [invoke]. unfold data_science_projects.
  pose proof (canonical_shape _ _ _ _ _ Hsdk Hlist) as (xs & [= <-] & Hitems).
  destruct (rows_of_items _ _ _ project_row_Ok Hitems) as (rows & Hrows & HR).
  destruct (run_truncated (λ x r, project_row x = Ok r) "projects" "list"
              {[ "compartment_id" := VStr c ]} items rows n
              (t ++ [ECall "ProjectCatalog" [] {[ "compartment_id" := VStr c ]}]
                 ++ [ECall "ProjectCatalog.list_projects" [pc] ∅])%list)
    as (t' & p & rows' & Hrun & Hres); [by apply no_collision_singleton|done..|].
  exists t', p, rows'. split; [|done]. apply run_logged_Ok.
  rewrite (run_call_Ok _ _ _ _ _ _ _ Hpc). eqb_reduce.
  rewrite (run_call_Ok _ _ _ _ _ _ _ Hlist).
  rewrite (run_lift_Ok (iter _) items) by done.
  rewrite (run_lift_Ok _ _ _ _ Hrows). by rewrite <-app_assoc.
Qed.

Lemma version_sets_list_first c pid mid td vs ds_client resp :
  sdk "get_data_science_client" [] ∅ = Ok ds_client →
  sdk "DataScienceClient.list_model_version_sets" [ds_client]
      {[ "compartment_id" := VStr c ]} = Ok resp →
  attr resp "data" = Ok (VList items) →
  lists_first sdk (ModelCatalog "list_version_sets" c pid mid td vs (Some n))
    n items (λ x r, version_set_row x = Ok r).
Proof.
  intros Hclient Hlist Hdata t. cbn [invoke].
  unfold data_science_model_catalog.
  pose proof (data_of_items _ _ _ (canonical_shape _ _ _ _ _ Hsdk Hlist) Hdata)
    as Hitems.
  destruct (rows_of_items _ _ _ version_set_row_Ok Hitems) as (rows & Hrows & HR).
  destruct (run_truncated (λ x r, version_set_row x = Ok r) "model_catalog"
              "list_version_sets" {[ "compartment_id" := VStr c ]} items rows n
              (t ++ [ECall "get_data_science_client" [] ∅]
                 ++ [ECall "DataScienceClient.list_model_version_sets"
                       [ds_client] {[ "compartment_id" := VStr c ]}])%list)
    as (t' & p & rows' & Hrun & Hres); [by apply no_collision_singleton|done..|].
  exists t', p, rows'. split; [|done]. apply run_logged_Ok. eqb_reduce.
  rewrite (run_call_Ok _ _ _ _ _ _ _ Hclient).
  rewrite (run_call_Ok _ _ _ _ _ _ _ Hlist).
  rewrite (run_lift_Ok _ _ _ _ Hdata).
  rewrite (run_lift_Ok (iter _) items) by done.
  rewrite (run_lift_Ok _ _ _ _ Hrows). by rewrite <-app_assoc.
Qed.

Lemma pipelines_list_first c pl ds_client resp :
  present c →
  sdk "get_data_science_client" [] ∅ = Ok ds_client →
  sdk "DataScienceClient.list_pipelines" [ds_client]
      {[ "compartment_id" := ostr c ]} = Ok resp →
  attr resp "data" = Ok (VList items) →
  lists_first sdk (Pipelines "list" c pl (Some n)) n items
    (λ x r, pipeline_row x = Ok r).
Proof.
  intros Hc Hclient Hlist Hdata t. cbn [invoke]. unfold data_science_pipelines.
  pose proof (data_of_items _ _ _ (canonical_shape _ _ _ _ _ Hsdk Hlist) Hdata)
    as Hitems.
  destruct (rows_of_items _ _ _ pipeline_row_Ok Hitems) as (rows & Hrows & HR).
  destruct (run_truncated (λ x r, pipeline_row x = Ok r) "pipelines" "list"
              {[ "compartment_id" := ostr c ]} items rows n
              (t ++ [ECall "get_data_science_client" [] ∅]
                 ++ [ECall "DataScienceClient.list_pipelines" [ds_client]
                       {[ "compartment_id" := ostr c ]}])%list)
    as (t' & p & rows' & Hrun & Hres); [by apply no_collision_singleton|done..|].
  exists t', p, rows'. split; [|done]. apply run_logged_Ok.
  rewrite (run_call_Ok _ _ _ _ _ _ _ Hclient). eqb_reduce.
  rewrite run_require_Ok by done.
  rewrite (run_call_Ok _ _ _ _ _ _ _ Hlist).
  rewrite (run_lift_Ok _ _ _ _ Hdata).
  rewrite (run_lift_Ok (iter _) items) by done.
  rewrite (run_lift_Ok _ _ _ _ Hrows). by rewrite <-app_assoc.
Qed.

Lemma model_deployments_list_first c p m d dep sn lg al pl sh oc mem
    ds_client resp :
  present c →
  sdk "get_data_science_client" [] ∅ = Ok ds_client →
  sdk "DataScienceClient.list_model_deployments" [ds_client]
      {[ "compartment_id" := ostr c ]} = Ok resp →
  attr resp "data" = Ok (VList items) →
  lists_first sdk
    (ModelDeployments "list" c p m d dep sn lg al pl sh oc mem (Some n))
    n items (λ x r, deployment_row x = Ok r).
Proof.
  intros Hc Hclient Hlist Hdata t. cbn [invoke].
  unfold data_science_model_deployments.
  pose proof (data_of_items _ _ _ (canonical_shape _ _ _ _ _ Hsdk Hlist) Hdata)
    as Hitems.
  destruct (rows_of_items _ _ _ deployment_row_Ok Hitems) as (rows & Hrows & HR).
  destruct (run_truncated (λ x r, deployment_row x = Ok r) "model_deployments"
              "list" {[ "compartment_id" := ostr c ]} items rows n
              (t ++ [ECall "get_data_science_client" [] ∅]
                 ++ [ECall "DataScienceClient.list_model_deployments" [ds_client]
                       {[ "compartment_id" := ostr c ]}])%list)
    as (t' & p' & rows' & Hrun & Hres); [by apply no_collision_singleton|done..|].
  exists t', p', rows'. split; [|done]. apply run_logged_Ok.
  rewrite (run_call_Ok _ _ _ _ _ _ _ Hclient). eqb_reduce.
  rewrite run_require_Ok by done.
  rewrite (run_call_Ok _ _ _ _ _ _ _ Hlist).
  rewrite (run_lift_Ok _ _ _ _ Hdata).
  rewrite (run_lift_Ok (iter _) items) by done.
  rewrite (run_lift_Ok _ _ _ _ Hrows). by rewrite <-app_assoc.
Qed.

Lemma models_list_first c pid mid td vs mc :
  sdk "ModelCatalog" [] {[ "compartment_id" := VStr c ]} = Ok mc →
  sdk "ModelCatalog.list_models" [mc]
      (if truthy (ostr pid) then {[ "project_id" := ostr pid ]} else ∅)
  = Ok (VList items) →
  lists_first sdk (ModelCatalog "list_models" c pid mid td vs (Some n)) n items
    (λ m r, ∃ t1 t2, model_row sdk m t1 = (t2, Ok r)).
Proof.
  intros Hmc Hlist t. cbn [invoke]. unfold data_science_model_catalog.
  set (kwargs := if truthy (ostr pid) then {[ "project_id" := ostr pid ]} else ∅)
    in Hlist.
  set (t2 := ((t ++ [ECall "ModelCatalog" [] {[ "compartment_id" := VStr c ]}])
                ++ [ECall "ModelCatalog.list_models" [mc] kwargs])%list).
  destruct (succeeds_mapM (model_row sdk) items
              (succeeds_model_row sdk Hsdk) t2) as (t3 & rows & Hrows & _).
  pose proof (mapM_M_Forall2 _ _ _ _ _ Hrows) as HR.
  destruct (run_truncated (λ m r, ∃ t1 t2, model_row sdk m t1 = (t2, Ok r))
              "model_catalog" "list_models" {[ "compartment_id" := VStr c ]}
              items rows n t3)
    as (t' & p & rows' & Hrun & Hres); [by apply no_collision_singleton|done..|].
  exists t', p, rows'. split; [|done]. apply run_logged_Ok. eqb_reduce.
  rewrite (run_call_Ok _ _ _ _ _ _ _ Hmc).
  rewrite (run_bind_Ok _ _ _ t2 (VList items)).
  - rewrite (run_lift_Ok (iter _) items) by done.
    by rewrite (run_bind_Ok _ _ _ _ _ Hrows).
  - subst t2 kwargs. destruct (truthy (ostr pid)).
    + apply run_try_except_Ok. unfold call. by rewrite Hlist.
    + unfold call. by rewrite Hlist.
Qed.

Lemma to_dict_rows t :
  ∃ t' rows,
    mapM (to_dict sdk) items t = (t', Ok rows)
    ∧ length rows = length items
    ∧ Forall2 (λ x r, sdk "oci.util.to_dict" [x] ∅ = Ok r) items rows.
Proof.
  destruct (succeeds_mapM (to_dict sdk) items (succeeds_to_dict sdk Hsdk) t)
    as (t' & rows & Hrows & _).
  pose proof (mapM_M_Forall2 _ _ _ _ _ Hrows) as HR.
  exists t', rows. split_and!; [done|by apply Forall2_length in HR|].
  eapply Forall2_impl; [exact HR|].
  intros x r (t1 & t2 & E). unfold to_dict, call in E. by injection E.
Qed.

Lemma job_runs_list_all c p j d jr ds_client resp :
  present c →
  sdk "get_data_science_client" [] ∅ = Ok ds_client →
  sdk "DataScienceClient.list_job_runs" [ds_client]
      (job_runs_list_kwargs c j (Some n)) = Ok resp →
  attr resp "data" = Ok (VList items) →
  lists_all sdk (JobRuns "list" c p j d jr (Some n)) items
    (λ x r, sdk "oci.util.to_dict" [x] ∅ = Ok r).
Proof.
  intros Hc Hclient Hlist Hdata t. cbn [invoke]. unfold data_science_job_runs.
  unfold job_runs_list_kwargs in Hlist.
  destruct (to_dict_rows
              ((t ++ [ECall "get_data_science_client" [] ∅])
                 ++ [ECall "DataScienceClient.list_job_runs" [ds_client]
                       (job_runs_list_kwargs c j (Some n))])%list)
    as (t' & rows & Hrows & Hlen & HR).
  destruct (run_ok_result "job_runs" "list" (VList rows) ∅ t' no_collision_empty)
    as (payload & Hp & Hres).
  exists t', payload, rows. split_and!; [|done..]. apply run_logged_Ok.
  rewrite (run_call_Ok _ _ _ _ _ _ _ Hclient). eqb_reduce.
  rewrite run_require_Ok by done. cbv zeta.
  rewrite (run_call_Ok _ _ _ _ _ _ _ Hlist).
  rewrite (run_lift_Ok _ _ _ _ Hdata).
  rewrite (run_lift_Ok (iter _) items) by done.
  by rewrite (run_bind_Ok _ _ _ _ _ Hrows).
Qed.

Lemma pipeline_runs_list_all c pl d pr ds_client resp :
  present c → present pl →
  sdk "get_data_science_client" [] ∅ = Ok ds_client →
  sdk "DataScienceClient.list_pipeline_runs" [ds_client]
      (pipeline_runs_list_kwargs c pl (Some n)) = Ok resp →
  attr resp "data" = Ok (VList items) →
  lists_all sdk (PipelineRuns "list" c pl d pr (Some n)) items
    (λ x r, sdk "oci.util.to_dict" [x] ∅ = Ok r).
Proof.
  intros Hc Hpl Hclient Hlist Hdata t. cbn [invoke].
  unfold data_science_pipeline_runs.
  unfold pipeline_runs_list_kwargs in Hlist.
  destruct (to_dict_rows
              ((t ++ [ECall "get_data_science_client" [] ∅])
                 ++ [ECall "DataScienceClient.list_pipeline_runs" [ds_client]
                       (pipeline_runs_list_kwargs c pl (Some n))])%list)
    as (t' & rows & Hrows & Hlen & HR).
  destruct (run_ok_result "pipeline_runs" "list" (VList rows) ∅ t'
              no_collision_empty) as (payload & Hp & Hres).
  exists t', payload, rows. split_and!; [|done..]. apply run_logged_Ok.
  rewrite !run_require_Ok by done.
  rewrite (run_call_Ok _ _ _ _ _ _ _ Hclient). eqb_reduce. cbv zeta.
  rewrite (run_call_Ok _ _ _ _ _ _ _ Hlist).
  rewrite (run_lift_Ok _ _ _ _ Hdata).
  rewrite (run_lift_Ok (iter _) items) by done.
  by rewrite (run_bind_Ok _ _ _ _ _ Hrows).
Qed.

End Listings.

(** C3, as amended.  Against a provider that answers every request, when
    the listing request is answered with N items and 0 <= limit < N:
    projects "list", model_catalog "list_models" and "list_version_sets",
    pipelines "list" and model_deployments "list" send the request without
    the limit and cut the rows afterwards; the result has exactly limit
    rows, the rows of the first limit items in the order of the provider.
    job_runs "list" and pipeline_runs "list" hand the limit to the provider
    as the keyword argument "limit" and do not cut: the result has a row
    for every item of the answer, in its order. *)
Theorem C3_listing_limit (sdk : Provider) (n : Z) (items : list value) :
  canonical sdk → 0 ≤ n < Z.of_nat (length items) →
  (∀ c pid pn pd nn nd pc,
     sdk "ProjectCatalog" [] {[ "compartment_id" := VStr c ]} = Ok pc →
     sdk "ProjectCatalog.list_projects" [pc] ∅ = Ok (VList items) →
     lists_first sdk (Projects "list" c pid pn pd nn nd (Some n)) n items
       (λ x r, project_row x = Ok r))
  ∧ (∀ c pid mid td vs mc,
       sdk "ModelCatalog" [] {[ "compartment_id" := VStr c ]} = Ok mc →
       sdk "ModelCatalog.list_models" [mc]
           (if truthy (ostr pid) then {[ "project_id" := ostr pid ]} else ∅)
       = Ok (VList items) →
       lists_first sdk (ModelCatalog "list_models" c pid mid td vs (Some n))
         n items (λ m r, ∃ t1 t2, model_row sdk m t1 = (t2, Ok r)))
  ∧ (∀ c pid mid td vs ds_client resp,
       sdk "get_data_science_client" [] ∅ = Ok ds_client →
       sdk "DataScienceClient.list_model_version_sets" [ds_client]
           {[ "compartment_id" := VStr c ]} = Ok resp →
       attr resp "data" = Ok (VList items) →
       lists_first sdk
         (ModelCatalog "list_version_sets" c pid mid td vs (Some n))
         n items (λ x r, version_set_row x = Ok r))
  ∧ (∀ c pl ds_client resp,
       present c →
       sdk "get_data_science_client" [] ∅ = Ok ds_client →
       sdk "DataScienceClient.list_pipelines" [ds_client]
           {[ "compartment_id" := ostr c ]} = Ok resp →
       attr resp "data" = Ok (VList items) →
       lists_first sdk (Pipelines "list" c pl (Some n)) n items
         (λ x r, pipeline_row x = Ok r))
  ∧ (∀ c p m d dep sn lg al pl sh oc mem ds_client resp,
       present c →
       sdk "get_data_science_client" [] ∅ = Ok ds_client →
       sdk "DataScienceClient.list_model_deployments" [ds_client]
           {[ "compartment_id" := ostr c ]} = Ok resp →
       attr resp "data" = Ok (VList items) →
       lists_first sdk
         (ModelDeployments "list" c p m d dep sn lg al pl sh oc mem (Some n))
         n items (λ x r, deployment_row x = Ok r))
  ∧ (∀ c p j d jr ds_client resp,
       present c →
       sdk "get_data_science_client" [] ∅ = Ok ds_client →
       sdk "DataScienceClient.list_job_runs" [ds_client]
           (job_runs_list_kwargs c j (Some n)) = Ok resp →
       attr resp "data" = Ok (VList items) →
       job_runs_list_kwargs c j (Some n) !! "limit" = Some (VInt n)
       ∧ lists_all sdk (JobRuns "list" c p j d jr (Some n)) items
           (λ x r, sdk "oci.util.to_dict" [x] ∅ = Ok r))
  ∧ (∀ c pl d pr ds_client resp,
       present c → present pl →
       sdk "get_data_science_client" [] ∅ = Ok ds_client →
       sdk "DataScienceClient.list_pipeline_runs" [ds_client]
           (pipeline_runs_list_kwargs c pl (Some n)) = Ok resp →
       attr resp "data" = Ok (VList items) →
       pipeline_runs_list_kwargs c pl (Some n) !! "limit" = Some (VInt n)
       ∧ lists_all sdk (PipelineRuns "list" c pl d pr (Some n)) items
           (λ x r, sdk "oci.util.to_dict" [x] ∅ = Ok r)).
Proof.
  intros Hsdk Hn. split_and!; intros.
  - by eapply projects_list_first.
  - by eapply models_list_first.
  - by eapply version_sets_list_first.
  - by eapply pipelines_list_first.
  - by eapply model_deployments_list_first.
  - split; [apply lookup_insert_eq|by eapply job_runs_list_all].
  - split; [apply lookup_insert_eq|by eapply pipeline_runs_list_all].
Qed.

(** C3, as amended, at pipelines "list" with limit 2 and a provider that
    answers three pipelines. *)
Lemma C3_listing_limit_witness :
  lists_first sdk_canonical (Pipelines "list" (Some "c") None (Some 2)) 2
    three_entities (λ x r, pipeline_row x = Ok r).
Proof.
  destruct (C3_listing_limit sdk_canonical 2 three_entities
              sdk_canonical_canonical ltac:(by vm_compute))
    as (_ & _ & _ & H & _).
  apply (H (Some "c") None entity (response (VList three_entities)));
    first [by apply present_Some|reflexivity].
Defined.

(** C3, as stated, fails for job_runs "list" (and pipeline_runs "list"):
    with limit 2 and a provider that answers three runs, the result has
    three entries. *)
Lemma C3_counterexample :
  (∃ t' payload rows,
     invoke sdk_canonical
       (JobRuns "list" (Some "c") None (Some "j") None None (Some 2)) []
     = (t', Ok payload)
     ∧ payload !! "result" = Some (VList rows) ∧ length rows = 3%nat)
  ∧ (∃ t' payload rows,
       invoke sdk_canonical
         (PipelineRuns "list" (Some "c") (Some "p") None None (Some 2)) []
       = (t', Ok payload)
       ∧ payload !! "result" = Some (VList rows) ∧ length rows = 3%nat).
Proof. split; by eexists _, _, _; vm_compute. Qed.

(** C8, as amended, at projects with the action "bogus". *)
Lemma C8_unsupported_action_raises_witness :
  ∃ t', invoke sdk_canonical
          (Projects "bogus" "c" None None None None None None) []
        = (t', Err (ValueError "Unsupported action='bogus'")).
Proof.
  destruct (C8_unsupported_action_raises sdk_canonical
              (Projects "bogus" "c" None None None None None None) [])
    as (t' & e & Hrun & He).
  - intros [].
  - unfold supported. simpl. unfold projects_actions.
    rewrite !elem_of_cons, elem_of_nil. by intros [|[|[|[|[|]]]]].
  - exists t'. rewrite Hrun. f_equal. f_equal. apply He. by eexists.
Defined.

(** C8, as stated, fails for the compartments tool, which does not look at
    its action: called with "bogus" it returns a payload with a result.  It
    fails for pipeline_runs as well when compartment_id is missing: the
    error is then the one of the missing parameter. *)
Lemma C8_counterexample :
  (∃ t' payload,
     invoke sdk_canonical (Compartments "bogus") [] = (t', Ok payload)
     ∧ payload !! "action" = Some (VStr "bogus")
     ∧ is_Some (payload !! "result"))
  ∧ invoke sdk_canonical (PipelineRuns "bogus" None (Some "p") None None None) []
    = ([ELog "ERROR" "Error in data_science_pipeline_runs" []],
       Err (ValueError
              "Missing required parameter 'compartment_id' for action='bogus'.")).
Proof.
  split; [|by vm_compute].
  eexists _, _. split_and!; [by vm_compute|by vm_compute|].
  eexists. by vm_compute.
Qed.

(** ** C1 *)

(** When the download of the artifact raises, the handler around it logs
    and falls through: the tool goes on to list the target directory and
    returns a success payload. *)
Lemma download_failure_is_swallowed sdk c pid mid td vs limit e files t :
  present mid → present td →
  (∀ model,
     sdk "GenericModel.from_id" [ostr mid] ∅ = Ok model →
     sdk "GenericModel.download_artifact" [model]
         {[ "artifact_dir" := ostr td; "force_overwrite" := VBool true;
            "remove_existing_artifact" := VBool true ]} = Err e) →
  sdk "_list_files_recursive" [ostr td] ∅ = Ok (VList files) →
  ∃ t' payload,
    data_science_model_catalog sdk "download" c pid mid td vs limit t
    = (t', Ok payload)
    ∧ payload !! "result"
      = Some (VDict {[ "artifact_dir" := ostr td;
                       "downloaded_files" := VList files;
                       "downloaded_files_count" := VInt (Z.of_nat (length files)) ]}).
Proof.
  intros Hmid Htd Hdl Hfiles. unfold data_science_model_catalog. eqb_reduce.
  assert (∃ t1, try_download sdk mid td t = (t1, Ok ())) as [t1 Ht1].
  { unfold try_download, try_except.
    destruct (sdk "GenericModel.from_id" [ostr mid] ∅) as [model|e0] eqn:Hm.
    - rewrite (run_call_Ok _ _ _ _ _ _ _ Hm).
      rewrite (run_call_Err _ _ _ _ e _ _ (Hdl model eq_refl)). by eexists.
    - rewrite (run_call_Err _ _ _ _ _ _ _ Hm). by eexists. }
  destruct (run_ok_result "model_catalog" "download"
              (VDict {[ "artifact_dir" := ostr td;
                        "downloaded_files" := VList files;
                        "downloaded_files_count" := VInt (Z.of_nat (length files)) ]})
              {[ "compartment_id" := VStr c ]}
              (if negb (truthy (VList files))
               then ((t1 ++ [ECall "_list_files_recursive" [ostr td] ∅])
                       ++ [ELog "WARNING"
                             "Model download completed but no files were found in target_dir=%s (model_id=%s). "
                             [ostr td; ostr mid]])%list
               else (t1 ++ [ECall "_list_files_recursive" [ostr td] ∅])%list))
    as (payload & Hp & Hres); [by apply no_collision_singleton|].
  eexists _, payload. split; [|exact Hres]. apply run_logged_Ok.
  rewrite !run_require_Ok by done.
  rewrite (run_bind_Ok _ _ _ _ _ Ht1).
  unfold _list_files_recursive. rewrite (run_call_Ok _ _ _ _ _ _ _ Hfiles).
  rewrite <-Hp. by destruct files.
Qed.

(** C1 at its failing input: model_catalog "download" with a provider
    whose download_artifact raises RuntimeError("boom").  The tool does not
    raise; it logs the failure and a warning and returns the success
    payload of an empty download. *)
Theorem C1_download_failure_returns_success :
  data_science_model_catalog sdk_download_fails "download" "c" None (Some "m1")
    (Some "/tmp/out") None None []
  = ([ECall "GenericModel.from_id" [VStr "m1"] ∅;
      ECall "GenericModel.download_artifact" [VObj "Mock" ∅]
        {[ "artifact_dir" := VStr "/tmp/out"; "force_overwrite" := VBool true;
           "remove_existing_artifact" := VBool true ]};
      ELog "ERROR" "Download failed but failed" [];
      ECall "_list_files_recursive" [VStr "/tmp/out"] ∅;
      ELog "WARNING"
        "Model download completed but no files were found in target_dir=%s (model_id=%s). "
        [VStr "/tmp/out"; VStr "m1"]],
     Ok {[ "resource" := VStr "model_catalog"; "action" := VStr "download";
           "result" := VDict {[ "artifact_dir" := VStr "/tmp/out";
                                "downloaded_files" := VList [];
                                "downloaded_files_count" := VInt 0 ]};
           "compartment_id" := VStr "c" ]}).
Proof. by vm_compute. Qed.

(** * Further properties *)

(** ** Latest or explicit run *)

(** X1. pipeline_runs "status" without a pipeline_run_id, compartment_id
    and pipeline_id present: when the data of the listing the provider
    answers is empty (or falsy), the tool returns the payload with result
    None and the message "No pipeline runs found."; it sent the request for
    the client and the listing sorted by timeAccepted, descending, limit 1,
    and nothing else. *)
Theorem X1_pipeline_runs_status_no_runs (sdk : Provider)
    (compartment_id pipeline_id display_name pipeline_run_id : option string)
    (limit : option Z) (ds_client resp data : value) (t : list event) :
  truthy (ostr pipeline_run_id) = false →
  present compartment_id → present pipeline_id →
  sdk "get_data_science_client" [] ∅ = Ok ds_client →
  sdk "DataScienceClient.list_pipeline_runs" [ds_client]
      (latest_pipeline_run_kwargs compartment_id pipeline_id) = Ok resp →
  attr resp "data" = Ok data → truthy data = false →
  data_science_pipeline_runs sdk "status" compartment_id pipeline_id
    display_name pipeline_run_id limit t
  = ((t ++ [ECall "get_data_science_client" [] ∅;
            ECall "DataScienceClient.list_pipeline_runs" [ds_client]
              (latest_pipeline_run_kwargs compartment_id pipeline_id)])%list,
     Ok {[ "resource" := VStr "pipeline_runs"; "action" := VStr "status";
           "result" := VNone; "message" := VStr "No pipeline runs found." ]}).
Proof.
  intros Hpr Hc Hpl Hclient Hlist Hdata Hfalsy.
  unfold data_science_pipeline_runs. apply run_logged_Ok.
  rewrite !run_require_Ok by done.
  rewrite (run_call_Ok _ _ _ _ _ _ _ Hclient). eqb_reduce. rewrite Hpr.
  unfold latest_pipeline_run_kwargs in Hlist.
  rewrite (run_call_Ok _ _ _ _ _ _ _ Hlist).
  rewrite (run_lift_Ok _ _ _ _ Hdata). rewrite Hfalsy. cbn [negb].
  rewrite run_ok by (by apply no_collision_singleton).
  by rewrite <-app_assoc.
Qed.

Lemma X1_pipeline_runs_status_no_runs_witness :
  data_science_pipeline_runs sdk_blank "status" (Some "c") (Some "pl1") None
    None None []
  = ([ECall "get_data_science_client" [] ∅;
      ECall "DataScienceClient.list_pipeline_runs" [response (VList [])]
        (latest_pipeline_run_kwargs (Some "c") (Some "pl1"))],
     Ok {[ "resource" := VStr "pipeline_runs"; "action" := VStr "status";
           "result" := VNone; "message" := VStr "No pipeline runs found." ]}).
Proof.
  apply (X1_pipeline_runs_status_no_runs sdk_blank (Some "c") (Some "pl1")
           None None None (response (VList [])) (response (VList []))
           (VList []) []); try reflexivity; by apply present_Some.
Defined.

(** X2. job_runs "status" and "cancel" without a job_run_id act on the
    first run of the listing the provider answers for the job (sorted by
    timeCreated, descending, limit 1) and on no other: "status" returns
    the dict of that run; "cancel" sends exactly one cancel request, for
    the id of that run, and returns it with cancel_requested true. *)
Theorem X2_job_runs_latest (sdk : Provider)
    (compartment_id project_id job_id display_name job_run_id : option string)
    (limit : option Z) (ds_client resp latest : value) (others : list value)
    (t : list event) :
  truthy (ostr job_run_id) = false →
  present compartment_id → present job_id →
  sdk "get_data_science_client" [] ∅ = Ok ds_client →
  sdk "DataScienceClient.list_job_runs" [ds_client]
      (latest_job_run_kwargs compartment_id job_id) = Ok resp →
  attr resp "data" = Ok (VList (latest :: others)) →
  let sent := [ECall "get_data_science_client" [] ∅;
               ECall "DataScienceClient.list_job_runs" [ds_client]
                 (latest_job_run_kwargs compartment_id job_id)] in
  (∀ d, sdk "oci.util.to_dict" [latest] ∅ = Ok d →
        data_science_job_runs sdk "status" compartment_id project_id job_id
          display_name job_run_id limit t
        = ((t ++ sent ++ [ECall "oci.util.to_dict" [latest] ∅])%list,
           Ok {[ "resource" := VStr "job_runs"; "action" := VStr "status";
                 "result" := d ]}))
  ∧ (∀ id answer,
       attr latest "id" = Ok id →
       sdk "DataScienceClient.cancel_job_run" [ds_client]
           {[ "job_run_id" := id ]} = Ok answer →
       data_science_job_runs sdk "cancel" compartment_id project_id job_id
         display_name job_run_id limit t
       = ((t ++ sent ++ [ECall "DataScienceClient.cancel_job_run" [ds_client]
                           {[ "job_run_id" := id ]}])%list,
          Ok {[ "resource" := VStr "job_runs"; "action" := VStr "cancel";
                "result" := VDict {[ "job_run_id" := id;
                                     "cancel_requested" := VBool true ]} ]})).
Proof.
  intros Hjr Hc Hj Hclient Hlist Hdata sent. subst sent.
  unfold latest_job_run_kwargs in *. unfold data_science_job_runs. split.
  - intros d Hd. apply run_logged_Ok.
    rewrite (run_call_Ok _ _ _ _ _ _ _ Hclient). eqb_reduce. rewrite Hjr.
    rewrite !run_require_Ok by done.
    rewrite (run_call_Ok _ _ _ _ _ _ _ Hlist).
    rewrite (run_lift_Ok _ _ _ _ Hdata). cbn [truthy negb].
    rewrite (run_lift_Ok (first _) latest) by done.
    unfold to_dict. rewrite (run_call_Ok _ _ _ _ _ _ _ Hd).
    rewrite run_ok by apply no_collision_empty.
    by rewrite <-!app_assoc.
  - intros id answer Hid Hcancel. apply run_logged_Ok.
    rewrite (run_call_Ok _ _ _ _ _ _ _ Hclient). eqb_reduce. cbv zeta.
    rewrite Hjr. cbn [negb].
    rewrite !run_require_Ok by done.
    rewrite (run_call_Ok _ _ _ _ _ _ _ Hlist).
    rewrite (run_lift_Ok _ _ _ _ Hdata). cbn [truthy negb].
    rewrite (run_lift_Ok (first _) latest) by done.
    rewrite (run_lift_Ok _ _ _ _ Hid).
    rewrite (run_call_Ok _ _ _ _ _ _ _ Hcancel).
    rewrite run_ok by apply no_collision_empty.
    by rewrite <-!app_assoc.
Qed.

(** X2 at the mocks of the test suite: the one run "jr-latest". *)
Lemma X2_job_runs_latest_witness :
  data_science_job_runs sdk_one_run "cancel" (Some "c") None (Some "j") None None
    None []
  = ([ECall "get_data_science_client" [] ∅;
      ECall "DataScienceClient.list_job_runs" [VObj "MagicMock" ∅]
        (latest_job_run_kwargs (Some "c") (Some "j"));
      ECall "DataScienceClient.cancel_job_run" [VObj "MagicMock" ∅]
        {[ "job_run_id" := VStr "jr-latest" ]}],
     Ok {[ "resource" := VStr "job_runs"; "action" := VStr "cancel";
           "result" := VDict {[ "job_run_id" := VStr "jr-latest";
                                "cancel_requested" := VBool true ]} ]}).
Proof.
  refine (proj2 (X2_job_runs_latest sdk_one_run (Some "c") None (Some "j") None
                   None None (VObj "MagicMock" ∅)
                   (response (VList [namespace {[ "id" := VStr "jr-latest" ]}]))
                   (namespace {[ "id" := VStr "jr-latest" ]}) [] []
                   _ _ _ _ _ _) (VStr "jr-latest") (VObj "MagicMock" ∅) _ _);
    try reflexivity; by apply present_Some.
Defined.

(** X3. job_runs "status" and "cancel" with a job_run_id (a str that is
    not empty) go straight to that run: they do not require compartment_id
    or job_id, whatever these are, and send no listing request. *)
Theorem X3_job_runs_explicit (sdk : Provider)
    (compartment_id project_id job_id display_name : option string)
    (job_run_id : string) (limit : option Z) (ds_client : value)
    (t : list event) :
  job_run_id ≠ "" →
  sdk "get_data_science_client" [] ∅ = Ok ds_client →
  (∀ resp data d,
     sdk "DataScienceClient.get_job_run" [ds_client]
         {[ "job_run_id" := VStr job_run_id ]} = Ok resp →
     attr resp "data" = Ok data →
     sdk "oci.util.to_dict" [data] ∅ = Ok d →
     data_science_job_runs sdk "status" compartment_id project_id job_id
       display_name (Some job_run_id) limit t
     = ((t ++ [ECall "get_data_science_client" [] ∅;
               ECall "DataScienceClient.get_job_run" [ds_client]
                 {[ "job_run_id" := VStr job_run_id ]};
               ECall "oci.util.to_dict" [data] ∅])%list,
        Ok {[ "resource" := VStr "job_runs"; "action" := VStr "status";
              "result" := d ]}))
  ∧ (∀ answer,
       sdk "DataScienceClient.cancel_job_run" [ds_client]
           {[ "job_run_id" := VStr job_run_id ]} = Ok answer →
       data_science_job_runs sdk "cancel" compartment_id project_id job_id
         display_name (Some job_run_id) limit t
       = ((t ++ [ECall "get_data_science_client" [] ∅;
                 ECall "DataScienceClient.cancel_job_run" [ds_client]
                   {[ "job_run_id" := VStr job_run_id ]}])%list,
          Ok {[ "resource" := VStr "job_runs"; "action" := VStr "cancel";
                "result" := VDict {[ "job_run_id" := VStr job_run_id;
                                     "cancel_requested" := VBool true ]} ]})).
Proof.
  intros Hne Hclient.
  assert (truthy (ostr (Some job_run_id)) = true) as Hjr.
  { simpl. by destruct job_run_id. }
  unfold data_science_job_runs. split.
  - intros resp data d Hget Hdata Hd. apply run_logged_Ok.
    rewrite (run_call_Ok _ _ _ _ _ _ _ Hclient). eqb_reduce. rewrite Hjr.
    cbn [ostr from_option] in *.
    rewrite (run_call_Ok _ _ _ _ _ _ _ Hget).
    rewrite (run_lift_Ok _ _ _ _ Hdata).
    unfold to_dict. rewrite (run_call_Ok _ _ _ _ _ _ _ Hd).
    rewrite run_ok by apply no_collision_empty.
    by rewrite <-!app_assoc.
  - intros answer Hcancel. apply run_logged_Ok.
    rewrite (run_call_Ok _ _ _ _ _ _ _ Hclient). eqb_reduce. cbv zeta.
    rewrite Hjr. cbn [negb ostr from_option] in *.
    rewrite (run_call_Ok _ _ _ _ _ _ _ Hcancel).
    rewrite run_ok by apply no_collision_empty.
    by rewrite <-!app_assoc.
Qed.

(** X3 at the run "jr-by-id", with neither compartment_id nor job_id. *)
Lemma X3_job_runs_explicit_witness :
  data_science_job_runs sdk_one_run "status" None None None None
    (Some "jr-by-id") None []
  = ([ECall "get_data_science_client" [] ∅;
      ECall "DataScienceClient.get_job_run" [VObj "MagicMock" ∅]
        {[ "job_run_id" := VStr "jr-by-id" ]};
      ECall "oci.util.to_dict" [namespace {[ "id" := VStr "jr-by-id" ]}] ∅],
     Ok {[ "resource" := VStr "job_runs"; "action" := VStr "status";
           "result" := VDict {[ "id" := VStr "jr-by-id" ]} ]}).
Proof.
  refine (proj1 (X3_job_runs_explicit sdk_one_run None None None None "jr-by-id"
                   None (VObj "MagicMock" ∅) [] _ _)
            (response (namespace {[ "id" := VStr "jr-by-id" ]}))
            (namespace {[ "id" := VStr "jr-by-id" ]})
            (VDict {[ "id" := VStr "jr-by-id" ]}) _ _ _);
    first [reflexivity|done].
Defined.

(** ** The requests of a run *)

Section SendsOnly.
Context {A B : Type} (ops : list string).

Lemma sends_only_lift (r : result A) : sends_only ops (lift r).
Proof. intros t t' r' [= <- _]. exists []. by rewrite app_nil_r. Qed.

Lemma sends_only_ret (a : A) : sends_only ops (mret a).
Proof. apply (sends_only_lift (Ok a)). Qed.

Lemma sends_only_raise e : sends_only ops (@raise A e).
Proof. apply (sends_only_lift (Err e)). Qed.

Lemma sends_only_unsupported action : sends_only ops (@unsupported A action).
Proof. apply sends_only_raise. Qed.

Lemma sends_only_bind (m : M A) (k : A → M B) :
  sends_only ops m → (∀ a, sends_only ops (k a)) → sends_only ops (m ≫= k).
Proof.
  intros Hm Hk t t' r. unfold mbind, M_bind.
  destruct (m t) as [t1 [a|e]] eqn:E.
  - intros H. destruct (Hm _ _ _ E) as (r1 & -> & H1).
    destruct (Hk _ _ _ _ H) as (r2 & -> & H2). exists (r1 ++ r2)%list.
    by rewrite app_assoc, forallb_app, H1, H2.
  - intros [= <- _]. by eapply Hm.
Qed.

Lemma sends_only_try_except (m : M A) (h : exc → M A) :
  sends_only ops m → (∀ e, sends_only ops (h e)) →
  sends_only ops (try_except m h).
Proof.
  intros Hm Hh t t' r. unfold try_except.
  destruct (m t) as [t1 [a|e]] eqn:E.
  - intros [= <- _]. by eapply Hm.
  - intros H. destruct (Hm _ _ _ E) as (r1 & -> & H1).
    destruct (Hh _ _ _ _ H) as (r2 & -> & H2). exists (r1 ++ r2)%list.
    by rewrite app_assoc, forallb_app, H1, H2.
Qed.

Lemma sends_only_if (b : bool) (m1 m2 : M A) :
  sends_only ops m1 → sends_only ops m2 →
  sends_only ops (if b then m1 else m2).
Proof. by destruct b. Qed.

End SendsOnly.

Lemma sends_only_call ops sdk op args kwargs :
  bool_decide (op ∈ ops) = true → sends_only ops (call sdk op args kwargs).
Proof.
  intros H t t' r [= <- _]. eexists. split; [done|]. simpl. by rewrite H.
Qed.

Lemma sends_only_log ops level msg args : sends_only ops (log level msg args).
Proof. intros t t' r [= <- _]. by eexists. Qed.

Lemma sends_only_logged {A} ops msg (m : M A) :
  sends_only ops m → sends_only ops (logged msg m).
Proof.
  intros Hm. apply sends_only_try_except; [done|]. intros e.
  apply sends_only_bind; [apply sends_only_log|]. intros _.
  apply sends_only_raise.
Qed.

Lemma sends_only_mapM {A B} ops (f : A → M B) (xs : list A) :
  (∀ x, sends_only ops (f x)) → sends_only ops (mapM f xs).
Proof.
  intros Hf. induction xs as [|x xs IH]; [apply sends_only_ret|].
  rewrite mapM_cons. apply sends_only_bind; [done|]. intros y.
  apply sends_only_bind; [done|]. intros ys. apply sends_only_ret.
Qed.

Lemma sends_only_len ops sdk v :
  bool_decide ("__len__" ∈ ops) = true → sends_only ops (len sdk v).
Proof.
  intros H. destruct v; simpl;
    try first [apply sends_only_ret|apply sends_only_raise].
  apply sends_only_bind; [by apply sends_only_call|].
  intros []; try apply sends_only_raise.
  destruct (_ <? _); [apply sends_only_raise|apply sends_only_ret].
Qed.

Lemma sends_only_str ops sdk v :
  bool_decide ("__str__" ∈ ops) = true → sends_only ops (str sdk v).
Proof.
  intros H.
  assert (sends_only ops
            (r ← call sdk "__str__" [v] ∅;
             match r with
             | VStr s => mret (VStr s)
             | _ => raise (TypeError "__str__ returned non-string")
             end)) as Hcall.
  { apply sends_only_bind; [by apply sends_only_call|].
    intros []; first [apply sends_only_ret|apply sends_only_raise]. }
  destruct v; try exact Hcall. apply sends_only_ret.
Qed.

(** One step through the body of a tool. *)
Ltac sends_step :=
  lazymatch goal with
  | |- sends_only _ (logged _ _) => apply sends_only_logged
  | |- sends_only _ (let _ := _ in _) => cbv zeta
  | |- sends_only _ (_ ≫= _) => apply sends_only_bind; [|intros ?]
  | |- sends_only _ (call _ _ _ _) => apply sends_only_call; by vm_compute
  | |- sends_only _ (lift _) => apply sends_only_lift
  | |- sends_only _ (mret _) => apply sends_only_ret
  | |- sends_only _ (raise _) => apply sends_only_raise
  | |- sends_only _ (unsupported _) => apply sends_only_unsupported
  | |- sends_only _ (log _ _ _) => apply sends_only_log
  | |- sends_only _ (len _ _) => apply sends_only_len; by vm_compute
  | |- sends_only _ (str _ _) => apply sends_only_str; by vm_compute
  | |- sends_only _ (to_dict _ _) => unfold to_dict
  | |- sends_only _ (model_row _ _) => unfold model_row
  | |- sends_only _ (mapM _ _) => apply sends_only_mapM; intros ?
  | |- sends_only _ (try_except _ _) =>
      apply sends_only_try_except; [|intros ?]
  | |- sends_only _ (if String.eqb ?a ?s then _ else _) =>
      first [ is_var a; destruct (String.eqb_spec a s) as [->|?]
            | apply sends_only_if ]
  | |- sends_only _ (if _ then _ else _) => apply sends_only_if
  end.

(** X4. A tool called with an action that is not one of its writing
    actions (compartments with any action; the listings, counts, details
    and status of the other tools; an action the tool does not declare)
    sends, against any provider and whatever the outcome, only requests
    that read: none of the create, update, delete, start, cancel,
    activate, deactivate, deploy or download requests of the SDK. *)
Theorem X4_read_actions_only_read (sdk : Provider) (c : tool_call) :
  action_of c ∉ write_actions c →
  sends_only read_requests (invoke sdk c).
Proof.
  intros Hw.
  destruct c; cbn [invoke action_of write_actions] in *;
    unfold oci_ds_compartments, data_science_projects,
      data_science_model_catalog, data_science_jobs, data_science_job_runs,
      data_science_notebook_sessions, data_science_pipelines,
      data_science_pipeline_runs, data_science_model_deployments;
    repeat first [ by (exfalso; apply Hw; repeat constructor) | sends_step ].
Qed.

(** X4 at the listing of the pipelines. *)
Lemma X4_read_actions_only_read_witness :
  sends_only read_requests
    (invoke sdk_pipelines (Pipelines "list" (Some "c") None None)).
Proof.
  apply X4_read_actions_only_read. cbn [action_of write_actions].
  by intros [?|[]%elem_of_nil]%elem_of_cons.
Defined.

(** ** Failures of the provider *)

Lemma failed_in_nil sdk e : ¬ failed_in sdk e [].
Proof. by intros (op & args & kwargs & []%elem_of_nil & _). Qed.

Lemma failed_in_app sdk e r1 r2 :
  failed_in sdk e (r1 ++ r2) → failed_in sdk e r1 ∨ failed_in sdk e r2.
Proof.
  intros (op & args & kwargs & [H|H]%elem_of_app & Hs);
    [left|right]; by exists op, args, kwargs.
Qed.

Lemma failed_in_log sdk e level msg args : ¬ failed_in sdk e [ELog level msg args].
Proof.
  intros (op & a & kw & H & _). by apply list_elem_of_singleton in H.
Qed.

Lemma failed_in_call sdk e op args kwargs :
  failed_in sdk e [ECall op args kwargs] → sdk op args kwargs = Err e.
Proof.
  intros (op' & a & kw & H & Hs). apply list_elem_of_singleton in H.
  by injection H as -> -> ->.
Qed.

Section Propagates.
Context {A B : Type} (sdk : Provider).

Lemma propagates_lift (r : result A) : propagates sdk (lift r).
Proof.
  intros t t' r' [= <- _]. exists []. split; [by rewrite app_nil_r|].
  by intros e []%failed_in_nil.
Qed.

Lemma propagates_ret (a : A) : propagates sdk (mret a).
Proof. apply (propagates_lift (Ok a)). Qed.

Lemma propagates_raise e : propagates sdk (@raise A e).
Proof. apply (propagates_lift (Err e)). Qed.

Lemma propagates_unsupported action : propagates sdk (@unsupported A action).
Proof. apply propagates_raise. Qed.

Lemma propagates_bind (m : M A) (k : A → M B) :
  propagates sdk m → (∀ a, propagates sdk (k a)) → propagates sdk (m ≫= k).
Proof.
  intros Hm Hk t t' r. unfold mbind, M_bind.
  destruct (m t) as [t1 [a|e]] eqn:E.
  - intros H. destruct (Hm _ _ _ E) as (r1 & -> & H1).
    destruct (Hk _ _ _ _ H) as (r2 & -> & H2). exists (r1 ++ r2)%list.
    split; [by rewrite app_assoc|].
    intros e [Hf|Hf]%failed_in_app; [|by apply H2].
    by specialize (H1 e Hf).
  - intros [= <- <-]. destruct (Hm _ _ _ E) as (r1 & -> & H1).
    exists r1. split; [done|]. intros e' Hf.
    specialize (H1 e' Hf). by injection H1 as ->.
Qed.

Lemma propagates_if (b : bool) (m1 m2 : M A) :
  propagates sdk m1 → propagates sdk m2 →
  propagates sdk (if b then m1 else m2).
Proof. by destruct b. Qed.

(** The frame of a tool logs and raises again. *)
Lemma propagates_logged msg (m : M A) :
  propagates sdk m → propagates sdk (logged msg m).
Proof.
  intros Hm t t' r. unfold logged, try_except.
  destruct (m t) as [t1 [a|e]] eqn:E.
  - intros [= <- <-]. by eapply Hm.
  - intros [= <- <-]. destruct (Hm _ _ _ E) as (r1 & -> & H1).
    exists (r1 ++ [ELog "ERROR" msg []])%list.
    split; [by rewrite app_assoc|].
    intros e' [Hf|Hf]%failed_in_app; [by apply H1|].
    by apply failed_in_log in Hf.
Qed.

End Propagates.

Lemma propagates_call sdk op args kwargs :
  propagates sdk (call sdk op args kwargs).
Proof.
  intros t t' r [= <- <-]. eexists. split; [done|].
  by intros e ->%failed_in_call.
Qed.

Lemma propagates_log sdk level msg args : propagates sdk (log level msg args).
Proof.
  intros t t' r [= <- _]. eexists. split; [done|].
  by intros e []%failed_in_log.
Qed.

Lemma propagates_mapM {A B} sdk (f : A → M B) (xs : list A) :
  (∀ x, propagates sdk (f x)) → propagates sdk (mapM f xs).
Proof.
  intros Hf. induction xs as [|x xs IH]; [apply propagates_ret|].
  rewrite mapM_cons. apply propagates_bind; [done|]. intros y.
  apply propagates_bind; [done|]. intros ys. apply propagates_ret.
Qed.

Lemma propagates_len sdk v : propagates sdk (len sdk v).
Proof.
  destruct v; simpl;
    try first [apply propagates_ret|apply propagates_raise].
  apply propagates_bind; [by apply propagates_call|].
  intros []; try apply propagates_raise.
  destruct (_ <? _); [apply propagates_raise|apply propagates_ret].
Qed.

Lemma propagates_str sdk v : propagates sdk (str sdk v).
Proof.
  assert (propagates sdk
            (r ← call sdk "__str__" [v] ∅;
             match r with
             | VStr s => mret (VStr s)
             | _ => raise (TypeError "__str__ returned non-string")
             end)) as Hcall.
  { apply propagates_bind; [by apply propagates_call|].
    intros []; first [apply propagates_ret|apply propagates_raise]. }
  destruct v; try exact Hcall. apply propagates_ret.
Qed.

Ltac propagates_step :=
  lazymatch goal with
  | |- propagates _ (logged _ _) => apply propagates_logged
  | |- propagates _ (let _ := _ in _) => cbv zeta
  | |- propagates _ (_ ≫= _) => apply propagates_bind; [|intros ?]
  | |- propagates _ (call _ _ _ _) => apply propagates_call
  | |- propagates _ (lift _) => apply propagates_lift
  | |- propagates _ (mret _) => apply propagates_ret
  | |- propagates _ (raise _) => apply propagates_raise
  | |- propagates _ (unsupported _) => apply propagates_unsupported
  | |- propagates _ (log _ _ _) => apply propagates_log
  | |- propagates _ (len _ _) => apply propagates_len
  | |- propagates _ (str _ _) => apply propagates_str
  | |- propagates _ (to_dict _ _) => unfold to_dict
  | |- propagates _ (model_row _ _) => unfold model_row
  | |- propagates _ (mapM _ _) => apply propagates_mapM; intros ?
  | |- propagates _ (if String.eqb ?a ?s then _ else _) =>
      first [ is_var a; destruct (String.eqb_spec a s) as [->|?]
            | apply propagates_if ]
  | |- propagates _ (if truthy ?v then try_except _ _ else _) =>
      destruct (truthy v) eqn:?
  | |- propagates _ (if _ then _ else _) => apply propagates_if
  end.

(** Outside the two branches that catch, the body of a tool hides no
    failure of a request it sends, whatever the provider. *)
Lemma invoke_propagates (sdk : Provider) (c : tool_call) :
  ¬ swallows c → propagates sdk (invoke sdk c).
Proof.
  intros Hsw.
  destruct c; cbn [invoke swallows] in *;
    unfold oci_ds_compartments, data_science_projects,
      data_science_model_catalog, data_science_jobs, data_science_job_runs,
      data_science_notebook_sessions, data_science_pipelines,
      data_science_pipeline_runs, data_science_model_deployments;
    repeat first [ by (exfalso; apply Hsw; auto) | propagates_step ].
Qed.

(** ** Validation before the request *)

Lemma failed_in_app_l sdk e r1 r2 :
  failed_in sdk e r1 → failed_in sdk e (r1 ++ r2).
Proof.
  intros (op & args & kwargs & H & Hs). exists op, args, kwargs.
  split; [|done]. apply elem_of_app. by left.
Qed.

Lemma failed_in_app_r sdk e r1 r2 :
  failed_in sdk e r2 → failed_in sdk e (r1 ++ r2).
Proof.
  intros (op & args & kwargs & H & Hs). exists op, args, kwargs.
  split; [|done]. apply elem_of_app. by right.
Qed.

Section Refuses.
Context {B : Type} (sdk : Provider).

Lemma refuses_raise msg : refuses sdk (@raise B (ValueError msg)).
Proof.
  intros t. exists [], (ValueError msg).
  split_and!; [by rewrite app_nil_r|done|by left].
Qed.

Lemma refuses_logged msg (m : M B) : refuses sdk m → refuses sdk (logged msg m).
Proof.
  intros Hm t. destruct (Hm t) as (rest & e & Hrun & Hops & He).
  exists (rest ++ [ELog "ERROR" msg []])%list, e. split_and!.
  - rewrite (run_logged_Err _ _ _ _ _ Hrun). by rewrite app_assoc.
  - by rewrite forallb_app, Hops.
  - destruct He as [He|He]; [by left|right]. by apply failed_in_app_l.
Qed.

Lemma refuses_require o name action (k : unit → M B) :
  (present o → refuses sdk (k ())) →
  refuses sdk (lift (_require (ostr o) name action) ≫= k).
Proof.
  intros Hk t. destruct (missing (ostr o)) eqn:Ho.
  - apply missing_spec in Ho. eexists [], _.
    split; [rewrite app_nil_r; by apply run_require_Err|].
    split; [done|by left].
  - apply missing_false in Ho. rewrite run_require_Ok by done. by apply Hk.
Qed.

Lemma refuses_at_least_one pairs action (k : unit → M B) :
  (Exists (λ kv : string * value, ¬ absent_or_blank kv.2) pairs →
   refuses sdk (k ())) →
  refuses sdk (lift (_at_least_one pairs action) ≫= k).
Proof.
  intros Hk t. destruct (existsb (λ kv, provided kv.2) pairs) eqn:Hp.
  - apply existsb_provided_true in Hp.
    rewrite (run_lift_Ok _ ()) by (by apply at_least_one_Ok). by apply Hk.
  - apply existsb_provided_false in Hp. eexists [], _.
    split; [rewrite app_nil_r; apply run_lift_Err; by apply at_least_one_Err|].
    split; [done|by left].
Qed.

Lemma refuses_at_least_one_1 n1 o1 action (k : unit → M B) :
  (present o1 → refuses sdk (k ())) →
  refuses sdk (lift (_at_least_one [(n1, ostr o1)] action) ≫= k).
Proof.
  intros Hk. apply refuses_at_least_one.
  intros [H|[]%Exists_nil]%Exists_cons. by apply Hk.
Qed.

Lemma refuses_at_least_one_2 n1 o1 n2 o2 action (k : unit → M B) :
  (present o1 ∨ present o2 → refuses sdk (k ())) →
  refuses sdk
    (lift (_at_least_one [(n1, ostr o1); (n2, ostr o2)] action) ≫= k).
Proof.
  intros Hk. apply refuses_at_least_one.
  intros [H|[H|[]%Exists_nil]%Exists_cons]%Exists_cons; apply Hk; auto.
Qed.

Lemma refuses_client op args kwargs (k : value → M B) :
  bool_decide (op ∈ client_requests) = true →
  (∀ v, refuses sdk (k v)) →
  refuses sdk (call sdk op args kwargs ≫= k).
Proof.
  intros Hop Hk t. destruct (sdk op args kwargs) as [v|e] eqn:E.
  - rewrite (run_call_Ok _ _ _ _ _ _ _ E).
    destruct (Hk v (t ++ [ECall op args kwargs])%list)
      as (rest & e & -> & Hops & He).
    exists (ECall op args kwargs :: rest), e. split_and!.
    + by rewrite <-app_assoc.
    + simpl. by rewrite Hop, Hops.
    + destruct He as [He|He]; [by left|right].
      by apply (failed_in_app_r _ _ [_]).
  - rewrite (run_call_Err _ _ _ _ _ _ _ E). exists [ECall op args kwargs], e.
    split_and!; [done|simpl; by rewrite Hop|right].
    exists op, args, kwargs. split; [apply list_elem_of_singleton|]; done.
Qed.

End Refuses.

(** The test of the flexible shapes lets a call through. *)
Lemma flex_pair_given (shape : string) (ocpus memory_in_gbs : option Z) :
  bool_decide (shape ∈ flex_shapes)
  && (is_None (oint ocpus) || is_None (oint memory_in_gbs)) = false →
  shape ∈ flex_shapes → is_Some ocpus ∧ is_Some memory_in_gbs.
Proof.
  intros H Hs. rewrite bool_decide_eq_true_2 in H by done.
  by destruct ocpus, memory_in_gbs.
Qed.

(** The rules of [valid] hold, by what the body has checked so far. *)
Ltac prove_valid :=
  cbn [valid];
  repeat match goal with
  | |- _ ∧ _ => split
  | |- _ = _ → _ => intros ?
  | |- _ = _ ∨ _ → _ => intros [?|?]
  | H : _ = _ ∨ _ |- _ => destruct H
  end;
  first [ exact I | assumption | congruence | by left | by right
        | by eapply flex_pair_given ].

Ltac refuses_step Hnv :=
  first
  [ by (exfalso; apply Hnv; prove_valid)
  | lazymatch goal with
    | |- refuses _ (logged _ _) => apply refuses_logged
    | |- refuses _ (let _ := _ in _) => cbv zeta
    | |- refuses _ (lift (_require (ostr _) _ _) ≫= _) =>
        apply refuses_require; intros ?
    | |- refuses _ (lift (_at_least_one [_; _] _) ≫= _) =>
        apply refuses_at_least_one_2; intros ?
    | |- refuses _ (lift (_at_least_one [_] _) ≫= _) =>
        apply refuses_at_least_one_1; intros ?
    | |- refuses _ (call _ _ _ _ ≫= _) =>
        apply refuses_client; [by vm_compute|intros ?]
    | |- refuses _ (raise (ValueError _)) => apply refuses_raise
    | |- refuses _ (if String.eqb ?a ?s then _ else _) =>
        is_var a; destruct (String.eqb_spec a s) as [->|?]
    | |- refuses _ (if negb ?b then _ else _) => destruct b eqn:?; cbn [negb]
    | |- refuses _ (if ?b then _ else _) => destruct b eqn:?
    end ].

(** X5. A call that breaks a validation rule of its tool (a required
    parameter absent or blank, none of an at-least-one set given, a
    flexible shape without both ocpus and memory_in_gbs) raises, against
    any provider, and the request of the action is never sent: the log
    gains at most the request for the client or the catalog, which most
    tools send before they validate, and the record of the frame.  What
    is raised is a ValueError, unless that first request itself failed. *)
Theorem X5_invalid_call_is_refused (sdk : Provider) (c : tool_call) :
  ¬ valid c → refuses sdk (invoke sdk c).
Proof.
  intros Hnv.
  destruct c; cbn [invoke];
    unfold oci_ds_compartments, data_science_projects,
      data_science_model_catalog, data_science_jobs, data_science_job_runs,
      data_science_notebook_sessions, data_science_pipelines,
      data_science_pipeline_runs, data_science_model_deployments;
    repeat refuses_step Hnv.
Qed.

(** X5 at the update of a project without a project_id. *)
Lemma X5_invalid_call_is_refused_witness :
  refuses sdk_projects
    (invoke sdk_projects
       (Projects "update" "c" None None None (Some "new") None None)).
Proof.
  apply X5_invalid_call_is_refused. intros (_ & H & _).
  destruct (H eq_refl) as [Hp _]. apply Hp. by left.
Defined.

(** ** Listings *)

Lemma run_try_except_Err {A} (m : M A) h t t' e :
  m t = (t', Err e) → try_except m h t = h e t'.
Proof. intros H. unfold try_except. by rewrite H. Qed.

Lemma run_try_call_Err {B} sdk op args kwargs e (h : exc → M value)
    (k : value → M B) t :
  sdk op args kwargs = Err e →
  (try_except (call sdk op args kwargs) h ≫= k) t
  = (h e ≫= k) (t ++ [ECall op args kwargs])%list.
Proof. intros H. unfold mbind, M_bind, try_except, call. by rewrite H. Qed.

Lemma run_bind_assoc {A B C} (m : M A) (f : A → M B) (k : B → M C) t :
  ((m ≫= f) ≫= k) t = (m ≫= λ a, f a ≫= k) t.
Proof. unfold mbind, M_bind. by destruct (m t) as [t1 [a|e]]. Qed.

Lemma sends_only_extends {A} ops (m : M A) t t' r :
  sends_only ops m → m t = (t', r) → ∃ rest, t' = (t ++ rest)%list.
Proof. intros Hm E. destruct (Hm _ _ _ E) as (rest & -> & _). by exists rest. Qed.

Lemma mapM_runs {A B} (f : A → M B) (xs : list A) :
  Forall (λ x, ∀ t, ∃ t' y, f x t = (t', Ok y)) xs →
  ∀ t, ∃ t' ys, mapM f xs t = (t', Ok ys).
Proof.
  induction 1 as [|x xs Hx _ IH]; intros t; [by eexists _, _|].
  destruct (Hx t) as (t1 & y & E). destruct (IH t1) as (t2 & ys & E').
  exists t2, (y :: ys). rewrite mapM_cons.
  rewrite (run_bind_Ok _ _ _ _ _ E). by rewrite (run_bind_Ok _ _ _ _ _ E').
Qed.

Lemma Forall2_truncate {A B} (R : A → B → Prop) limit items rows :
  Forall2 R items rows → Forall2 R (truncate limit items) (truncate limit rows).
Proof.
  intros HR. destruct limit as [n|]; [|done]. unfold truncate, slice_to.
  rewrite (Forall2_length _ _ _ HR). destruct (n <? 0); by apply Forall2_take.
Qed.

Lemma sends_only_model_row sdk m : sends_only ["__str__"] (model_row sdk m).
Proof. unfold model_row. repeat sends_step. Qed.

(** The end of the listing of the models: a row for each model, cut at
    the limit. *)
Lemma run_model_rows sdk (c : string) limit items t :
  Forall (has_row sdk) items →
  ∃ rest payload rows,
    (rows ← mapM (model_row sdk) items;
     lift (_ok "model_catalog" "list_models" (VList (truncate limit rows))
             {[ "compartment_id" := VStr c ]})) t
    = ((t ++ rest)%list, Ok payload)
    ∧ payload !! "result" = Some (VList rows)
    ∧ payload !! "compartment_id" = Some (VStr c)
    ∧ Forall2 (row_of_model sdk) (truncate limit items) rows.
Proof.
  intros Hitems. destruct (mapM_runs _ _ Hitems t) as (t' & rows & Hrows).
  destruct (sends_only_extends ["__str__"] _ _ _ _
              (sends_only_mapM _ _ items (sends_only_model_row sdk)) Hrows)
    as [rest ->].
  assert (no_collision {[ "compartment_id" := VStr c ]}) as Hx
    by (by apply no_collision_singleton).
  eexists rest, _, (truncate limit rows). split_and!.
  - rewrite (run_bind_Ok _ _ _ _ _ Hrows). by apply run_ok.
  - by apply _ok_body_fixed.
  - apply _ok_body_extra, lookup_singleton_eq.
  - apply Forall2_truncate. by apply (mapM_M_Forall2 _ _ _ _ _ Hrows).
Qed.

Lemma Forall_list_filter {A} (P : A → Prop) (f : A → bool) xs :
  Forall P xs → Forall P (List.filter f xs).
Proof.
  induction 1 as [|x xs Hx _ IH]; simpl; [done|].
  destruct (f x); [by constructor|done].
Qed.

(** X7. model_catalog "list_models" with a project_id.  The listing is
    first requested with the project_id as a keyword argument.  When the
    provider answers that request with an exception of a built-in class
    derived from Exception other than TypeError, the tool logs and raises
    it and lists nothing.  When it answers with a TypeError (an SDK whose
    listing does not take project_id), the tool requests the listing
    again without arguments and keeps the models whose project_id
    attribute equals the given one, a model without the attribute being
    dropped; the rows of these, cut at the limit, are the result.  An
    exception is told by the name of its class; nothing is said of a
    class outside the built-in ones, which may derive from TypeError or
    from BaseException alone. *)
Theorem X7_list_models_fallback (sdk : Provider) (c project_id : string)
    (model_id target_dir model_version_set_id : option string)
    (limit : option Z) (mc : value) (e : exc) (t : list event) :
  project_id ≠ "" →
  sdk "ModelCatalog" [] {[ "compartment_id" := VStr c ]} = Ok mc →
  sdk "ModelCatalog.list_models" [mc] {[ "project_id" := VStr project_id ]}
  = Err e →
  let run := data_science_model_catalog sdk "list_models" c (Some project_id)
               model_id target_dir model_version_set_id limit t in
  let sent := [ECall "ModelCatalog" [] {[ "compartment_id" := VStr c ]};
               ECall "ModelCatalog.list_models" [mc]
                 {[ "project_id" := VStr project_id ]}] in
  (is_Exception e = true → exc_class e ≠ "TypeError" →
   run = ((t ++ sent
             ++ [ELog "ERROR" "Error in data_science_model_catalog" []])%list,
          Err e))
  ∧ (exc_class e = "TypeError" →
     ∀ all,
       sdk "ModelCatalog.list_models" [mc] ∅ = Ok (VList all) →
       Forall (has_row sdk) all →
       ∃ rest payload rows,
         run = ((t ++ sent ++ ECall "ModelCatalog.list_models" [mc] ∅ :: rest)%list,
                Ok payload)
         ∧ payload !! "result" = Some (VList rows)
         ∧ Forall2 (row_of_model sdk)
             (truncate limit
                (List.filter
                   (λ m, eq_str (getattr m "project_id" VNone) project_id)
                   all))
             rows).
Proof.
  intros Hne Hmc Hfail run sent. subst run sent.
  assert (truthy (ostr (Some project_id)) = true) as Hpid.
  { simpl. by destruct project_id. }
  unfold data_science_model_catalog. eqb_reduce. split.
  - intros _ Hclass. rewrite app_assoc. apply run_logged_Err.
    rewrite (run_call_Ok _ _ _ _ _ _ _ Hmc). rewrite Hpid. cbv iota.
    cbn [ostr from_option]. rewrite (run_try_call_Err _ _ _ _ _ _ _ _ Hfail).
    apply String.eqb_neq in Hclass. rewrite Hclass.
    by rewrite <-app_assoc.
  - intros Hclass all Hall Hrows.
    set (keep := List.filter
                   (λ m, eq_str (getattr m "project_id" VNone) project_id) all).
    destruct (run_model_rows sdk c limit keep
                (t ++ [ECall "ModelCatalog" [] {[ "compartment_id" := VStr c ]};
                       ECall "ModelCatalog.list_models" [mc]
                         {[ "project_id" := VStr project_id ]};
                       ECall "ModelCatalog.list_models" [mc] ∅])%list)
      as (rest & p & rows & Hrun & Hres & _ & HR);
      [by apply Forall_list_filter|].
    exists rest, p, rows. split_and!; [|done..].
    apply run_logged_Ok. rewrite (run_call_Ok _ _ _ _ _ _ _ Hmc). rewrite Hpid.
    cbv iota. cbn [ostr from_option].
    rewrite (run_try_call_Err _ _ _ _ _ _ _ _ Hfail).
    apply String.eqb_eq in Hclass. rewrite Hclass. rewrite run_bind_assoc.
    rewrite (run_call_Ok _ _ _ _ _ _ _ Hall). rewrite run_bind_assoc.
    rewrite (run_lift_Ok (iter _) all) by done.
    rewrite (run_bind_Ok _ _ _ _ (VList keep)) by done.
    rewrite (run_lift_Ok (iter _) keep) by done.
    rewrite <-!app_assoc in *. cbn [app] in *. by rewrite Hrun.
Qed.

(** X7 at the mocks of
    [test_data_science_model_catalog_list_models_project_id_fallback_filters]:
    of the models m1 (project p1) and m2 (project p2), the row of m1 is
    the result for project p1; and at a listing that raises a
    RuntimeError, which the tool raises. *)
Lemma X7_list_models_fallback_witness :
  (∃ rest payload row,
     data_science_model_catalog sdk_old_ads "list_models" "c" (Some "p1")
       None None None None []
     = (([] ++ [ECall "ModelCatalog" [] {[ "compartment_id" := VStr "c" ]};
                ECall "ModelCatalog.list_models" [VObj "MagicMock" ∅]
                  {[ "project_id" := VStr "p1" ]}]
            ++ ECall "ModelCatalog.list_models" [VObj "MagicMock" ∅] ∅ :: rest)%list,
        Ok payload)
     ∧ payload !! "result" = Some (VList [row])
     ∧ row_of_model sdk_old_ads
         (namespace {[ "id" := VStr "m1"; "display_name" := VStr "M1";
                       "project_id" := VStr "p1" ]}) row)
  ∧ data_science_model_catalog sdk_models_unavailable "list_models" "c"
      (Some "p1") None None None None []
    = ([ECall "ModelCatalog" [] {[ "compartment_id" := VStr "c" ]};
        ECall "ModelCatalog.list_models" [VObj "MagicMock" ∅]
          {[ "project_id" := VStr "p1" ]};
        ELog "ERROR" "Error in data_science_model_catalog" []],
       Err (Exc "RuntimeError" "service unavailable")).
Proof.
  split.
  - destruct (X7_list_models_fallback sdk_old_ads "c" "p1" None None None None
                (VObj "MagicMock" ∅) (TypeError "old ads") []
                ltac:(done) eq_refl eq_refl) as [_ H].
    destruct (H eq_refl _ eq_refl) as (rest & p & rows & Hrun & Hres & HR).
    { repeat constructor; intros t; by eexists _, _. }
    vm_compute truncate in HR.
    apply Forall2_cons_inv_l in HR
      as (row & rows' & Hrow & ->%Forall2_nil_inv_l & ->).
    by exists rest, p, row.
  - exact (proj1 (X7_list_models_fallback sdk_models_unavailable "c" "p1" None
                    None None None (VObj "MagicMock" ∅)
                    (Exc "RuntimeError" "service unavailable") []
                    ltac:(done) eq_refl eq_refl)
             eq_refl ltac:(done)).
Defined.

(** X8. The five listings that cut their rows (projects "list",
    model_catalog "list_version_sets" and "list_models", pipelines "list",
    model_deployments "list"), for every limit the function is called
    with, None included: the listing request is sent without the limit, a
    row is made of every item of the answer, and the result is
    [rows[:limit]] of these rows.  The payload carries the compartment_id
    beside the three fixed fields, and the log gains the request for the
    client or catalog and the listing request, nothing else (for the
    models, the requests for the str of a time_created follow). *)
Theorem X8_listing_any_limit (sdk : Provider) (limit : option Z)
    (items rows : list value) (t : list event) :
  (∀ c pid pn pd nn nd pc,
     sdk "ProjectCatalog" [] {[ "compartment_id" := VStr c ]} = Ok pc →
     sdk "ProjectCatalog.list_projects" [pc] ∅ = Ok (VList items) →
     mapM project_row items = Ok rows →
     data_science_projects sdk "list" c pid pn pd nn nd limit t
     = ((t ++ [ECall "ProjectCatalog" [] {[ "compartment_id" := VStr c ]};
               ECall "ProjectCatalog.list_projects" [pc] ∅])%list,
        Ok {[ "resource" := VStr "projects"; "action" := VStr "list";
              "result" := VList (truncate limit rows);
              "compartment_id" := VStr c ]}))
  ∧ (∀ c pid mid td vs ds_client resp,
       sdk "get_data_science_client" [] ∅ = Ok ds_client →
       sdk "DataScienceClient.list_model_version_sets" [ds_client]
           {[ "compartment_id" := VStr c ]} = Ok resp →
       attr resp "data" = Ok (VList items) →
       mapM version_set_row items = Ok rows →
       data_science_model_catalog sdk "list_version_sets" c pid mid td vs limit t
       = ((t ++ [ECall "get_data_science_client" [] ∅;
                 ECall "DataScienceClient.list_model_version_sets" [ds_client]
                   {[ "compartment_id" := VStr c ]}])%list,
          Ok {[ "resource" := VStr "model_catalog";
                "action" := VStr "list_version_sets";
                "result" := VList (truncate limit rows);
                "compartment_id" := VStr c ]}))
  ∧ (∀ c pl ds_client resp,
       present c →
       sdk "get_data_science_client" [] ∅ = Ok ds_client →
       sdk "DataScienceClient.list_pipelines" [ds_client]
           {[ "compartment_id" := ostr c ]} = Ok resp →
       attr resp "data" = Ok (VList items) →
       mapM pipeline_row items = Ok rows →
       data_science_pipelines sdk "list" c pl limit t
       = ((t ++ [ECall "get_data_science_client" [] ∅;
                 ECall "DataScienceClient.list_pipelines" [ds_client]
                   {[ "compartment_id" := ostr c ]}])%list,
          Ok {[ "resource" := VStr "pipelines"; "action" := VStr "list";
                "result" := VList (truncate limit rows);
                "compartment_id" := ostr c ]}))
  ∧ (∀ c p m d dep sn lg al pl sh oc mem ds_client resp,
       present c →
       sdk "get_data_science_client" [] ∅ = Ok ds_client →
       sdk "DataScienceClient.list_model_deployments" [ds_client]
           {[ "compartment_id" := ostr c ]} = Ok resp →
       attr resp "data" = Ok (VList items) →
       mapM deployment_row items = Ok rows →
       data_science_model_deployments sdk "list" c p m d dep sn lg al pl sh oc
         mem limit t
       = ((t ++ [ECall "get_data_science_client" [] ∅;
                 ECall "DataScienceClient.list_model_deployments" [ds_client]
                   {[ "compartment_id" := ostr c ]}])%list,
          Ok {[ "resource" := VStr "model_deployments"; "action" := VStr "list";
                "result" := VList (truncate limit rows);
                "compartment_id" := ostr c ]}))
  ∧ (∀ c mid td vs mc,
       sdk "ModelCatalog" [] {[ "compartment_id" := VStr c ]} = Ok mc →
       sdk "ModelCatalog.list_models" [mc] ∅ = Ok (VList items) →
       Forall (has_row sdk) items →
       ∃ rest payload rows',
         data_science_model_catalog sdk "list_models" c None mid td vs limit t
         = ((t ++ [ECall "ModelCatalog" [] {[ "compartment_id" := VStr c ]};
                   ECall "ModelCatalog.list_models" [mc] ∅] ++ rest)%list,
            Ok payload)
         ∧ payload !! "result" = Some (VList rows')
         ∧ payload !! "compartment_id" = Some (VStr c)
         ∧ Forall2 (row_of_model sdk) (truncate limit items) rows').
Proof.
  split_and!.
  - intros c pid pn pd nn nd pc Hpc Hlist Hrows.
    unfold data_science_projects. apply run_logged_Ok.
    rewrite (run_call_Ok _ _ _ _ _ _ _ Hpc). eqb_reduce.
    rewrite (run_call_Ok _ _ _ _ _ _ _ Hlist).
    rewrite (run_lift_Ok (iter _) items) by done.
    rewrite (run_lift_Ok _ _ _ _ Hrows).
    rewrite run_ok by (by apply no_collision_singleton).
    by rewrite <-app_assoc.
  - intros c pid mid td vs ds_client resp Hclient Hlist Hdata Hrows.
    unfold data_science_model_catalog. apply run_logged_Ok. eqb_reduce.
    rewrite (run_call_Ok _ _ _ _ _ _ _ Hclient).
    rewrite (run_call_Ok _ _ _ _ _ _ _ Hlist).
    rewrite (run_lift_Ok _ _ _ _ Hdata).
    rewrite (run_lift_Ok (iter _) items) by done.
    rewrite (run_lift_Ok _ _ _ _ Hrows).
    rewrite run_ok by (by apply no_collision_singleton).
    by rewrite <-app_assoc.
  - intros c pl ds_client resp Hc Hclient Hlist Hdata Hrows.
    unfold data_science_pipelines. apply run_logged_Ok.
    rewrite (run_call_Ok _ _ _ _ _ _ _ Hclient). eqb_reduce.
    rewrite run_require_Ok by done.
    rewrite (run_call_Ok _ _ _ _ _ _ _ Hlist).
    rewrite (run_lift_Ok _ _ _ _ Hdata).
    rewrite (run_lift_Ok (iter _) items) by done.
    rewrite (run_lift_Ok _ _ _ _ Hrows).
    rewrite run_ok by (by apply no_collision_singleton).
    by rewrite <-app_assoc.
  - intros c p m d dep sn lg al pl sh oc mem ds_client resp Hc Hclient Hlist
      Hdata Hrows.
    unfold data_science_model_deployments. apply run_logged_Ok.
    rewrite (run_call_Ok _ _ _ _ _ _ _ Hclient). eqb_reduce.
    rewrite run_require_Ok by done.
    rewrite (run_call_Ok _ _ _ _ _ _ _ Hlist).
    rewrite (run_lift_Ok _ _ _ _ Hdata).
    rewrite (run_lift_Ok (iter _) items) by done.
    rewrite (run_lift_Ok _ _ _ _ Hrows).
    rewrite run_ok by (by apply no_collision_singleton).
    by rewrite <-app_assoc.
  - intros c mid td vs mc Hmc Hlist Hitems.
    destruct (run_model_rows sdk c limit items
                (t ++ [ECall "ModelCatalog" [] {[ "compartment_id" := VStr c ]};
                       ECall "ModelCatalog.list_models" [mc] ∅])%list Hitems)
      as (rest & p & rows' & Hrun & Hres & Hcid & HR).
    exists rest, p, rows'. split_and!; [|done..].
    apply run_logged_Ok. unfold data_science_model_catalog. eqb_reduce.
    rewrite (run_call_Ok _ _ _ _ _ _ _ Hmc). cbn [ostr from_option truthy].
    rewrite (run_call_Ok _ _ _ _ _ _ _ Hlist).
    rewrite (run_lift_Ok (iter _) items) by done.
    rewrite <-!app_assoc in *. cbn [app] in *. by rewrite Hrun.
Qed.

(** X8 at the mocks of [test_data_science_pipelines_list_details_delete]
    with the limit 1: of the pipelines pl1 and pl2 the listing returns
    pl1 only. *)
Lemma X8_listing_any_limit_witness :
  data_science_pipelines sdk_pipelines "list" (Some "c") None (Some 1) []
  = ([ECall "get_data_science_client" [] ∅;
      ECall "DataScienceClient.list_pipelines" [VObj "MagicMock" ∅]
        {[ "compartment_id" := VStr "c" ]}],
     Ok {[ "resource" := VStr "pipelines"; "action" := VStr "list";
           "result" := VList [VDict {[ "id" := VStr "pl1"; "name" := VStr "P1" ]}];
           "compartment_id" := VStr "c" ]}).
Proof.
  destruct (X8_listing_any_limit sdk_pipelines (Some 1)
              [namespace {[ "id" := VStr "pl1"; "display_name" := VStr "P1" ]};
               namespace {[ "id" := VStr "pl2"; "display_name" := VStr "P2" ]}]
              [VDict {[ "id" := VStr "pl1"; "name" := VStr "P1" ]};
               VDict {[ "id" := VStr "pl2"; "name" := VStr "P2" ]}] [])
    as (_ & _ & H & _).
  apply (H (Some "c") None (VObj "MagicMock" ∅)
           (namespace
              {[ "data" :=
                   VList [namespace {[ "id" := VStr "pl1"; "display_name" := VStr "P1" ]};
                          namespace {[ "id" := VStr "pl2"; "display_name" := VStr "P2" ]}] ]}));
    first [by apply present_Some|reflexivity].
Defined.

(** X9. [rows[:limit]] as the listings apply it.  For every limit the rows
    kept are a prefix of the rows, in their order, and all rows are kept
    when the limit is None or at least their number.  The limit is
    declared as an int of at least 1 in the schema of each tool; the body
    does not check it again, so that a call of the function itself with
    the limit 0 keeps no row, and with a negative limit -k keeps all rows
    but the last k (none when there are fewer). *)
Theorem X9_limit_edge_cases (limit : option Z) (rows : list value) :
  truncate limit rows `prefix_of` rows
  ∧ (limit = None → truncate limit rows = rows)
  ∧ (∀ n, limit = Some n → Z.of_nat (length rows) ≤ n →
          truncate limit rows = rows)
  ∧ (limit = Some 0 → truncate limit rows = [])
  ∧ (∀ k, limit = Some (- Z.of_nat k) → (0 < k)%nat →
          truncate limit rows = take (length rows - k) rows).
Proof.
  split_and!.
  - destruct limit as [n|]; [|done]. unfold truncate, slice_to.
    destruct (n <? 0); apply prefix_take.
  - by intros ->.
  - intros n -> Hn. unfold truncate. rewrite slice_to_take by lia.
    apply take_ge. lia.
  - by intros ->.
  - intros k -> Hk. unfold truncate, slice_to.
    destruct (Z.ltb_spec (- Z.of_nat k) 0); [|lia]. f_equal. lia.
Qed.

(** X9 at three rows: limit -1 keeps the first two, limit 5 keeps all. *)
Lemma X9_limit_edge_cases_witness :
  truncate (Some (-1)) [VInt 1; VInt 2; VInt 3] = [VInt 1; VInt 2]
  ∧ truncate (Some 5) [VInt 1; VInt 2; VInt 3] = [VInt 1; VInt 2; VInt 3].
Proof.
  split.
  - destruct (X9_limit_edge_cases (Some (-1)) [VInt 1; VInt 2; VInt 3])
      as (_ & _ & _ & _ & H). apply (H 1%nat eq_refl). lia.
  - destruct (X9_limit_edge_cases (Some 5) [VInt 1; VInt 2; VInt 3])
      as (_ & _ & H & _). apply (H 5 eq_refl). simpl. lia.
Defined.

(** ** Compartments by name *)

Lemma compartment_rows cs (nis : list (string * value)) :
  Forall2 (λ c ni, attr c "name" = Ok (VStr ni.1) ∧ attr c "id" = Ok ni.2)
    cs nis →
  mapM compartment_row cs = Ok (zip_with compartment_row_of cs nis).
Proof.
  induction 1 as [|c [n i] cs nis [Hn Hi] _ IH]; [done|].
  rewrite mapM_cons, (compartment_row_Ok c n i Hn Hi). simpl. by rewrite IH.
Qed.

Lemma by_name_of_rows cs (nis : list (string * value)) acc :
  length cs = length nis →
  by_name_of (zip_with compartment_row_of cs nis) acc
  = Ok (list_to_map (reverse nis) ∪ acc).
Proof.
  revert nis acc. induction cs as [|c cs IH]; intros [|[n i] nis] acc Hlen;
    try done.
  - simpl. by rewrite (left_id_L ∅ (∪)).
  - cbn [zip_with by_name_of compartment_row_of getitem fst snd].
    rewrite lookup_insert_eq. cbn [mbind result_bind].
    rewrite lookup_insert_ne by done. rewrite lookup_insert_eq.
    cbn [mbind result_bind]. rewrite IH by (simpl in Hlen; lia).
    f_equal. rewrite reverse_cons, list_to_map_app. simpl.
    rewrite insert_empty, <-(assoc_L (∪)). f_equal.
    by rewrite insert_union_singleton_l.
Qed.

Lemma by_name_last_wins (l1 l2 : list (string * value)) n i :
  n ∉ l2.*1 →
  (list_to_map (reverse (l1 ++ (n, i) :: l2)) : gmap string value) !! n = Some i.
Proof.
  intros Hn. rewrite reverse_app, reverse_cons, <-app_assoc, list_to_map_app.
  rewrite lookup_union_r.
  - simpl. apply lookup_insert_eq.
  - apply not_elem_of_list_to_map_1. by rewrite fmap_reverse, elem_of_reverse.
Qed.

(** X10. The compartments tool, with any action, when the configuration
    has a tenancy and the listing is answered with compartments that have
    a name (a str) and an id: the result holds one row per compartment, in
    the order of the answer, and by_name, which maps each name to the id
    of the last compartment of that name; of two compartments with the
    same name the earlier one is not reachable through by_name. *)
Theorem X10_compartments_by_name (sdk : Provider) (action : string)
    (config tenancy_id identity_client resp : value) (cs : list value)
    (nis : list (string * value)) (t : list event) :
  sdk "get_oci_config" [] ∅ = Ok config →
  getitem config "tenancy" = Ok tenancy_id →
  sdk "get_identity_client" [] ∅ = Ok identity_client →
  sdk "oci.pagination.list_call_get_all_results"
      [bound_method identity_client "list_compartments"; tenancy_id]
      {[ "compartment_id_in_subtree" := VBool true;
         "access_level" := VStr "ANY" ]} = Ok resp →
  attr resp "data" = Ok (VList cs) →
  Forall2 (λ c ni, attr c "name" = Ok (VStr ni.1) ∧ attr c "id" = Ok ni.2)
    cs nis →
  oci_ds_compartments sdk action t
  = ((t ++ [ECall "get_oci_config" [] ∅;
            ECall "get_identity_client" [] ∅;
            ECall "oci.pagination.list_call_get_all_results"
              [bound_method identity_client "list_compartments"; tenancy_id]
              {[ "compartment_id_in_subtree" := VBool true;
                 "access_level" := VStr "ANY" ]}])%list,
     Ok {[ "resource" := VStr "compartments"; "action" := VStr action;
           "result" :=
             VDict {[ "by_name" := VDict (list_to_map (reverse nis));
                      "compartments" :=
                        VList (zip_with compartment_row_of cs nis) ]} ]})
  ∧ ∀ l1 n i l2,
      nis = (l1 ++ (n, i) :: l2)%list → n ∉ l2.*1 →
      (list_to_map (reverse nis) : gmap string value) !! n = Some i.
Proof.
  intros Hconfig Htenancy Hclient Hlist Hdata Hcs. split.
  - unfold oci_ds_compartments. apply run_logged_Ok.
    rewrite (run_call_Ok _ _ _ _ _ _ _ Hconfig).
    rewrite (run_lift_Ok _ _ _ _ Htenancy).
    rewrite (run_call_Ok _ _ _ _ _ _ _ Hclient).
    rewrite (run_call_Ok _ _ _ _ _ _ _ Hlist).
    rewrite (run_lift_Ok _ _ _ _ Hdata).
    rewrite (run_lift_Ok (iter _) cs) by done.
    rewrite (run_lift_Ok _ _ _ _ (compartment_rows _ _ Hcs)).
    rewrite (run_lift_Ok _ _ _ _
               (by_name_of_rows _ _ ∅ (Forall2_length _ _ _ Hcs))).
    rewrite run_ok by apply no_collision_empty.
    rewrite (right_id_L ∅ (∪)). by rewrite <-!app_assoc.
  - intros l1 n i l2 -> Hn. by apply by_name_last_wins.
Qed.

(** X10 at a tenancy with two compartments named "dev": by_name holds the
    id of the second. *)
Lemma X10_compartments_by_name_witness :
  (list_to_map (reverse [("dev", VStr "ocid1.a"); ("dev", VStr "ocid1.b")])
     : gmap string value) !! "dev" = Some (VStr "ocid1.b").
Proof.
  refine (proj2 (X10_compartments_by_name sdk_twins "list"
                   (VDict {[ "tenancy" := VStr "ocid1.tenancy" ]})
                   (VStr "ocid1.tenancy") (VObj "MagicMock" ∅)
                   (response
                      (VList [namespace {[ "name" := VStr "dev"; "id" := VStr "ocid1.a" ]};
                              namespace {[ "name" := VStr "dev"; "id" := VStr "ocid1.b" ]}]))
                   [namespace {[ "name" := VStr "dev"; "id" := VStr "ocid1.a" ]};
                    namespace {[ "name" := VStr "dev"; "id" := VStr "ocid1.b" ]}]
                   [("dev", VStr "ocid1.a"); ("dev", VStr "ocid1.b")] []
                   eq_refl eq_refl eq_refl eq_refl eq_refl _)
            [("dev", VStr "ocid1.a")] "dev" (VStr "ocid1.b") [] eq_refl _).
  - by repeat constructor.
  - by intros []%elem_of_nil.
Defined.

(** ** Optional arguments *)

Lemma present_truthy o : present o → truthy (ostr o) = true.
Proof.
  intros H. destruct o as [[|a s]|]; [|done|].
  - exfalso. apply H. right. by exists "".
  - exfalso. apply H. by left.
Qed.

(** The keys of a map built by insertions are among the keys inserted. *)
Ltac keys_among :=
  let k := fresh "k" in let x := fresh "x" in let Hx := fresh "Hx" in
  intros k [x Hx];
  repeat (apply lookup_insert_Some in Hx as [[<- _]|[_ Hx]];
          [by repeat constructor|]);
  by rewrite lookup_empty in Hx.

(** X11. projects "update" with a project_id and at least one of new_name
    and new_description present: one update request is sent, with the
    project_id and, of display_name and description, exactly those whose
    new value is a str that is not empty, at least one of them and no
    other keyword.  A new_name of white space only is sent as the
    display_name when a new_description passes the validation. *)
Theorem X11_projects_update_kwargs (sdk : Provider) (c : string)
    (project_id project_name project_description new_name new_description
       : option string)
    (limit : option Z) (pc answer : value) (t : list event) :
  present project_id → present new_name ∨ present new_description →
  sdk "ProjectCatalog" [] {[ "compartment_id" := VStr c ]} = Ok pc →
  let kwargs := update_project_kwargs project_id new_name new_description in
  sdk "ProjectCatalog.update_project" [pc] kwargs = Ok answer →
  data_science_projects sdk "update" c project_id project_name
    project_description new_name new_description limit t
  = ((t ++ [ECall "ProjectCatalog" [] {[ "compartment_id" := VStr c ]};
            ECall "ProjectCatalog.update_project" [pc] kwargs])%list,
     Ok {[ "resource" := VStr "projects"; "action" := VStr "update";
           "result" := VDict {[ "project_id" := ostr project_id;
                                "updated" := VBool true ]};
           "compartment_id" := VStr c ]})
  ∧ kwargs !! "project_id" = Some (ostr project_id)
  ∧ kwargs !! "display_name"
    = (if truthy (ostr new_name) then Some (ostr new_name) else None)
  ∧ kwargs !! "description"
    = (if truthy (ostr new_description) then Some (ostr new_description)
       else None)
  ∧ (is_Some (kwargs !! "display_name") ∨ is_Some (kwargs !! "description"))
  ∧ ∀ k, is_Some (kwargs !! k) →
         k ∈ ["project_id"; "display_name"; "description"].
Proof.
  intros Hpid Hnew Hpc kwargs Hupdate. subst kwargs.
  assert (truthy (ostr new_name) = true ∨ truthy (ostr new_description) = true)
    as Htruthy by (destruct Hnew; [left|right]; by apply present_truthy).
  split.
  - unfold data_science_projects. apply run_logged_Ok.
    rewrite (run_call_Ok _ _ _ _ _ _ _ Hpc). eqb_reduce.
    rewrite run_require_Ok by done.
    rewrite (run_lift_Ok (_at_least_one _ _) ()).
    + cbv zeta. unfold update_project_kwargs in Hupdate.
      rewrite (run_call_Ok _ _ _ _ _ _ _ Hupdate).
      rewrite run_ok by (by apply no_collision_singleton).
      by rewrite <-!app_assoc.
    + apply at_least_one_Ok.
      destruct Hnew; [apply Exists_cons_hd|apply Exists_cons_tl, Exists_cons_hd];
        done.
  - clear Hupdate. unfold update_project_kwargs, set_if.
    destruct (truthy (ostr new_name)), (truthy (ostr new_description));
      (split_and!;
       [ apply lookup_insert_eq
       | rewrite ?lookup_insert_ne by done; first [apply lookup_insert_eq|done]
       | rewrite ?lookup_insert_ne by done; first [apply lookup_insert_eq|done]
       | destruct Htruthy; first [done|left; by eexists|right; by eexists]
       | keys_among ]).
Qed.

(** X11 with a new_name of white space and a new_description: both are
    sent. *)
Lemma X11_projects_update_kwargs_witness :
  ∃ t' payload,
    data_science_projects sdk_projects "update" "c" (Some "p1") None None
      (Some "  ") (Some "d2") None []
    = (t', Ok payload)
    ∧ update_project_kwargs (Some "p1") (Some "  ") (Some "d2") !! "display_name"
      = Some (VStr "  ").
Proof.
  destruct (X11_projects_update_kwargs sdk_projects "c" (Some "p1") None None
              (Some "  ") (Some "d2") None (VObj "MagicMock" ∅)
              (VObj "MagicMock" ∅) [])
    as (Hrun & _ & Hname & _);
    [by apply present_Some|right; by apply present_Some|reflexivity..|].
  eexists _, _. split; [exact Hrun|exact Hname].
Defined.

(** X12. notebook_sessions "create" with a shape that is not one of the
    two flexible shapes, and only one (or none) of ocpus and
    memory_in_gbs: the call is not refused; with the client obtained the
    create request is sent, and the details it carries hold no
    shape-config, so that the one value given is dropped without notice. *)
Theorem X12_notebook_shape_config_dropped (sdk : Provider)
    (compartment_id project_id notebook_session_id display_name : option string)
    (shape : string) (block_storage_size_in_gbs : Z)
    (subnet_id private_endpoint_id : option string)
    (ocpus memory_in_gbs : option Z) (ds_client : value) (t : list event) :
  present compartment_id → present project_id → present display_name →
  shape ∉ flex_shapes → ocpus = None ∨ memory_in_gbs = None →
  sdk "get_data_science_client" [] ∅ = Ok ds_client →
  let details := notebook_details compartment_id project_id display_name
                   shape block_storage_size_in_gbs subnet_id
                   private_endpoint_id ocpus memory_in_gbs in
  (∃ rest r,
     data_science_notebook_sessions sdk "create" compartment_id project_id
       notebook_session_id display_name shape block_storage_size_in_gbs
       subnet_id private_endpoint_id ocpus memory_in_gbs t
     = ((t ++ [ECall "get_data_science_client" [] ∅;
               ECall "DataScienceClient.create_notebook_session"
                 [ds_client; details] ∅] ++ rest)%list, r))
  ∧ shape_config_of details
    = Err (AttributeError
             "'NotebookSessionConfigDetails' object has no attribute 'notebook_session_shape_config_details'").
Proof.
  intros Hc Hp Hd Hshape Hnone Hclient details. subst details. split.
  - unfold data_science_notebook_sessions.
    match goal with
    | |- ∃ rest r, logged ?msg ?body t = ((t ++ [?a; ?b] ++ rest)%list, r) =>
        cut (∃ rest r,
               logged msg body t = ((((t ++ [a]) ++ [b]) ++ rest)%list, r))
    end.
    { intros (rest & r & ->). exists rest, r. by rewrite <-!app_assoc. }
    apply run_logged_prefix.
    rewrite (run_call_Ok _ _ _ _ _ _ _ Hclient). eqb_reduce.
    rewrite !run_require_Ok by done.
    rewrite bool_decide_eq_false_2 by done. cbn [andb].
    apply run_call_prefix. intros resp.
    apply extends_bind; [apply extends_lift|intros data].
    apply extends_bind; [apply extends_str|intros time_created].
    apply extends_lift.
  - unfold shape_config_of, notebook_details. cbn [attr].
    rewrite !lookup_insert_ne by done. rewrite lookup_singleton_eq.
    cbn [mbind result_bind attr]. unfold cfg_kwargs.
    assert (negb (is_None (oint ocpus)) && negb (is_None (oint memory_in_gbs))
            = false) as ->.
    { destruct Hnone as [-> | ->]; [done|by destruct ocpus]. }
    unfold set_if.
    by destruct (truthy (ostr private_endpoint_id)), (truthy (ostr subnet_id));
      rewrite ?lookup_insert_ne by done.
Qed.

(** X12 at the default shape with ocpus 4 and no memory_in_gbs. *)
Lemma X12_notebook_shape_config_dropped_witness :
  shape_config_of
    (notebook_details (Some "c") (Some "p") (Some "nb") "VM.Standard.E4.Flex.2"
       50 None None (Some 4) None)
  = Err (AttributeError
           "'NotebookSessionConfigDetails' object has no attribute 'notebook_session_shape_config_details'").
Proof.
  refine (proj2 (X12_notebook_shape_config_dropped sdk_empty (Some "c") (Some "p")
                   None (Some "nb") "VM.Standard.E4.Flex.2" 50 None None (Some 4)
                   None (VObj "Mock" ∅) [] _ _ _ _ _ _));
    first [by apply present_Some|by right|reflexivity|idtac].
  unfold flex_shapes. intros [H|H]%elem_of_union;
    by apply elem_of_singleton in H.
Defined.

(** ** Counts *)

(** X13. The two counts.  model_catalog "count" returns the number of
    models of the listing, requested without arguments: project_id and
    limit play no part in it.  projects "count" requests the listing,
    drops its answer, and returns the length the catalog itself reports
    afterwards. *)
Theorem X13_counts (sdk : Provider) (c : string) (limit : option Z)
    (t : list event) :
  (∀ pid mid td vs mc items,
     sdk "ModelCatalog" [] {[ "compartment_id" := VStr c ]} = Ok mc →
     sdk "ModelCatalog.list_models" [mc] ∅ = Ok (VList items) →
     data_science_model_catalog sdk "count" c pid mid td vs limit t
     = ((t ++ [ECall "ModelCatalog" [] {[ "compartment_id" := VStr c ]};
               ECall "ModelCatalog.list_models" [mc] ∅])%list,
        Ok {[ "resource" := VStr "model_catalog"; "action" := VStr "count";
              "result" := VInt (Z.of_nat (length items));
              "compartment_id" := VStr c ]}))
  ∧ (∀ pid pn pd nn nd cls attrs listing n,
       let pc := VObj cls attrs in
       sdk "ProjectCatalog" [] {[ "compartment_id" := VStr c ]} = Ok pc →
       sdk "ProjectCatalog.list_projects" [pc] ∅ = Ok listing →
       sdk "__len__" [pc] ∅ = Ok (VInt n) → 0 ≤ n →
       data_science_projects sdk "count" c pid pn pd nn nd limit t
       = ((t ++ [ECall "ProjectCatalog" [] {[ "compartment_id" := VStr c ]};
                 ECall "ProjectCatalog.list_projects" [pc] ∅;
                 ECall "__len__" [pc] ∅])%list,
          Ok {[ "resource" := VStr "projects"; "action" := VStr "count";
                "result" := VInt n; "compartment_id" := VStr c ]})).
Proof.
  split.
  - intros pid mid td vs mc items Hmc Hlist.
    unfold data_science_model_catalog. apply run_logged_Ok. eqb_reduce.
    rewrite (run_call_Ok _ _ _ _ _ _ _ Hmc).
    rewrite (run_call_Ok _ _ _ _ _ _ _ Hlist).
    cbn [len]. rewrite (run_bind_Ok _ _ _ _ (VInt (Z.of_nat (length items))))
      by done.
    rewrite run_ok by (by apply no_collision_singleton).
    by rewrite <-!app_assoc.
  - intros pid pn pd nn nd cls attrs listing n pc Hpc Hlist Hlen Hn.
    unfold data_science_projects. apply run_logged_Ok.
    rewrite (run_call_Ok _ _ _ _ _ _ _ Hpc). eqb_reduce.
    rewrite (run_call_Ok _ _ _ _ _ _ _ Hlist).
    subst pc. cbn [len]. rewrite run_bind_assoc.
    rewrite (run_call_Ok _ _ _ _ _ _ _ Hlen).
    destruct (Z.ltb_spec n 0); [lia|].
    rewrite (run_bind_Ok _ _ _ _ (VInt n)) by done.
    rewrite run_ok by (by apply no_collision_singleton).
    by rewrite <-!app_assoc.
Qed.

(** X13 at the three models of the sample provider, with a project_id and
    the limit 1: the count is 3. *)
Lemma X13_counts_witness :
  data_science_model_catalog sdk_canonical "count" "c" (Some "p") None None
    None (Some 1) []
  = ([ECall "ModelCatalog" [] {[ "compartment_id" := VStr "c" ]};
      ECall "ModelCatalog.list_models" [entity] ∅],
     Ok {[ "resource" := VStr "model_catalog"; "action" := VStr "count";
           "result" := VInt 3; "compartment_id" := VStr "c" ]}).
Proof.
  exact (proj1 (X13_counts sdk_canonical "c" (Some 1) []) (Some "p") None None
           None entity three_entities eq_refl eq_refl).
Defined.

(** ** The name of the user agent *)

Lemma substring_all s : String.substring 0 (String.length s) s = s.
Proof. induction s; simpl; congruence. Qed.

Lemma string_app_empty s : "" +:+ s = s.
Proof. done. Qed.

Lemma string_app_cons a s1 s2 : String a s1 +:+ s2 = String a (s1 +:+ s2).
Proof. done. Qed.

Lemma prefix_app sep post : String.prefix sep (sep +:+ post) = true.
Proof.
  induction sep as [|a sep IH]; [by destruct post|].
  rewrite string_app_cons. simpl. by destruct (Ascii.ascii_dec a a).
Qed.

Lemma prefix_split sep s :
  String.prefix sep s = true →
  s = sep +:+ String.substring (String.length sep)
                (String.length s - String.length sep) s.
Proof.
  revert s. induction sep as [|a sep IH]; intros s H.
  - simpl. by rewrite Nat.sub_0_r, substring_all.
  - destruct s as [|b s]; [done|]. simpl in H.
    destruct (Ascii.ascii_dec a b) as [->|]; [|done].
    rewrite string_app_cons. simpl. f_equal. by apply IH.
Qed.

Lemma split_once_eq sep s :
  split_once sep s
  = if String.prefix sep s
    then Some ("", String.substring (String.length sep)
                     (String.length s - String.length sep) s)
    else match s with
         | "" => None
         | String c s' =>
             match split_once sep s' with
             | Some (before, after) => Some (String c before, after)
             | None => None
             end
         end.
Proof. by destruct s. Qed.

Lemma split_once_Some sep s before after :
  split_once sep s = Some (before, after) → splits_at sep s before after.
Proof.
  revert before. induction s as [|c s IH]; intros before;
    rewrite split_once_eq; destruct (String.prefix sep _) eqn:E; try done.
  - intros [= <- <-]. split; [by apply prefix_split in E|simpl; lia].
  - intros [= <- <-]. split; [by apply prefix_split in E|simpl; lia].
  - destruct (split_once sep s) as [[b a]|]; [|done].
    intros [= <- <-]. destruct (IH b eq_refl) as [-> Hfirst].
    split; [done|]. intros [|c' pre'] post' H.
    + rewrite string_app_empty in H. by rewrite H, prefix_app in E.
    + rewrite !string_app_cons in H. injection H as -> H. simpl.
      apply Hfirst in H. lia.
Qed.

Lemma split_once_None sep s : split_once sep s = None → ¬ occurs sep s.
Proof.
  induction s as [|c s IH]; rewrite split_once_eq;
    destruct (String.prefix sep _) eqn:E; try done.
  - intros _ ([|c' pre] & post & H); [|done].
    rewrite string_app_empty in H. by rewrite H, prefix_app in E.
  - destruct (split_once sep s) as [[b a]|]; [done|].
    intros _ ([|c' pre] & post & H).
    + rewrite string_app_empty in H. by rewrite H, prefix_app in E.
    + rewrite string_app_cons in H. injection H as -> H. apply IH; [done|].
      by exists pre, post.
Qed.

Lemma split_once_occurs sep s :
  occurs sep s → ∃ before after, split_once sep s = Some (before, after).
Proof.
  intros H. destruct (split_once sep s) as [[b a]|] eqn:E; [by eexists _, _|].
  by apply split_once_None in E.
Qed.

(** X14. [_user_agent_name] returns exactly when "oracle." occurs in the
    name of the project, and raises IndexError otherwise.  What it
    returns is the text after the first "oracle." of the name, up to the
    first "-server" of that text when there is one, all of it when there
    is none. *)
Theorem X14_user_agent_name (__project__ : string) :
  (¬ occurs "oracle." __project__ →
   _user_agent_name __project__ = Err (IndexError "list index out of range"))
  ∧ (occurs "oracle." __project__ →
     ∃ name, _user_agent_name __project__ = Ok name)
  ∧ (∀ name,
       _user_agent_name __project__ = Ok name →
       ∃ pre after,
         splits_at "oracle." __project__ pre after
         ∧ ((name = after ∧ ¬ occurs "-server" after)
            ∨ ∃ post, splits_at "-server" after name post)).
Proof.
  unfold _user_agent_name, split1. split_and!.
  - intros Hno. destruct (split_once "oracle." __project__) as [[b a]|] eqn:E;
      [|done].
    destruct Hno. apply split_once_Some in E as [-> _]. by exists b, a.
  - intros (b & a & ->)%split_once_occurs. cbn [index lookup list_lookup].
    cbn [mbind result_bind].
    destruct (split_once "-server" a) as [[b' a']|]; by eexists.
  - intros name.
    destruct (split_once "oracle." __project__) as [[b a]|] eqn:E; [|done].
    cbn [index lookup list_lookup mbind result_bind].
    apply split_once_Some in E. exists b, a. split; [done|].
    destruct (split_once "-server" a) as [[b' a']|] eqn:E'.
    + injection H as <-. right. exists a'. by apply split_once_Some.
    + injection H as <-. left. split; [done|]. by apply split_once_None.
Qed.

(** X14 at the name "oracle.oci-data-science-mcp-server". *)
Lemma X14_user_agent_name_witness :
  ∃ pre after,
    splits_at "oracle." "oracle.oci-data-science-mcp-server" pre after
    ∧ (("oci-data-science-mcp" = after ∧ ¬ occurs "-server" after)
       ∨ ∃ post, splits_at "-server" after "oci-data-science-mcp" post).
Proof.
  exact (proj2 (proj2 (X14_user_agent_name "oracle.oci-data-science-mcp-server"))
           "oci-data-science-mcp" eq_refl).
Defined.

(** ** Configuration and clients *)

Section Config.
Variables (__project__ __version__ : string) (DEFAULT_PROFILE : value).
Variable sdk : Provider.

#[local] Abbreviation getenv :=
  (ECall "os.getenv" [VStr "OCI_CONFIG_PROFILE"; DEFAULT_PROFILE] ∅).
#[local] Abbreviation failed :=
  (ELog "ERROR"
     "Failed to load OCI Config. Ensure your API Key is setup correctly" []).

Lemma config_not_loaded profile e t :
  sdk "os.getenv" [VStr "OCI_CONFIG_PROFILE"; DEFAULT_PROFILE] ∅ = Ok profile →
  sdk "oci.config.from_file" [] {[ "profile_name" := profile ]} = Err e →
  ∃ e',
    get_oci_config __project__ __version__ DEFAULT_PROFILE sdk t
    = ((t ++ [getenv;
              ECall "oci.config.from_file" [] {[ "profile_name" := profile ]};
              failed])%list, Err e')
    ∧ exc_class e' = "UnboundLocalError".
Proof.
  intros Hprofile Hfile.
  exists (Exc "UnboundLocalError"
            "cannot access local variable 'config' where it is not associated with a value").
  split; [|reflexivity]. unfold get_oci_config. cbv zeta. unfold mbind at 1, M_bind at 1.
  rewrite (run_try_except_Err _ _ _
             ((t ++ [getenv])
                ++ [ECall "oci.config.from_file" [] {[ "profile_name" := profile ]}])%list
             e).
  - unfold mbind, M_bind, log, mret, M_ret, raise. by rewrite <-!app_assoc.
  - rewrite (run_call_Ok _ _ _ _ _ _ _ Hprofile).
    by rewrite (run_call_Err _ _ _ _ _ _ _ Hfile).
Qed.

Lemma config_loaded profile kv name t :
  sdk "os.getenv" [VStr "OCI_CONFIG_PROFILE"; DEFAULT_PROFILE] ∅ = Ok profile →
  sdk "oci.config.from_file" [] {[ "profile_name" := profile ]} = Ok (VDict kv) →
  _user_agent_name __project__ = Ok name →
  get_oci_config __project__ __version__ DEFAULT_PROFILE sdk t
  = ((t ++ [getenv;
            ECall "oci.config.from_file" [] {[ "profile_name" := profile ]}])%list,
     Ok (VDict (<["additional_user_agent" := VStr (name +:+ "/" +:+ __version__)]>
                  kv))).
Proof.
  intros Hprofile Hfile Hname. unfold get_oci_config. cbv zeta.
  rewrite (run_bind_Ok _ _ _
             (t ++ [getenv;
                    ECall "oci.config.from_file" []
                      {[ "profile_name" := profile ]}])%list
             (Some (VDict (<["additional_user_agent" :=
                               VStr (name +:+ "/" +:+ __version__)]> kv))));
    [done|].
  apply run_try_except_Ok.
  rewrite (run_call_Ok _ _ _ _ _ _ _ Hprofile).
  rewrite (run_call_Ok _ _ _ _ _ _ _ Hfile).
  apply run_try_except_Ok. rewrite (run_lift_Ok _ _ _ _ Hname).
  cbn [setitem]. rewrite (run_lift_Ok _ _ _ _ eq_refl).
  unfold mret, M_ret. by rewrite <-app_assoc.
Qed.

Lemma config_left_alone profile config e t :
  sdk "os.getenv" [VStr "OCI_CONFIG_PROFILE"; DEFAULT_PROFILE] ∅ = Ok profile →
  sdk "oci.config.from_file" [] {[ "profile_name" := profile ]} = Ok config →
  (name ← _user_agent_name __project__;
   setitem config "additional_user_agent" (VStr (name +:+ "/" +:+ __version__)))
  = Err e →
  get_oci_config __project__ __version__ DEFAULT_PROFILE sdk t
  = ((t ++ [getenv;
            ECall "oci.config.from_file" [] {[ "profile_name" := profile ]};
            failed])%list,
     Ok config).
Proof.
  intros Hprofile Hfile Hset. unfold get_oci_config. cbv zeta.
  rewrite (run_bind_Ok _ _ _
             (t ++ [getenv;
                    ECall "oci.config.from_file" []
                      {[ "profile_name" := profile ]}; failed])%list
             (Some config)); [done|].
  apply run_try_except_Ok.
  rewrite (run_call_Ok _ _ _ _ _ _ _ Hprofile).
  rewrite (run_call_Ok _ _ _ _ _ _ _ Hfile).
  rewrite (run_try_except_Err _ _ _
             ((t ++ [getenv])
                ++ [ECall "oci.config.from_file" [] {[ "profile_name" := profile ]}])%list
             e).
  - unfold mbind, M_bind, log, mret, M_ret. by rewrite <-!app_assoc.
  - destruct (_user_agent_name __project__) as [name|e'] eqn:Hname;
      cbn [mbind result_bind] in Hset.
    + rewrite (run_lift_Ok _ _ _ _ eq_refl).
      by rewrite (run_lift_Err _ _ _ _ Hset).
    + injection Hset as ->. by rewrite (run_lift_Err _ _ _ _ eq_refl).
Qed.

End Config.

(** X15. When the profile is read but [oci.config.from_file] raises an
    exception of a built-in class derived from Exception, which the
    [except Exception] of [get_oci_config] catches, [get_oci_config] logs
    one error record and then raises an UnboundLocalError of its own: the
    exception of the SDK does not reach the caller.
    [get_identity_client] and [get_data_science_client] raise the same
    way, and request no client. *)
Theorem X15_config_failure_is_masked (__project__ __version__ : string)
    (DEFAULT_PROFILE : value) (sdk : Provider) (profile : value) (e : exc)
    (t : list event) :
  sdk "os.getenv" [VStr "OCI_CONFIG_PROFILE"; DEFAULT_PROFILE] ∅ = Ok profile →
  sdk "oci.config.from_file" [] {[ "profile_name" := profile ]} = Err e →
  is_Exception e = true →
  ∃ e',
    exc_class e' = "UnboundLocalError"
    ∧ let t' := (t ++ [ECall "os.getenv"
                         [VStr "OCI_CONFIG_PROFILE"; DEFAULT_PROFILE] ∅;
                       ECall "oci.config.from_file" []
                         {[ "profile_name" := profile ]};
                       ELog "ERROR"
                         "Failed to load OCI Config. Ensure your API Key is setup correctly"
                         []])%list in
      get_oci_config __project__ __version__ DEFAULT_PROFILE sdk t
      = (t', Err e')
      ∧ get_identity_client __project__ __version__ DEFAULT_PROFILE sdk t
        = (t', Err e')
      ∧ get_data_science_client __project__ __version__ DEFAULT_PROFILE sdk t
        = (t', Err e').
Proof.
  intros Hprofile Hfile _.
  destruct (config_not_loaded __project__ __version__ DEFAULT_PROFILE sdk
              profile e t Hprofile Hfile) as (e' & Hrun & Hclass).
  exists e'. split; [done|]. cbv zeta. split_and!; [done|..];
    unfold get_identity_client, get_data_science_client, mbind, M_bind;
    by rewrite Hrun.
Qed.

(** X16. When the profile is read and [oci.config.from_file] returns a
    dict, and the name of the project holds "oracle." so that the name of
    the user agent is defined, [get_oci_config] returns that dict with the
    key additional_user_agent set to "<name>/<version>" and every other
    key as it was, and logs nothing; each client is requested with this
    config as its one argument.  When the name is not defined, or what
    [from_file] returned takes no item assignment, the config is returned
    as it was, after one error record. *)
Theorem X16_config_user_agent (__project__ __version__ : string)
    (DEFAULT_PROFILE : value) (sdk : Provider) (profile : value)
    (t : list event) :
  sdk "os.getenv" [VStr "OCI_CONFIG_PROFILE"; DEFAULT_PROFILE] ∅ = Ok profile →
  let loaded := (t ++ [ECall "os.getenv"
                         [VStr "OCI_CONFIG_PROFILE"; DEFAULT_PROFILE] ∅;
                       ECall "oci.config.from_file" []
                         {[ "profile_name" := profile ]}])%list in
  (∀ kv name,
     sdk "oci.config.from_file" [] {[ "profile_name" := profile ]}
     = Ok (VDict kv) →
     _user_agent_name __project__ = Ok name →
     let config :=
       VDict (<["additional_user_agent" := VStr (name +:+ "/" +:+ __version__)]>
                kv) in
     get_oci_config __project__ __version__ DEFAULT_PROFILE sdk t
     = (loaded, Ok config)
     ∧ getitem config "additional_user_agent"
       = Ok (VStr (name +:+ "/" +:+ __version__))
     ∧ (∀ k, k ≠ "additional_user_agent" →
             getitem config k = getitem (VDict kv) k)
     ∧ get_identity_client __project__ __version__ DEFAULT_PROFILE sdk t
       = ((loaded ++ [ECall "oci.identity.IdentityClient" [config] ∅])%list,
          sdk "oci.identity.IdentityClient" [config] ∅)
     ∧ get_data_science_client __project__ __version__ DEFAULT_PROFILE sdk t
       = ((loaded ++ [ECall "oci.data_science.DataScienceClient" [config] ∅])%list,
          sdk "oci.data_science.DataScienceClient" [config] ∅))
  ∧ (∀ config e,
       sdk "oci.config.from_file" [] {[ "profile_name" := profile ]}
       = Ok config →
       (name ← _user_agent_name __project__;
        setitem config "additional_user_agent"
          (VStr (name +:+ "/" +:+ __version__))) = Err e →
       get_oci_config __project__ __version__ DEFAULT_PROFILE sdk t
       = ((loaded
             ++ [ELog "ERROR"
                   "Failed to load OCI Config. Ensure your API Key is setup correctly"
                   []])%list,
          Ok config)).
Proof.
  intros Hprofile loaded. subst loaded. split.
  - intros kv name Hfile Hname config.
    pose proof (config_loaded __project__ __version__ DEFAULT_PROFILE sdk
                  profile kv name t Hprofile Hfile Hname) as Hrun.
    split_and!; [done|..].
    + subst config. cbn [getitem]. by rewrite lookup_insert_eq.
    + intros k Hk. subst config. cbn [getitem].
      by rewrite lookup_insert_ne.
    + unfold get_identity_client, mbind, M_bind. by rewrite Hrun.
    + unfold get_data_science_client, mbind, M_bind. by rewrite Hrun.
  - intros config e Hfile Hset.
    rewrite (config_left_alone __project__ __version__ DEFAULT_PROFILE sdk
               profile config e t Hprofile Hfile Hset).
    by rewrite <-app_assoc.
Qed.

(** X15 in an environment whose configuration file cannot be read. *)
Lemma X15_config_failure_is_masked_witness :
  ∃ t' e',
    exc_class e' = "UnboundLocalError"
    ∧ get_data_science_client "oracle.oci-data-science-mcp-server" "1.0"
        (VStr "DEFAULT") sdk_no_config [] = (t', Err e').
Proof.
  destruct (X15_config_failure_is_masked "oracle.oci-data-science-mcp-server"
              "1.0" (VStr "DEFAULT") sdk_no_config (VStr "DEFAULT")
              (Exc "PermissionError" "[Errno 13] Permission denied: '/root/.oci/config'")
              [] eq_refl eq_refl eq_refl) as (e' & Hclass & _ & _ & Hrun).
  by eexists _, e'.
Defined.

(** X16 for the project "oracle.oci-data-science-mcp-server", version
    1.0: the user agent is "oci-data-science-mcp/1.0", and the tenancy is
    kept. *)
Lemma X16_config_user_agent_witness :
  get_oci_config "oracle.oci-data-science-mcp-server" "1.0" (VStr "DEFAULT")
    sdk_config []
  = ([ECall "os.getenv" [VStr "OCI_CONFIG_PROFILE"; VStr "DEFAULT"] ∅;
      ECall "oci.config.from_file" [] {[ "profile_name" := VStr "DEFAULT" ]}],
     Ok (VDict {[ "additional_user_agent" := VStr "oci-data-science-mcp/1.0";
                  "tenancy" := VStr "ocid1.tenancy" ]})).
Proof.
  exact (proj1 (proj1 (X16_config_user_agent "oracle.oci-data-science-mcp-server"
                         "1.0" (VStr "DEFAULT") sdk_config (VStr "DEFAULT") []
                         eq_refl)
                  {[ "tenancy" := VStr "ocid1.tenancy" ]} "oci-data-science-mcp"
                  eq_refl eq_refl)).
Defined.

(** ** Failures of the provider, with the helpers *)

(** X6. The tools with their helpers, outside the two branches that catch
    (model_catalog "download", and "list_models" with a project_id): when
    a request the body of the tool sent, to the SDK or to one of the
    helpers [get_oci_config], [get_identity_client] and
    [get_data_science_client], was answered with an exception, the tool
    raises exactly that exception, class and message, and returns no
    payload.  The one failure of the SDK that does not come through is
    inside the helper: when [oci.config.from_file] raises an exception
    that [get_oci_config] catches, a tool that starts by obtaining the
    client raises the UnboundLocalError of the helper instead. *)
Theorem X6_provider_failure_propagates (__project__ __version__ : string)
    (DEFAULT_PROFILE : value) (sdk : Provider) (c : tool_call) :
  ¬ swallows c →
  let program := with_helpers __project__ __version__ DEFAULT_PROFILE sdk in
  propagates program (invoke program c)
  ∧ (∀ profile e t,
       starts_with_client c →
       sdk "os.getenv" [VStr "OCI_CONFIG_PROFILE"; DEFAULT_PROFILE] ∅
       = Ok profile →
       sdk "oci.config.from_file" [] {[ "profile_name" := profile ]} = Err e →
       is_Exception e = true →
       ∃ t' e',
         invoke program c t = (t', Err e')
         ∧ exc_class e' = "UnboundLocalError").
Proof.
  intros Hsw program. split; [by apply invoke_propagates|].
  intros profile e t Hc Hprofile Hfile _.
  destruct (config_not_loaded __project__ __version__ DEFAULT_PROFILE sdk
              profile e [] Hprofile Hfile) as (e' & Hrun & Hclass).
  assert (program "get_data_science_client" [] ∅ = Err e') as Hclient.
  { subst program. unfold with_helpers. eqb_reduce.
    unfold get_data_science_client, mbind, M_bind. by rewrite Hrun. }
  exists (t ++ [ECall "get_data_science_client" [] ∅]
            ++ [ELog "ERROR" (match c with
                              | JobRuns _ _ _ _ _ _ _ =>
                                  "Error in data_science_job_runs"
                              | NotebookSessions _ _ _ _ _ _ _ _ _ _ _ =>
                                  "Error in data_science_notebook_sessions"
                              | Pipelines _ _ _ _ =>
                                  "Error in data_science_pipelines"
                              | _ => "Error in data_science_model_deployments"
                              end) []])%list, e'.
  split; [|done]. rewrite app_assoc.
  destruct c; try done; cbn [invoke];
    unfold data_science_job_runs, data_science_notebook_sessions,
      data_science_pipelines, data_science_model_deployments;
    apply run_logged_Err; by apply run_call_Err.
Qed.

(** X6 at the creation of a project: the provider refuses it with a
    ServiceError, and that is what the tool raises; and at the listing of
    the job runs when the configuration file cannot be read: the tool
    raises the UnboundLocalError of the helper. *)
Lemma X6_provider_failure_propagates_witness :
  (∃ t', invoke (with_helpers "oracle.oci-data-science-mcp-server" "1.0"
                   (VStr "DEFAULT") sdk_create_refused)
           (Projects "create" "c" None (Some "MyProj") None None None None) []
         = (t', Err (Exc "ServiceError" "NotAuthorizedOrNotFound")))
  ∧ (∃ t' e',
       invoke (with_helpers "oracle.oci-data-science-mcp-server" "1.0"
                 (VStr "DEFAULT") sdk_no_config)
         (JobRuns "list" (Some "c") None None None None None) []
       = (t', Err e')
       ∧ exc_class e' = "UnboundLocalError").
Proof.
  split.
  - set (program := with_helpers "oracle.oci-data-science-mcp-server" "1.0"
                      (VStr "DEFAULT") sdk_create_refused).
    destruct (invoke program
                (Projects "create" "c" None (Some "MyProj") None None None None)
                []) as [t' r] eqn:E.
    destruct (proj1 (X6_provider_failure_propagates
                       "oracle.oci-data-science-mcp-server" "1.0"
                       (VStr "DEFAULT") sdk_create_refused
                       (Projects "create" "c" None (Some "MyProj") None None
                          None None)
                       (λ H, H)) [] t' r E) as (rest & -> & H).
    exists rest. f_equal. apply H.
    exists "ProjectCatalog.create_project", [VObj "MagicMock" ∅],
      {[ "display_name" := VStr "MyProj"; "description" := VNone;
         "compartment_id" := VStr "c" ]}.
    split; [|reflexivity].
    vm_compute in E. injection E as <- _. repeat constructor.
  - exact (proj2 (X6_provider_failure_propagates
                    "oracle.oci-data-science-mcp-server" "1.0" (VStr "DEFAULT")
                    sdk_no_config
                    (JobRuns "list" (Some "c") None None None None None)
                    (λ H, H))
             (VStr "DEFAULT")
             (Exc "PermissionError"
                "[Errno 13] Permission denied: '/root/.oci/config'")
             [] I eq_refl eq_refl eq_refl).
Defined.

(** ** The file listing *)

Lemma bind_Ok_inv {A B} (m : M A) (k : A → M B) t t' b :
  (m ≫= k) t = (t', Ok b) → ∃ t1 a, m t = (t1, Ok a) ∧ k a t1 = (t', Ok b).
Proof.
  unfold mbind, M_bind. destruct (m t) as [t1 [a|e]]; [|done].
  intros H. by exists t1, a.
Qed.

Lemma str_Ok_inv sdk v t t' r : str sdk v t = (t', Ok r) → ∃ s, r = VStr s.
Proof.
  assert ((r ← call sdk "__str__" [v] ∅;
           match r with
           | VStr s => mret (VStr s)
           | _ => raise (TypeError "__str__ returned non-string")
           end) t = (t', Ok r) → ∃ s, r = VStr s) as Hcall.
  { intros (t1 & [] & _ & H)%bind_Ok_inv; try done.
    injection H as _ <-. by eexists. }
  destruct v; try exact Hcall. intros [= _ <-]. by eexists.
Qed.

Lemma walk_cons sdk limit base p entries results :
  Files.walk sdk limit base (p :: entries) results
  = if limit <=? Z.of_nat (length results) then mret results
    else
      is_file ← call sdk "Path.is_file" [p] ∅;
      if truthy is_file then
        size ← Files.size_of sdk p;
        relative ← call sdk "Path.relative_to" [p; base] ∅;
        path ← str sdk relative;
        Files.walk sdk limit base entries
          (results ++ [VDict {[ "path" := path; "bytes" := size ]}])%list
      else Files.walk sdk limit base entries results.
Proof. done. Qed.

Lemma walk_bound sdk limit base entries results t t' rs :
  Files.walk sdk limit base entries results t = (t', Ok rs) →
  Forall is_file_record results →
  (length results ≤ Z.to_nat limit)%nat →
  Forall is_file_record rs ∧ (length rs ≤ Z.to_nat limit)%nat.
Proof.
  revert results t. induction entries as [|p entries IH]; intros results t.
  - by intros [= _ <-].
  - rewrite walk_cons. destruct (Z.leb_spec limit (Z.of_nat (length results))).
    { by intros [= _ <-]. }
    intros (t1 & is_file & _ & Hk)%bind_Ok_inv Hrec Hlen.
    destruct (truthy is_file); [|by eapply IH].
    apply bind_Ok_inv in Hk as (t2 & size & _ & Hk).
    apply bind_Ok_inv in Hk as (t3 & relative & _ & Hk).
    apply bind_Ok_inv in Hk as (t4 & path & [s ->]%str_Ok_inv & Hk).
    eapply IH; [exact Hk|..].
    + apply Forall_app. split; [done|]. repeat constructor. by exists s, size.
    + rewrite length_app. simpl. lia.
Qed.

(** X17. [_list_files_recursive], whatever the file system answers.  When
    the path does not exist it returns the empty list, having asked for
    nothing but the path and its existence.  Whenever it returns, it
    returns a list of at most [limit] records (none for a limit of zero or
    less), each a dict with exactly the keys path, a str, and bytes. *)
Theorem X17_file_listing_is_bounded (sdk : Provider) (base_dir : value)
    (limit : Z) (t : list event) :
  (∀ base exists_,
     sdk "Path" [base_dir] ∅ = Ok base →
     sdk "Path.exists" [base] ∅ = Ok exists_ → truthy exists_ = false →
     Files._list_files_recursive sdk base_dir limit t
     = ((t ++ [ECall "Path" [base_dir] ∅; ECall "Path.exists" [base] ∅])%list,
        Ok (VList [])))
  ∧ (∀ t' v,
       Files._list_files_recursive sdk base_dir limit t = (t', Ok v) →
       ∃ records,
         v = VList records
         ∧ (length records ≤ Z.to_nat limit)%nat
         ∧ Forall is_file_record records).
Proof.
  unfold Files._list_files_recursive. split.
  - intros base exists_ Hbase Hexists Hfalsy.
    rewrite (run_call_Ok _ _ _ _ _ _ _ Hbase).
    rewrite (run_call_Ok _ _ _ _ _ _ _ Hexists). rewrite Hfalsy.
    by rewrite <-app_assoc.
  - intros t' v (t1 & base & _ & H)%bind_Ok_inv.
    apply bind_Ok_inv in H as (t2 & exists_ & _ & H).
    destruct (negb (truthy exists_)).
    { injection H as _ <-. exists []. split_and!; [done|simpl; lia|done]. }
    apply bind_Ok_inv in H as (t3 & found & _ & H).
    apply bind_Ok_inv in H as (t4 & entries & _ & H).
    apply bind_Ok_inv in H as (t5 & records & Hwalk & H).
    injection H as _ <-. exists records.
    destruct (walk_bound _ _ _ _ _ _ _ _ Hwalk) as [Hrec Hlen];
      [done|simpl; lia|done].
Qed.

(** X17 at the sample directory with the limit 1: one record. *)
Lemma X17_file_listing_is_bounded_witness :
  ∃ records,
    (Files._list_files_recursive sdk_files (VStr "/tmp/m1") 1 []).2
    = Ok (VList records)
    ∧ (length records ≤ 1)%nat ∧ Forall is_file_record records.
Proof.
  destruct (Files._list_files_recursive sdk_files (VStr "/tmp/m1") 1 [])
    as [t' r] eqn:E.
  assert (∃ v, r = Ok v) as [v ->].
  { vm_compute in E. injection E as _ <-. by eexists. }
  destruct (proj2 (X17_file_listing_is_bounded sdk_files (VStr "/tmp/m1") 1 [])
              t' v E) as (records & -> & Hlen & Hrec).
  by exists records.
Defined.

Lemma size_of_answers sdk p size t :
  (∃ st, sdk "Path.stat" [p] ∅ = Ok st ∧ attr st "st_size" = Ok size)
  ∨ (∃ e, sdk "Path.stat" [p] ∅ = Err e ∧ is_OSError e = true ∧ size = VNone) →
  Files.size_of sdk p t = ((t ++ [ECall "Path.stat" [p] ∅])%list, Ok size).
Proof.
  unfold Files.size_of.
  intros [(st & Hst & Hsize)|(e & Hst & He & ->)].
  - apply run_try_except_Ok. rewrite (run_call_Ok _ _ _ _ _ _ _ Hst).
    unfold lift. by rewrite Hsize.
  - rewrite (run_try_except_Err _ _ _ (t ++ [ECall "Path.stat" [p] ∅])%list e).
    + by rewrite He.
    + by apply run_call_Err.
Qed.

Lemma walk_answers sdk limit base entries infos :
  Forall2 (entry_answers sdk base) entries infos →
  ∀ results t, ∃ t',
    Files.walk sdk limit base entries results t
    = (t', Ok (results
                 ++ take (Z.to_nat limit - length results)
                      (omap record_of infos))%list).
Proof.
  induction 1 as [|p [[file path] size] entries infos Hp _ IH];
    intros results t.
  - exists t. simpl. by rewrite take_nil, app_nil_r.
  - rewrite walk_cons. destruct (Z.leb_spec limit (Z.of_nat (length results))).
    { exists t. replace (Z.to_nat limit - length results)%nat with 0%nat by lia.
      by rewrite take_0, app_nil_r. }
    destruct Hp as [(is_file & His & Hfile) Hinfo].
    rewrite (run_call_Ok _ _ _ _ _ _ _ His). rewrite Hfile.
    destruct file; [|apply IH].
    destruct (Hinfo eq_refl) as [(relative & Hrel & Hstr) Hstat].
    rewrite (run_bind_Ok _ _ _ _ _ (size_of_answers _ _ _ _ Hstat)).
    rewrite (run_call_Ok _ _ _ _ _ _ _ Hrel).
    destruct (Hstr (((t ++ [ECall "Path.is_file" [p] ∅])
                       ++ [ECall "Path.stat" [p] ∅])
                      ++ [ECall "Path.relative_to" [p; base] ∅])%list)
      as [t1 Hpath].
    rewrite (run_bind_Ok _ _ _ _ _ Hpath).
    destruct (IH (results ++ [file_record path size])%list t1) as [t' Hwalk].
    exists t'. unfold file_record in Hwalk. rewrite Hwalk. do 2 f_equal.
    rewrite <-app_assoc. f_equal. rewrite length_app. cbn [omap list_omap record_of].
    replace (Z.to_nat limit - length results)%nat
      with (S (Z.to_nat limit - (length results + length [file_record path size])))%nat
      by (simpl; lia).
    done.
Qed.

(** X18. [_list_files_recursive] on a path that exists, when the file
    system answers for each entry of the walk whether it is a regular
    file and, for a regular file, its relative path and its size or an
    OSError: the result is the records of the regular files among the
    entries, in the order of the walk, cut after the first [limit] of
    them; what is not a regular file gives no record, and a file whose
    size cannot be read has the bytes None. *)
Theorem X18_file_listing (sdk : Provider) (base_dir : value) (limit : Z)
    (base exists_ found : value) (entries : list value)
    (infos : list (bool * string * value)) (t : list event) :
  sdk "Path" [base_dir] ∅ = Ok base →
  sdk "Path.exists" [base] ∅ = Ok exists_ → truthy exists_ = true →
  sdk "Path.rglob" [base; VStr "*"] ∅ = Ok found →
  iter found = Ok entries →
  Forall2 (entry_answers sdk base) entries infos →
  ∃ t',
    Files._list_files_recursive sdk base_dir limit t
    = (t', Ok (VList (take (Z.to_nat limit) (omap record_of infos)))).
Proof.
  intros Hbase Hexists Htruthy Hfound Hentries Hinfos.
  unfold Files._list_files_recursive.
  rewrite (run_call_Ok _ _ _ _ _ _ _ Hbase).
  rewrite (run_call_Ok _ _ _ _ _ _ _ Hexists). rewrite Htruthy. cbn [negb].
  rewrite (run_call_Ok _ _ _ _ _ _ _ Hfound).
  rewrite (run_lift_Ok _ _ _ _ Hentries).
  destruct (walk_answers sdk limit base entries infos Hinfos []
              (((t ++ [ECall "Path" [base_dir] ∅])
                  ++ [ECall "Path.exists" [base] ∅])
                 ++ [ECall "Path.rglob" [base; VStr "*"] ∅])%list)
    as [t' Hwalk].
  exists t'. rewrite (run_bind_Ok _ _ _ _ _ Hwalk). simpl.
  by rewrite Nat.sub_0_r.
Qed.

(** X18 at the sample directory: the two files, the second without its
    size; the directory sub has no record. *)
Lemma X18_file_listing_witness :
  ∃ t',
    Files._list_files_recursive sdk_files (VStr "/tmp/m1") 200 []
    = (t', Ok (VList [file_record "a.txt" (VInt 3);
                      file_record "sub/b.bin" VNone])).
Proof.
  apply (X18_file_listing sdk_files (VStr "/tmp/m1") 200
           (VObj "PosixPath" {[ "name" := VStr "/tmp/m1" ]}) (VBool true)
           (VList [entry_path "a.txt"; entry_path "sub"; entry_path "sub/b.bin"])
           [entry_path "a.txt"; entry_path "sub"; entry_path "sub/b.bin"]
           [(true, "a.txt", VInt 3); (false, "", VNone);
            (true, "sub/b.bin", VNone)] []);
    try reflexivity.
  assert (∀ name size,
            (sdk_files "Path.stat" [entry_path name] ∅
             = Ok (VObj "stat_result" {[ "st_size" := size ]})
             ∨ (∃ e, sdk_files "Path.stat" [entry_path name] ∅ = Err e
                     ∧ is_OSError e = true ∧ size = VNone)) →
            entry_answers sdk_files
              (VObj "PosixPath" {[ "name" := VStr "/tmp/m1" ]})
              (entry_path name) (negb (String.eqb name "sub"), name, size))
    as Hfile.
  { intros name size Hstat. split; [by eexists|]. intros _. split.
    - eexists. split; [reflexivity|]. intros t. by eexists.
    - destruct Hstat as [Hstat|Hstat]; [left|by right]. by eexists. }
  constructor; [apply (Hfile "a.txt"); by left|].
  constructor; [split; [by eexists|done]|].
  constructor; [|constructor].
  apply (Hfile "sub/b.bin"). right. by eexists.
Defined.

(** ** The entry point *)

(** X19. [main] asks the environment for ORACLE_MCP_HOST and
    ORACLE_MCP_PORT.  The server runs over http, on that host and the
    port converted to an int, only when both are set and not empty; with
    either of them missing it runs with the default transport and the
    other one is ignored.  When the port is not a number, so that its
    conversion raises, [main] raises and the server is not run at all. *)
Theorem X19_main_transport (sdk : Provider) (host port : value)
    (t : list event) :
  sdk "os.getenv" [VStr "ORACLE_MCP_HOST"] ∅ = Ok host →
  sdk "os.getenv" [VStr "ORACLE_MCP_PORT"] ∅ = Ok port →
  let asked := [ECall "os.getenv" [VStr "ORACLE_MCP_HOST"] ∅;
                ECall "os.getenv" [VStr "ORACLE_MCP_PORT"] ∅] in
  (truthy host = false ∨ truthy port = false →
   main sdk t = ((t ++ asked ++ [ECall "mcp.run" [] ∅])%list,
                 sdk "mcp.run" [] ∅))
  ∧ (truthy host = true → truthy port = true →
     (∀ n,
        sdk "int" [port] ∅ = Ok n →
        let kwargs : gmap string value :=
          {[ "transport" := VStr "http"; "host" := host; "port" := n ]} in
        main sdk t
        = ((t ++ asked ++ [ECall "int" [port] ∅; ECall "mcp.run" [] kwargs])%list,
           sdk "mcp.run" [] kwargs))
     ∧ (∀ e,
          sdk "int" [port] ∅ = Err e →
          main sdk t = ((t ++ asked ++ [ECall "int" [port] ∅])%list, Err e))).
Proof.
  intros Hhost Hport asked. subst asked. unfold main. split.
  - intros Hfalsy. rewrite (run_call_Ok _ _ _ _ _ _ _ Hhost).
    rewrite (run_call_Ok _ _ _ _ _ _ _ Hport).
    assert (truthy host && truthy port = false) as ->.
    { destruct Hfalsy as [-> | ->]; [done|apply andb_false_r]. }
    unfold call. by rewrite <-!app_assoc.
  - intros Hh Hp. rewrite (run_call_Ok _ _ _ _ _ _ _ Hhost).
    rewrite (run_call_Ok _ _ _ _ _ _ _ Hport). rewrite Hh, Hp. cbn [andb].
    split.
    + intros n Hn. cbv zeta. rewrite (run_call_Ok _ _ _ _ _ _ _ Hn).
      unfold call. by rewrite <-!app_assoc.
    + intros e He. rewrite (run_call_Err _ _ _ _ _ _ _ He).
      by rewrite <-!app_assoc.
Qed.

(** X19 with the port set and the host not: the default transport. *)
Lemma X19_main_transport_witness :
  main sdk_port_only []
  = ([ECall "os.getenv" [VStr "ORACLE_MCP_HOST"] ∅;
      ECall "os.getenv" [VStr "ORACLE_MCP_PORT"] ∅;
      ECall "mcp.run" [] ∅], Ok VNone).
Proof.
  exact (proj1 (X19_main_transport sdk_port_only VNone (VStr "8080") []
                  eq_refl eq_refl) (or_introl eq_refl)).
Defined.

(** ** The download *)

Lemma try_download_returns sdk mid td t :
  ∃ dl, try_download sdk mid td t = ((t ++ dl)%list, Ok ()).
Proof.
  unfold try_download.
  set (from_id := ECall "GenericModel.from_id" [ostr mid] ∅).
  destruct (sdk "GenericModel.from_id" [ostr mid] ∅) as [model|e] eqn:Hm.
  - set (kwargs := ({[ "artifact_dir" := ostr td; "force_overwrite" := VBool true;
                      "remove_existing_artifact" := VBool true ]}
                    : gmap string value)).
    set (download := ECall "GenericModel.download_artifact" [model] kwargs).
    destruct (sdk "GenericModel.download_artifact" [model] kwargs)
      as [v|e] eqn:Hd.
    + exists [from_id; download]. apply run_try_except_Ok.
      rewrite (run_call_Ok _ _ _ _ _ _ _ Hm).
      rewrite (run_call_Ok _ _ _ _ _ _ _ Hd).
      unfold mret, M_ret. by rewrite <-app_assoc.
    + exists [from_id; download; ELog "ERROR" "Download failed but failed" []].
      rewrite (run_try_except_Err _ _ _ ((t ++ [from_id]) ++ [download])%list e).
      * unfold log. by rewrite <-!app_assoc.
      * rewrite (run_call_Ok _ _ _ _ _ _ _ Hm).
        by rewrite (run_call_Err _ _ _ _ _ _ _ Hd).
  - exists [from_id; ELog "ERROR" "Download failed but failed" []].
    rewrite (run_try_except_Err _ _ _ (t ++ [from_id])%list e).
    + unfold log. by rewrite <-!app_assoc.
    + by rewrite (run_call_Err _ _ _ _ _ _ _ Hm).
Qed.

(** X20. model_catalog "download" with model_id and target_dir present,
    when the listing of the target directory is answered: whether the
    requests of the download itself return or raise an exception of a
    built-in class derived from Exception, which the [except Exception]
    around them catches, the tool returns the payload made of the listing
    alone, the directory, its files and their number; the record of a
    warning follows the listing exactly when it is empty. *)
Theorem X20_download_reports_listing (sdk : Provider) (c : string)
    (project_id model_id target_dir model_version_set_id : option string)
    (limit : option Z) (files : list value) (t : list event) :
  present model_id → present target_dir →
  (∀ e, download_raises sdk model_id target_dir e → is_Exception e = true) →
  sdk "_list_files_recursive" [ostr target_dir] ∅ = Ok (VList files) →
  ∃ dl,
    try_download sdk model_id target_dir t = ((t ++ dl)%list, Ok ())
    ∧ data_science_model_catalog sdk "download" c project_id model_id
        target_dir model_version_set_id limit t
      = ((t ++ dl
            ++ ECall "_list_files_recursive" [ostr target_dir] ∅
               :: match files with
                  | [] =>
                      [ELog "WARNING"
                         "Model download completed but no files were found in target_dir=%s (model_id=%s). "
                         [ostr target_dir; ostr model_id]]
                  | _ => []
                  end)%list,
         Ok {[ "resource" := VStr "model_catalog"; "action" := VStr "download";
               "result" :=
                 VDict {[ "artifact_dir" := ostr target_dir;
                          "downloaded_files" := VList files;
                          "downloaded_files_count" :=
                            VInt (Z.of_nat (length files)) ]};
               "compartment_id" := VStr c ]}).
Proof.
  intros Hmid Htd _ Hfiles.
  destruct (try_download_returns sdk model_id target_dir t) as [dl Hdl].
  exists dl. split; [done|].
  unfold data_science_model_catalog. eqb_reduce. apply run_logged_Ok.
  rewrite !run_require_Ok by done.
  rewrite (run_bind_Ok _ _ _ _ _ Hdl).
  unfold _list_files_recursive. rewrite (run_call_Ok _ _ _ _ _ _ _ Hfiles).
  destruct files as [|f files].
  - cbn [truthy negb len]. unfold mbind at 1, M_bind at 1, log.
    rewrite (run_bind_Ok _ _ _ _ (VInt 0)) by done.
    rewrite run_ok by (by apply no_collision_singleton).
    by rewrite <-!app_assoc.
  - cbn [truthy negb len]. unfold mbind at 1, M_bind at 1, mret at 1, M_ret at 1.
    rewrite (run_bind_Ok _ _ _ _ (VInt (Z.of_nat (length (f :: files)))))
      by done.
    rewrite run_ok by (by apply no_collision_singleton).
    by rewrite <-!app_assoc.
Qed.

(** X20 at a download that raises a RuntimeError and leaves the target
    directory empty, and at one that succeeds into a directory of three
    files. *)
Lemma X20_download_reports_listing_witness :
  (∃ t' payload,
     data_science_model_catalog sdk_download_fails "download" "c" None
       (Some "m1") (Some "/tmp/out") None None []
     = (t', Ok payload)
     ∧ payload !! "result"
       = Some (VDict {[ "artifact_dir" := VStr "/tmp/out";
                        "downloaded_files" := VList [];
                        "downloaded_files_count" := VInt 0 ]}))
  ∧ (∃ t' payload,
       data_science_model_catalog sdk_canonical "download" "c" None (Some "m1")
         (Some "/tmp/out") None None []
       = (t', Ok payload)
       ∧ payload !! "result"
         = Some (VDict {[ "artifact_dir" := VStr "/tmp/out";
                          "downloaded_files" := VList three_entities;
                          "downloaded_files_count" := VInt 3 ]})).
Proof.
  split.
  - destruct (X20_download_reports_listing sdk_download_fails "c" None
                (Some "m1") (Some "/tmp/out") None None [] [])
      as (dl & _ & Hrun); [by apply present_Some..| |reflexivity|].
    { intros e [H|(model & _ & H)]; [done|]. by injection H as <-. }
    eexists _, _. split; [exact Hrun|reflexivity].
  - destruct (X20_download_reports_listing sdk_canonical "c" None (Some "m1")
                (Some "/tmp/out") None None three_entities [])
      as (dl & _ & Hrun); [by apply present_Some..| |reflexivity|].
    { by intros e [H|(model & _ & H)]. }
    eexists _, _. split; [exact Hrun|reflexivity].
Defined.

(** ** Jobs and deployments *)

(** X21. jobs "create_container" takes nothing from the parameters job_id,
    script_path, conda_env, shape, ocpus, memory_in_gbs,
    block_storage_size and new_display_name: the shape of the job is
    always "VM.Standard2.1".  jobs "create_script" with only one (or none)
    of ocpus and memory_in_gbs sends no shape-config request, whatever the
    shape. *)
Theorem X21_jobs_create_ignores (sdk : Provider)
    (compartment_id project_id display_name image : option string) :
  (∀ job_id script_path conda_env shape ocpus memory_in_gbs block_storage_size
     new_display_name job_id' script_path' conda_env' shape' ocpus'
     memory_in_gbs' block_storage_size' new_display_name',
     data_science_jobs sdk "create_container" compartment_id project_id job_id
       display_name script_path conda_env shape ocpus memory_in_gbs
       block_storage_size image new_display_name
     = data_science_jobs sdk "create_container" compartment_id project_id
         job_id' display_name script_path' conda_env' shape' ocpus'
         memory_in_gbs' block_storage_size' image new_display_name')
  ∧ (∀ job_id script_path conda_env shape ocpus memory_in_gbs
       block_storage_size new_display_name,
       ocpus = None ∨ memory_in_gbs = None →
       sends_only create_script_requests
         (data_science_jobs sdk "create_script" compartment_id project_id
            job_id display_name script_path conda_env shape ocpus
            memory_in_gbs block_storage_size image new_display_name)).
Proof.
  split.
  - intros. unfold data_science_jobs. by eqb_reduce.
  - intros job_id script_path conda_env shape ocpus memory_in_gbs
      block_storage_size new_display_name Hnone.
    unfold data_science_jobs. eqb_reduce.
    assert (negb (is_None (oint ocpus)) && negb (is_None (ofloat memory_in_gbs))
            = false) as ->.
    { destruct Hnone as [-> | ->]; [done|by destruct ocpus]. }
    repeat sends_step.
Qed.

(** X21 at a script job with ocpus 2 and no memory_in_gbs. *)
Lemma X21_jobs_create_ignores_witness :
  sends_only create_script_requests
    (data_science_jobs sdk_canonical "create_script" (Some "c") (Some "p") None
       (Some "job") (Some "train.py") "conda" "VM.Standard.E4.Flex" (Some 2)
       None 50 None None).
Proof.
  apply (proj2 (X21_jobs_create_ignores sdk_canonical (Some "c") (Some "p")
                  (Some "job") None)). by right.
Defined.

Ltac lookup_set_if :=
  unfold set_if;
  repeat match goal with
  | |- context [if ?b then _ else _] => destruct b
  end;
  rewrite ?lookup_insert_ne by done;
  first [apply lookup_insert_eq | apply lookup_singleton_ne; done | done].

(** X22. model_deployments "deploy" with its four required parameters
    present: the model is loaded by its id and one deploy request is sent
    on it.  Its keyword arguments always hold display_name, project_id,
    compartment_id and the shape; subnet_id, log_group, access_log and
    predict_log are handed on only when they are a str that is not empty,
    ocpus and memory_in_gbs whenever they are not None.  The payload holds
    the id and url of the deployment the request answered. *)
Theorem X22_deploy_kwargs (sdk : Provider)
    (compartment_id project_id model_id display_name deployment_id subnet_id
       log_group access_log predict_log : option string)
    (shape : string) (ocpus memory_in_gbs : option Z) (limit : option Z)
    (ds_client model deployment md : value) (t : list event) :
  present compartment_id → present project_id → present model_id →
  present display_name →
  sdk "get_data_science_client" [] ∅ = Ok ds_client →
  sdk "GenericModel.from_id" [ostr model_id] ∅ = Ok model →
  let kwargs := deploy_kwargs compartment_id project_id display_name subnet_id
                  log_group access_log predict_log shape ocpus memory_in_gbs in
  sdk "GenericModel.deploy" [model] kwargs = Ok deployment →
  attr deployment "model_deployment" = Ok md →
  data_science_model_deployments sdk "deploy" compartment_id project_id
    model_id display_name deployment_id subnet_id log_group access_log
    predict_log shape ocpus memory_in_gbs limit t
  = ((t ++ [ECall "get_data_science_client" [] ∅;
            ECall "GenericModel.from_id" [ostr model_id] ∅;
            ECall "GenericModel.deploy" [model] kwargs])%list,
     Ok {[ "resource" := VStr "model_deployments"; "action" := VStr "deploy";
           "result" := VDict {[ "deployment_id" := getattr md "id" VNone;
                                "url" := getattr md "url" VNone ]};
           "next_actions" :=
             VList [VStr "data_science_model_deployments(action='activate')"] ]})
  ∧ kwargs !! "deployment_instance_shape" = Some (VStr shape)
  ∧ kwargs !! "subnet_id"
    = (if truthy (ostr subnet_id) then Some (ostr subnet_id) else None)
  ∧ kwargs !! "deployment_log_group_id"
    = (if truthy (ostr log_group) then Some (ostr log_group) else None)
  ∧ kwargs !! "deployment_access_log_id"
    = (if truthy (ostr access_log) then Some (ostr access_log) else None)
  ∧ kwargs !! "deployment_predict_log_id"
    = (if truthy (ostr predict_log) then Some (ostr predict_log) else None)
  ∧ kwargs !! "deployment_ocpus" = VInt <$> ocpus
  ∧ kwargs !! "deployment_memory_in_gbs" = VInt <$> memory_in_gbs.
Proof.
  intros Hc Hp Hm Hd Hclient Hmodel kwargs Hdeploy Hmd. subst kwargs. split.
  - unfold data_science_model_deployments. apply run_logged_Ok.
    rewrite (run_call_Ok _ _ _ _ _ _ _ Hclient). eqb_reduce.
    rewrite !run_require_Ok by done.
    rewrite (run_call_Ok _ _ _ _ _ _ _ Hmodel). cbv zeta.
    unfold deploy_kwargs in Hdeploy.
    rewrite (run_call_Ok _ _ _ _ _ _ _ Hdeploy).
    rewrite (run_lift_Ok _ _ _ _ Hmd).
    rewrite run_ok by (by apply no_collision_singleton).
    by rewrite <-!app_assoc.
  - clear Hdeploy. unfold deploy_kwargs.
    destruct ocpus, memory_in_gbs; cbn [oint from_option is_None negb fmap option_fmap option_map];
      split_and!; lookup_set_if.
Qed.

(** X22 with an empty subnet_id and 2 ocpus: the subnet is not handed on,
    the ocpus are. *)
Lemma X22_deploy_kwargs_witness :
  deploy_kwargs (Some "c") (Some "p") (Some "d") (Some "") None None None
    "VM.Standard.E4.Flex" (Some 2) None !! "subnet_id" = None
  ∧ deploy_kwargs (Some "c") (Some "p") (Some "d") (Some "") None None None
      "VM.Standard.E4.Flex" (Some 2) None !! "deployment_ocpus"
    = Some (VInt 2).
Proof.
  destruct (X22_deploy_kwargs sdk_canonical (Some "c") (Some "p") (Some "m")
              (Some "d") None (Some "") None None None "VM.Standard.E4.Flex"
              (Some 2) None None entity entity
              (VObj "ModelDeployer" {[ "model_deployment" := entity ]}) entity [])
    as (_ & _ & Hsubnet & _ & _ & _ & Hocpus & _);
    first [by apply present_Some|reflexivity|done].
Defined.
